(** * ArkainBrain convergence tooling: a shallow embedding

    This development embeds, as executable Rocq definitions, the parts of
    the ArkainBrain pipeline that carry algorithmic content:

    - [tools/jurisdiction_profiles.py]: the jurisdiction profile table,
      [JurisdictionComplianceCheckerTool._run] and
      [GetJurisdictionProfileTool._run];
    - [tools/convergence_tools.py]: [FileReaderTool._run],
      [ConvergenceValidatorTool._run], [GDDPatchTool._run],
      [GDDQualityAuditorTool._run] and [PaytableSanityCheckerTool._run];
    - [flows/pipeline.py]: the OODA convergence loop of
      [run_design_and_math], the slug and the copy of existing outputs of
      [initialize], and [_should_skip_stage].

    Conventions of the embedding.

    - Python [str] values are [string]s whose characters are the code
      points below 256; [isspace] and [lower] follow Python on that
      range.  The slug of [initialize] is embedded on lists of code
      points of any kind, with [str.lower] and [str.isalnum] as inputs.
    - Python [int]s are [Z].  Python [float]s are exact rationals ([Q])
      where a tool is embedded on typed records; they are binary64
      floats ([PrimFloat.float]) in [ConvergenceValidatorOnJson], which
      embeds the validator on the parsed simulation file with the
      interpreter's arithmetic and the exceptions it raises.
    - Values parsed by [json.loads] are typed records where a property
      is about well-formed files, and the values of [Json.json] in
      [ConvergenceValidatorOnJson] and [RunDesignAndMath], where an
      operation on an unexpected value raises and the exception leaves
      the function.
    - [GDDPatchFile] runs the patch applier on the characters stored in
      the file, with the newline translation of [read_text] and
      [write_text].
    - A Python [dict] whose iteration order matters is an association
      list in insertion order.
    - Text built with f-strings for human consumption ([detail], [fix])
      is kept as structured data: the constructor names the template and
      its arguments are the interpolated values.
    - Files are read through an explicit record of the artifacts; the
      results of [csv] and [json] parsing are inputs of that record.
    - Python's [re] engine is an input where a pattern is applied as
      written ([re.findall] of the auditor); the patterns of the patch
      applier, of the auditor's section split and of the result parser
      are embedded as scanners. *)

From Stdlib Require Import List String Ascii ZArith QArith Qabs Lia Bool Arith.
From Stdlib Require Import Sorted.
From Stdlib Require Floats.
Import ListNotations.
Close Scope Q_scope.
Open Scope string_scope.
Open Scope list_scope.
Open Scope nat_scope.

(** * Part I: definitions *)

(** ** Python string and container primitives *)

Module Py.

(** [str.isspace] on a single character (code points below 256). *)
Definition isspace (c : ascii) : bool :=
  let n := nat_of_ascii c in
  ((9 <=? n) && (n <=? 13)) || ((28 <=? n) && (n <=? 32))
  || (n =? 133) || (n =? 160).

Definition lower_char (c : ascii) : ascii :=
  let n := nat_of_ascii c in
  if ((65 <=? n) && (n <=? 90))
     || ((192 <=? n) && (n <=? 222) && negb (n =? 215))
  then ascii_of_nat (n + 32) else c.

(** [str.lower] *)
Fixpoint lower (s : string) : string :=
  match s with
  | EmptyString => EmptyString
  | String c s' => String (lower_char c) (lower s')
  end.

Fixpoint lstrip (s : string) : string :=
  match s with
  | EmptyString => EmptyString
  | String c s' => if isspace c then lstrip s' else s
  end.

Fixpoint rstrip (s : string) : string :=
  match s with
  | EmptyString => EmptyString
  | String c s' =>
      match rstrip s' with
      | EmptyString => if isspace c then EmptyString else String c EmptyString
      | r => String c r
      end
  end.

(** [str.strip] with no argument. *)
Definition strip (s : string) : string := rstrip (lstrip s).

(** [s.startswith(p)] *)
Fixpoint startswith (p s : string) : bool :=
  match p, s with
  | EmptyString, _ => true
  | String _ _, EmptyString => false
  | String a p', String b s' => Ascii.eqb a b && startswith p' s'
  end.

(** Every character is whitespace (true of the empty string). *)
Fixpoint all_space (s : string) : bool :=
  match s with
  | EmptyString => true
  | String c s' => isspace c && all_space s'
  end.

(** [needle in hay] for strings. *)
Fixpoint contains (needle hay : string) : bool :=
  startswith needle hay
  || match hay with
     | EmptyString => false
     | String _ hay' => contains needle hay'
     end.

(** [s.replace(a, b)] for one-character [a] and [b]. *)
Fixpoint replace_char (a b : ascii) (s : string) : string :=
  match s with
  | EmptyString => EmptyString
  | String c s' =>
      String (if Ascii.eqb c a then b else c) (replace_char a b s')
  end.

(** [s[:n]] and [s[n:]] for [0 <= n]. *)
Fixpoint take (n : nat) (s : string) : string :=
  match n, s with
  | S n', String c s' => String c (take n' s')
  | _, _ => EmptyString
  end.

Fixpoint drop (n : nat) (s : string) : string :=
  match n, s with
  | S n', String _ s' => drop n' s'
  | _, _ => s
  end.

Definition nl : ascii := "010"%char.

(** [s.split("\n")] *)
Fixpoint split_nl (s : string) : list string :=
  match s with
  | EmptyString => [EmptyString]
  | String c s' =>
      if Ascii.eqb c nl then EmptyString :: split_nl s'
      else match split_nl s' with
           | l :: ls => String c l :: ls
           | [] => [String c EmptyString]
           end
  end.

(** Truthiness of a string (non-empty). *)
Definition nonempty (s : string) : bool :=
  match s with
  | EmptyString => false
  | String _ _ => true
  end.

(** Truthiness of an optional integer ([None] and [0] are falsy). *)
Definition truthy_int (x : option Z) : bool :=
  match x with
  | Some z => negb (z =? 0)%Z
  | None => false
  end.

(** [d.get(k)] on an insertion-ordered dictionary. *)
Fixpoint dict_get {V : Type} (d : list (string * V)) (k : string) : option V :=
  match d with
  | [] => None
  | (k', v) :: d' => if String.eqb k' k then Some v else dict_get d' k
  end.

(** [d[k] = v]: overwrite in place, or append a new key. *)
Fixpoint dict_set {V : Type} (d : list (string * V)) (k : string) (v : V)
  : list (string * V) :=
  match d with
  | [] => [(k, v)]
  | (k', v') :: d' =>
      if String.eqb k' k then (k, v) :: d' else (k', v') :: dict_set d' k v
  end.

Definition dict_keys {V : Type} (d : list (string * V)) : list string :=
  map fst d.

(** Membership in a list of strings ([x in l]). *)
Definition mem (x : string) (l : list string) : bool :=
  existsb (String.eqb x) l.

(** [set.add] and [set.update], sets being kept as duplicate-free lists. *)
Definition set_add (x : string) (s : list string) : list string :=
  if mem x s then s else s ++ [x].

Definition set_update (s xs : list string) : list string :=
  fold_left (fun acc x => set_add x acc) xs s.

Fixpoint insert_sorted (x : string) (l : list string) : list string :=
  match l with
  | [] => [x]
  | y :: l' => if String.leb x y then x :: l else y :: insert_sorted x l'
  end.

(** [sorted(xs)] on strings (code-point order). *)
Definition sorted (xs : list string) : list string :=
  fold_right insert_sorted [] xs.

(** Two-argument [max] on floats: the first argument wins ties. *)
Definition max (a b : Q) : Q := if Qle_bool b a then a else b.

(** [a < b] on floats. *)
Definition Qlt_bool (a b : Q) : bool := negb (Qle_bool b a).

End Py.

(** ** tools/jurisdiction_profiles.py *)

Module Jurisdiction.

(** One entry of [JURISDICTION_PROFILES].  Only the fields read by the
    compliance checker are kept; purely descriptive fields (authority,
    standard, notes, content restrictions, testing labs, data privacy)
    are left out.  [responsible_gambling] maps each feature to the value
    of its ["required"] flag; [min_game_cycle_time_ms] is [None] when the
    profile has no such key (or no ["technical_requirements"] at all). *)
Record profile := {
  rtp_min : Q;
  rtp_max : Q;
  cap_x : option Z;
  banned : list string;
  restricted : list string;
  responsible_gambling : list (string * bool);
  min_game_cycle_time_ms : option Z;
  submission_documents : list string
}.

Definition UK : profile := {|
  rtp_min := 70; rtp_max := 999 # 10;
  cap_x := None;
  banned := ["bonus_buy"];
  restricted := ["autoplay_speed_over_2.5s"];
  responsible_gambling :=
    [("reality_check", true); ("session_timer", true); ("net_position", true);
     ("loss_limits", true); ("deposit_limits", true); ("self_exclusion", true);
     ("panic_button", true); ("rg_messaging", true)];
  min_game_cycle_time_ms := Some 2500%Z;
  submission_documents :=
    ["Game rules document (player-facing)";
     "PAR sheet (RTP breakdown, hit frequency, volatility)";
     "Complete paytable with all pay combinations";
     "Reel strip data (all reel sets)";
     "Feature description with trigger rates and expected value";
     "RNG certificate";
     "Responsible gambling implementation details"]
|}.

Definition Malta : profile := {|
  rtp_min := 85; rtp_max := 999 # 10;
  cap_x := None;
  banned := [];
  restricted := [];
  responsible_gambling :=
    [("reality_check", true); ("session_timer", true); ("net_position", false);
     ("loss_limits", true); ("deposit_limits", true); ("self_exclusion", true);
     ("panic_button", false); ("rg_messaging", true)];
  min_game_cycle_time_ms := Some 1000%Z;
  submission_documents :=
    ["Game rules"; "PAR sheet"; "Paytable"; "Reel strips";
     "RNG certificate"; "Feature documentation"]
|}.

Definition Ontario : profile := {|
  rtp_min := 85; rtp_max := 999 # 10;
  cap_x := None;
  banned := [];
  restricted := ["bonus_buy"];
  responsible_gambling :=
    [("reality_check", true); ("session_timer", true); ("net_position", true);
     ("loss_limits", true); ("deposit_limits", true); ("self_exclusion", true);
     ("panic_button", true); ("rg_messaging", true);
     ("play_break_reminders", true)];
  min_game_cycle_time_ms := Some 2000%Z;
  submission_documents :=
    ["Game rules"; "PAR sheet"; "Paytable"; "Reel strips";
     "RNG certificate"; "RG implementation details"; "Feature documentation"]
|}.

Definition Sweden : profile := {|
  rtp_min := 80; rtp_max := 999 # 10;
  cap_x := None;
  banned := ["bonus_buy"; "autoplay"];
  restricted := ["turbo_spin"];
  responsible_gambling :=
    [("reality_check", true); ("session_timer", true); ("net_position", true);
     ("loss_limits", true); ("deposit_limits", true); ("self_exclusion", true);
     ("panic_button", true); ("rg_messaging", true)];
  min_game_cycle_time_ms := Some 3000%Z;
  submission_documents :=
    ["Game rules"; "PAR sheet"; "Paytable"; "Reel strips";
     "RNG certificate"; "RG implementation"; "Autoplay removal proof"]
|}.

Definition New_Jersey : profile := {|
  rtp_min := 83; rtp_max := 999 # 10;
  cap_x := None;
  banned := [];
  restricted := [];
  responsible_gambling :=
    [("reality_check", false); ("session_timer", true); ("loss_limits", true);
     ("deposit_limits", true); ("self_exclusion", true); ("rg_messaging", true)];
  min_game_cycle_time_ms := Some 1500%Z;
  submission_documents :=
    ["Game rules"; "PAR sheet"; "Paytable"; "Reel strips";
     "RNG certificate"; "Geolocation implementation details"]
|}.

Definition Spain : profile := {|
  rtp_min := 85; rtp_max := 999 # 10;
  cap_x := None;
  banned := ["bonus_buy"];
  restricted := ["autoplay"];
  responsible_gambling :=
    [("reality_check", true); ("session_timer", true); ("loss_limits", true);
     ("deposit_limits", true); ("self_exclusion", true); ("rg_messaging", true)];
  min_game_cycle_time_ms := None;
  submission_documents :=
    ["Game rules (Spanish translation required)"; "PAR sheet"; "Paytable";
     "Reel strips"; "RNG certificate"; "RG implementation"]
|}.

Definition Curacao : profile := {|
  rtp_min := 75; rtp_max := 999 # 10;
  cap_x := None;
  banned := [];
  restricted := [];
  responsible_gambling :=
    [("reality_check", false); ("session_timer", false); ("loss_limits", false);
     ("deposit_limits", true); ("self_exclusion", true); ("rg_messaging", true)];
  min_game_cycle_time_ms := Some 500%Z;
  submission_documents := ["Game rules"; "RNG certificate"; "Basic paytable"]
|}.

Definition Georgia : profile := {|
  rtp_min := 75; rtp_max := 999 # 10;
  cap_x := None;
  banned := [];
  restricted := [];
  responsible_gambling := [("rg_messaging", true); ("self_exclusion", true)];
  min_game_cycle_time_ms := None;
  submission_documents :=
    ["Game rules"; "PAR sheet"; "Paytable"; "RNG certificate"]
|}.

Definition Texas : profile := {|
  rtp_min := 75; rtp_max := 999 # 10;
  cap_x := None;
  banned := [];
  restricted := [];
  responsible_gambling := [("rg_messaging", true); ("self_exclusion", true)];
  min_game_cycle_time_ms := None;
  submission_documents :=
    ["Game rules"; "PAR sheet"; "Paytable"; "RNG certificate"]
|}.

(** The master table, in source order. *)
Definition JURISDICTION_PROFILES : list (string * profile) :=
  [("UK", UK); ("Malta", Malta); ("Ontario", Ontario); ("Sweden", Sweden);
   ("New Jersey", New_Jersey); ("Spain", Spain); ("Curacao", Curacao);
   ("Georgia", Georgia); ("Texas", Texas)].

(** Profile lookup shared by both tools of the file: exact key first,
    then the first key equal to the name once both are lower-cased and
    the name is stripped.  The key found replaces the name. *)
Definition lookup_profile (market_name : string) : option (string * profile) :=
  match Py.dict_get JURISDICTION_PROFILES market_name with
  | Some p => Some (market_name, p)
  | None =>
      find (fun kv => String.eqb (Py.lower (fst kv))
                                 (Py.strip (Py.lower market_name)))
           JURISDICTION_PROFILES
  end.

End Jurisdiction.

Module JurisdictionComplianceCheckerTool.
Import Jurisdiction.

Inductive status := PASS | FAIL | WARN | INFO.

Definition status_eqb (a b : status) : bool :=
  match a, b with
  | PASS, PASS | FAIL, FAIL | WARN, WARN | INFO, INFO => true
  | _, _ => false
  end.

(** One entry of a market's ["checks"] list (the [detail] text is the
    only key left out). *)
Record check := { category : string; check_status : status }.

(** Entries of [results["blockers"]], one constructor per f-string. *)
Inductive blocker :=
| RtpOutsideRange (market : string) (proposed_rtp min_rtp max_rtp : Q)
| MaxWinExceedsCap (market : string) (proposed_max_win cap : Z)
| BannedFeaturesUsed (market : string) (hits : list string).

(** Entries of [results["warnings"]]. *)
Inductive warning :=
| RestrictedFeatures (market : string) (hits : list string).

Record market_checks := {
  market : string;
  checks : list check;
  total_pass : nat;
  total_fail : nat
}.

(** Values stored under the keys of [results["intersection"]]. *)
Inductive value :=
| VFloat (q : Q)
| VInt (z : Z)
| VBool (b : bool)
| VStrings (l : list string).

Inductive verdict := BLOCKED | CONDITIONAL_PASS | CLEAR.

Record results := {
  markets_checked : list string;
  unknown_markets : list string;
  blockers : list blocker;
  warnings : list warning;
  per_market : list (string * market_checks);
  intersection : list (string * value);
  submission_checklist : list string;
  verdict_of : verdict
}.

(** The local variables the [for market_name in markets] loop updates. *)
Record loop_state := {
  l_checked : list string;
  l_unknown : list string;
  l_blockers : list blocker;
  l_warnings : list warning;
  l_per_market : list (string * market_checks);
  all_required_rg : list string;
  all_banned : list string;
  all_submission_docs : list string;
  tightest_min_rtp : Q;
  slowest_cycle_ms : Z
}.

Definition initial_state : loop_state := {|
  l_checked := []; l_unknown := []; l_blockers := []; l_warnings := [];
  l_per_market := [];
  all_required_rg := []; all_banned := []; all_submission_docs := [];
  tightest_min_rtp := 0; slowest_cycle_ms := 0
|}.

Definition count_status (s : status) (cs : list check) : nat :=
  List.length (filter (fun c => status_eqb (check_status c) s) cs).

(** Names of the responsible-gambling features whose ["required"] flag
    is truthy, in dictionary order. *)
Definition required_rg (p : profile) : list string :=
  map fst (filter snd (responsible_gambling p)).

(** One iteration of the loop body. *)
Definition check_market (proposed_rtp : Q) (proposed_max_win : Z)
    (proposed_features : list string)
    (st : loop_state) (market_name : string) : loop_state :=
  match lookup_profile market_name with
  | None =>
      {| l_checked := l_checked st;
         l_unknown := l_unknown st ++ [market_name];
         l_blockers := l_blockers st; l_warnings := l_warnings st;
         l_per_market := l_per_market st;
         all_required_rg := all_required_rg st;
         all_banned := all_banned st;
         all_submission_docs := all_submission_docs st;
         tightest_min_rtp := tightest_min_rtp st;
         slowest_cycle_ms := slowest_cycle_ms st |}
  | Some (market_name, profile) =>
      (* RTP check *)
      let min_rtp := rtp_min profile in
      let max_rtp := rtp_max profile in
      let rtp_ok := Qle_bool min_rtp proposed_rtp
                    && Qle_bool proposed_rtp max_rtp in
      let checks1 := [{| category := "RTP";
                         check_status := if rtp_ok then PASS else FAIL |}] in
      let blockers1 :=
        if rtp_ok then l_blockers st
        else l_blockers st
             ++ [RtpOutsideRange market_name proposed_rtp min_rtp max_rtp] in
      (* Max win check *)
      let cap := cap_x profile in
      let over_cap :=
        match cap with
        | Some c => negb (c =? 0)%Z && (c <? proposed_max_win)%Z
        | None => false
        end in
      let checks2 :=
        checks1 ++ [{| category := "Max Win";
                       check_status := if over_cap then FAIL else PASS |}] in
      let blockers2 :=
        match cap with
        | Some c =>
            if over_cap
            then blockers1 ++ [MaxWinExceedsCap market_name proposed_max_win c]
            else blockers1
        | None => blockers1
        end in
      (* Feature bans *)
      let banned_hits :=
        filter (fun f => Py.mem f (banned profile)) proposed_features in
      let restricted_hits :=
        filter (fun f => Py.mem f (restricted profile)) proposed_features in
      let has_banned := negb (Nat.eqb (List.length banned_hits) 0) in
      let checks3 :=
        checks2 ++ [{| category := "Banned Features";
                       check_status := if has_banned then FAIL else PASS |}] in
      let blockers3 :=
        if has_banned
        then blockers2 ++ [BannedFeaturesUsed market_name banned_hits]
        else blockers2 in
      let banned' :=
        if has_banned then Py.set_update (all_banned st) banned_hits
        else all_banned st in
      let has_restricted := negb (Nat.eqb (List.length restricted_hits) 0) in
      let checks4 :=
        if has_restricted
        then checks3 ++ [{| category := "Restricted Features";
                            check_status := WARN |}]
        else checks3 in
      let warnings' :=
        if has_restricted
        then l_warnings st ++ [RestrictedFeatures market_name restricted_hits]
        else l_warnings st in
      (* Responsible gambling requirements *)
      let rg' := Py.set_update (all_required_rg st) (required_rg profile) in
      let checks5 :=
        checks4 ++ [{| category := "Responsible Gambling";
                       check_status := INFO |}] in
      (* Technical requirements *)
      let cycle_ms :=
        match min_game_cycle_time_ms profile with
        | Some ms => ms
        | None => 0%Z
        end in
      let checks6 :=
        checks5 ++ [{| category := "Technical"; check_status := INFO |}] in
      (* Submission docs *)
      let docs' :=
        Py.set_update (all_submission_docs st) (submission_documents profile) in
      let entry := {| market := market_name; checks := checks6;
                      total_pass := count_status PASS checks6;
                      total_fail := count_status FAIL checks6 |} in
      {| l_checked := l_checked st ++ [market_name];
         l_unknown := l_unknown st;
         l_blockers := blockers3; l_warnings := warnings';
         l_per_market := Py.dict_set (l_per_market st) market_name entry;
         all_required_rg := rg';
         all_banned := banned';
         all_submission_docs := docs';
         tightest_min_rtp := Py.max (tightest_min_rtp st) min_rtp;
         slowest_cycle_ms := Z.max (slowest_cycle_ms st) cycle_ms |}
  end.

(** The dictionary literal assigned to [results["intersection"]]. *)
Definition build_intersection (proposed_rtp : Q) (st : loop_state)
  : list (string * value) :=
  [("tightest_min_rtp", VFloat (tightest_min_rtp st));
   ("rtp_compliant", VBool (Qle_bool (tightest_min_rtp st) proposed_rtp));
   ("features_banned_in_any_market", VStrings (Py.sorted (all_banned st)));
   ("all_required_rg_features", VStrings (Py.sorted (all_required_rg st)));
   ("slowest_min_cycle_ms", VInt (slowest_cycle_ms st))].

(** [JurisdictionComplianceCheckerTool._run], up to the final
    [json.dumps] and the [summary] text. *)
Definition _run (markets : list string) (proposed_rtp : Q)
    (proposed_max_win : Z) (proposed_features : list string) : results :=
  let st := fold_left
              (check_market proposed_rtp proposed_max_win proposed_features)
              markets initial_state in
  {| markets_checked := l_checked st;
     unknown_markets := l_unknown st;
     blockers := l_blockers st;
     warnings := l_warnings st;
     per_market := l_per_market st;
     intersection := build_intersection proposed_rtp st;
     submission_checklist := Py.sorted (all_submission_docs st);
     verdict_of :=
       match l_blockers st, l_warnings st with
       | _ :: _, _ => BLOCKED
       | [], _ :: _ => CONDITIONAL_PASS
       | [], [] => CLEAR
       end |}.

(** The profiles a list of market names resolves to, unknown names
    dropped, in the order the loop meets them. *)
Definition resolved_profiles (markets : list string) : list profile :=
  flat_map
    (fun m => match lookup_profile m with
              | Some (_, p) => [p]
              | None => []
              end)
    markets.

End JurisdictionComplianceCheckerTool.

(** ** tools/convergence_tools.py: the convergence validator *)

Module ConvergenceValidatorTool.

Inductive severity := BLOCKER | HIGH.

Inductive conflict_type :=
| MISSING_FILE
| RTP_DEVIATION
| MAX_WIN_EXCEEDED
| JURISDICTION_MAX_WIN
| RTP_BREAKDOWN_MISMATCH.

(** The artifact a [MISSING_FILE] conflict is about. *)
Inductive artifact := Gdd | Paytable | SimulationResults | BaseReels.

(** The values interpolated in a conflict's [detail] and [fix] texts. *)
Inductive conflict_detail :=
| NotFound (a : artifact)
| Deviates (measured_rtp deviation target_rtp : Q)
| ExceedsTarget (max_win_achieved : Q) (max_win_target : Z)
| ExceedsMarketCap (max_win_achieved : Q) (market : string) (cap : Z)
| BreakdownGap (total measured_rtp : Q).

Record conflict := {
  c_type : conflict_type;
  c_severity : severity;
  c_detail : conflict_detail;
  instruction_to : option string
}.

(** The two shapes of conflict dictionaries [_run] builds: a missing
    file, and a finding addressed to the mathematician. *)
Definition missing_file (a : artifact) (sev : severity)
    (to : option string) : conflict :=
  {| c_type := MISSING_FILE; c_severity := sev;
     c_detail := NotFound a; instruction_to := to |}.

Definition for_mathematician (ty : conflict_type) (sev : severity)
    (d : conflict_detail) : conflict :=
  {| c_type := ty; c_severity := sev; c_detail := d;
     instruction_to := Some "mathematician" |}.

(** Entries of [warnings].  [RTP_OFF_TARGET] is the warning whose type
    string is ["RTP_DEVIATION"], a name the conflict type already has. *)
Inductive warning :=
| PARSE_ERROR (a : artifact)
| RTP_OFF_TARGET (measured_rtp deviation : Q)
| FEATURE_UNCOSTED (gdd_term : string)
| LOW_SYMBOL_COUNT (symbols : nat).

(** Entries of [checks_passed], one constructor per message. *)
Inductive passed :=
| GddFileExists
| PaytableSymbols (n : nat)
| SimulationSpins (total_spins : option Z)
| RtpOnTarget (measured_rtp target_rtp deviation : Q)
| MaxWinWithinCap (max_win_achieved : Q) (market : string) (cap : Z)
| BreakdownSumsTo (total measured_rtp : Q)
| ReelPositions (positions : Z).

Inductive verdict := NOT_CONVERGED | MARGINAL | CONVERGED.

(** Jurisdiction max win caps ([None] is "no cap"). *)
Definition MAX_WIN_CAPS : list (string * option Z) :=
  [("uk", Some 10000%Z); ("ontario", Some 10000%Z); ("sweden", Some 10000%Z);
   ("malta", Some 50000%Z); ("curacao", None);
   ("new jersey", Some 50000%Z); ("michigan", Some 50000%Z);
   ("pennsylvania", Some 50000%Z); ("west virginia", Some 50000%Z);
   ("georgia", None); ("texas", None)].

(** A value of the ["rtp_breakdown"] dictionary: a number, a boolean
    (an [int] for [isinstance]), or anything else. *)
Inductive bvalue := BNum (q : Q) | BBool (b : bool) | BOther.

(** The keys of [simulation_results.json] the validator reads.  A field
    is [None] when the key is absent or [null]; [rtp_breakdown] is empty
    when absent; [other_keys] lists whatever other keys the object has,
    which only matters for its truthiness. *)
Record simulation := {
  measured_rtp : option Q;
  max_win_achieved : option Q;
  total_spins : option Z;
  rtp_breakdown : list (string * bvalue);
  other_keys : list string
}.

(** The dictionary [sim] stays at when the file is missing or unparsable. *)
Definition empty_sim : simulation := {|
  measured_rtp := None; max_win_achieved := None; total_spins := None;
  rtp_breakdown := []; other_keys := []
|}.

Inductive paytable_file :=
| PaytableMissing
| PaytableRead (symbols : list string)
| PaytableBroken (symbols_before_error : list string).

Inductive simulation_file :=
| SimulationMissing
| SimulationRead (sim : simulation)
| SimulationBroken.

(** What the validator finds under [output_dir]. *)
Record artifacts := {
  gdd_md : option string;
  paytable_csv : paytable_file;
  simulation_results_json : simulation_file;
  BaseReels_csv : option string
}.

(** What one numbered block of [_run] appends to the three lists. *)
Record appended := {
  conflicts : list conflict;
  warnings : list warning;
  checks_passed : list passed
}.

Definition nothing : appended :=
  {| conflicts := []; warnings := []; checks_passed := [] |}.

Definition a_conflict (c : conflict) : appended :=
  {| conflicts := [c]; warnings := []; checks_passed := [] |}.

Definition a_warning (w : warning) : appended :=
  {| conflicts := []; warnings := [w]; checks_passed := [] |}.

Definition a_passed (p : passed) : appended :=
  {| conflicts := []; warnings := []; checks_passed := [p] |}.

Definition seq_app (a b : appended) : appended :=
  {| conflicts := conflicts a ++ conflicts b;
     warnings := warnings a ++ warnings b;
     checks_passed := checks_passed a ++ checks_passed b |}.

Definition all_app (l : list appended) : appended :=
  fold_right seq_app nothing l.

(** 1. Read GDD *)
Definition gdd_text (fs : artifacts) : string :=
  match gdd_md fs with
  | Some t => t
  | None => EmptyString
  end.

Definition read_gdd (fs : artifacts) : appended :=
  match gdd_md fs with
  | Some _ => a_passed GddFileExists
  | None =>
      a_conflict (missing_file Gdd BLOCKER None)
  end.

(** 2. Read Paytable CSV: the dictionary keyed by symbol. *)
Definition paytable (fs : artifacts) : list string :=
  match paytable_csv fs with
  | PaytableMissing => []
  | PaytableRead syms => Py.set_update [] syms
  | PaytableBroken syms => Py.set_update [] syms
  end.

Definition read_paytable (fs : artifacts) : appended :=
  match paytable_csv fs with
  | PaytableRead _ => a_passed (PaytableSymbols (List.length (paytable fs)))
  | PaytableBroken _ => a_warning (PARSE_ERROR Paytable)
  | PaytableMissing =>
      a_conflict (missing_file Paytable BLOCKER None)
  end.

(** 3. Read Simulation Results *)
Definition sim (fs : artifacts) : simulation :=
  match simulation_results_json fs with
  | SimulationRead s => s
  | _ => empty_sim
  end.

Definition read_simulation (fs : artifacts) : appended :=
  match simulation_results_json fs with
  | SimulationRead s => a_passed (SimulationSpins (total_spins s))
  | SimulationBroken => a_warning (PARSE_ERROR SimulationResults)
  | SimulationMissing =>
      a_conflict (missing_file SimulationResults HIGH None)
  end.

(** 4. RTP Check *)
Definition rtp_check (s : simulation) (target_rtp : Q) : appended :=
  match measured_rtp s with
  | Some m =>
      let deviation := Qabs (m - target_rtp) in
      if Py.Qlt_bool 1 deviation then
        a_conflict (for_mathematician RTP_DEVIATION BLOCKER
            (Deviates m deviation target_rtp))
      else if Py.Qlt_bool (1 # 2) deviation then
        a_warning (RTP_OFF_TARGET m deviation)
      else a_passed (RtpOnTarget m target_rtp deviation)
  | None => nothing
  end.

(** 5. Max Win Check: one market of the jurisdiction-cap loop. *)
Definition market_cap_check (achieved : Q) (market : string) : appended :=
  match Py.dict_get MAX_WIN_CAPS (Py.strip (Py.lower market)) with
  | Some (Some cap) =>
      if negb (cap =? 0)%Z then
        if Py.Qlt_bool (inject_Z cap) achieved then
          a_conflict (for_mathematician JURISDICTION_MAX_WIN BLOCKER
            (ExceedsMarketCap achieved market cap))
        else a_passed (MaxWinWithinCap achieved market cap)
      else nothing
  | _ => nothing
  end.

Definition max_win_check (s : simulation) (max_win_target : Z)
    (target_markets : list string) : appended :=
  match max_win_achieved s with
  | Some achieved =>
      seq_app
        (if Py.Qlt_bool (inject_Z max_win_target * (12 # 10)) achieved then
           a_conflict (for_mathematician MAX_WIN_EXCEEDED HIGH
            (ExceedsTarget achieved max_win_target))
         else nothing)
        (all_app (map (market_cap_check achieved) target_markets))
  | None => nothing
  end.

(** 6. RTP Breakdown Consistency *)
Definition breakdown_total (b : list (string * bvalue)) : Q :=
  fold_left
    (fun acc kv =>
       match snd kv with
       | BNum q => acc + q
       | BBool true => acc + 1
       | BBool false => acc + 0
       | BOther => acc
       end)%Q
    b 0%Q.

Definition breakdown_check (s : simulation) : appended :=
  match rtp_breakdown s with
  | [] => nothing
  | _ :: _ =>
      let total := breakdown_total (rtp_breakdown s) in
      match measured_rtp s with
      | Some m =>
          if Qeq_bool m 0 then nothing
          else if Py.Qlt_bool 1 (Qabs (total - m)) then
            a_conflict (for_mathematician RTP_BREAKDOWN_MISMATCH HIGH
            (BreakdownGap total m))
          else a_passed (BreakdownSumsTo total m)
      | None => nothing
      end
  end.

(** 7. GDD Feature vs Math Feature Alignment *)
Definition feature_keywords : list (string * string) :=
  [("free spins", "free_games");
   ("cascading", "cascading_reels");
   ("hold and spin", "hold_and_spin");
   ("bonus buy", "bonus_buy");
   ("expanding wild", "expanding_wilds");
   ("multiplier", "multiplier");
   ("jackpot", "jackpots")].

(** Truthiness of the [sim] dictionary: it has at least one key. *)
Definition sim_truthy (s : simulation) : bool :=
  match measured_rtp s, max_win_achieved s, total_spins s,
        rtp_breakdown s, other_keys s with
  | None, None, None, [], [] => false
  | _, _, _, _, _ => true
  end.

Definition has_math (s : simulation) (gdd_term math_key : string) : bool :=
  existsb
    (fun k => Py.contains math_key (Py.lower k)
              || Py.contains (Py.replace_char " " "_" gdd_term) (Py.lower k))
    (Py.dict_keys (rtp_breakdown s)).

Definition feature_alignment (fs : artifacts) : appended :=
  if Py.nonempty (gdd_text fs) && sim_truthy (sim fs) then
    let gdd_lower := Py.lower (gdd_text fs) in
    all_app
      (map (fun kw : string * string =>
              let (gdd_term, math_key) := kw in
              if Py.contains gdd_term gdd_lower then
                if negb (has_math (sim fs) gdd_term math_key)
                   && negb (Nat.eqb (List.length (rtp_breakdown (sim fs))) 0)
                then a_warning (FEATURE_UNCOSTED gdd_term)
                else nothing
              else nothing)
           feature_keywords)
  else nothing.

(** 8. Symbol Count Consistency *)
Definition symbol_count_check (fs : artifacts) : appended :=
  match paytable fs with
  | [] => nothing
  | _ :: _ =>
      if Py.nonempty (gdd_text fs) && (List.length (paytable fs) <? 8)
      then a_warning (LOW_SYMBOL_COUNT (List.length (paytable fs)))
      else nothing
  end.

(** 9. Reel Strips Exist *)
Definition reel_lines (reel_text : string) : list string :=
  filter (fun l => Py.nonempty (Py.strip l))
         (Py.split_nl (Py.strip reel_text)).

Definition reels_check (fs : artifacts) : appended :=
  match BaseReels_csv fs with
  | Some reel_text =>
      a_passed
        (ReelPositions (Z.of_nat (List.length (reel_lines reel_text)) - 1)%Z)
  | None =>
      match paytable fs with
      | _ :: _ =>
          a_conflict (missing_file BaseReels HIGH (Some "mathematician"))
      | [] => nothing
      end
  end.

(** 10. Convergence Decision *)
Definition is_blocker (c : conflict) : bool :=
  match c_severity c with BLOCKER => true | HIGH => false end.

Definition is_high (c : conflict) : bool :=
  match c_severity c with HIGH => true | BLOCKER => false end.

Definition decide (r : appended) : verdict :=
  let blocker_count := List.length (filter is_blocker (conflicts r)) in
  let high_count := List.length (filter is_high (conflicts r)) in
  if 0 <? blocker_count then NOT_CONVERGED
  else if 0 <? high_count then NOT_CONVERGED
  else if 3 <? List.length (warnings r) then MARGINAL
  else CONVERGED.

(** The three lists at the end of [_run], blocks 1 to 9 in order. *)
Definition report (fs : artifacts) (target_rtp : Q) (max_win_target : Z)
    (target_markets : list string) : appended :=
  all_app
    [read_gdd fs;
     read_paytable fs;
     read_simulation fs;
     rtp_check (sim fs) target_rtp;
     max_win_check (sim fs) max_win_target target_markets;
     breakdown_check (sim fs);
     feature_alignment fs;
     symbol_count_check fs;
     reels_check fs].

(** The [MAX_WIN_EXCEEDED] detail text divides the achieved max win by
    [max_win_target]; with a target of 0 that branch raises
    [ZeroDivisionError] and the tool returns nothing. *)
Definition raises (fs : artifacts) (max_win_target : Z) : bool :=
  match max_win_achieved (sim fs) with
  | Some achieved =>
      Py.Qlt_bool (inject_Z max_win_target * (12 # 10)) achieved
      && (max_win_target =? 0)%Z
  | None => false
  end.

(** [ConvergenceValidatorTool._run]: the verdict and the three lists of
    the returned object ([data_summary], [reason] and [recommendation]
    are derived texts and are left out); [None] when the call raises. *)
Definition _run (fs : artifacts) (target_rtp : Q) (max_win_target : Z)
    (target_markets : list string) : option (verdict * appended) :=
  if raises fs max_win_target then None
  else
    let r := report fs target_rtp max_win_target target_markets in
    Some (decide r, r).

End ConvergenceValidatorTool.

(** ** tools/convergence_tools.py: the targeted patch applier *)

Module GDDPatchTool.

(** One entry appended to [gdd_revision_log.md]: the values interpolated
    in the entry's text. *)
Record revision_entry := {
  rev_section : string;
  rev_reason : string;
  old_length : nat;
  new_length : nat;
  delta : Z
}.

(** The design directory the tool works in: the GDD file (absent or its
    text) and the revision log, which only this tool writes, as the list
    of its entries.  [now] is the wall clock the process could read. *)
Record env := {
  gdd_file : option string;
  revision_log : list revision_entry;
  now : Z
}.

(** The object the tool returns. *)
Inductive result :=
| GddNotFound
| SectionNotFound (section_header : string) (available_sections : list string)
| Success (section_updated reason : string)
          (old_section_chars new_section_chars total_gdd_chars : nat).

(** The literal [\n## ] of the lookahead. *)
Definition next_header_mark : string := String Py.nl "## ".

(** [\s*\n] matched greedily at the head of [s]: the number of
    characters consumed, that is the maximal run of whitespace cut after
    its last newline; [None] when that run holds no newline. *)
Fixpoint ws_newline (s : string) : option nat :=
  match s with
  | EmptyString => None
  | String c s' =>
      if Py.isspace c then
        match ws_newline s' with
        | Some n => Some (S n)
        | None => if Ascii.eqb c Py.nl then Some 1 else None
        end
      else None
  end.

(** Group 1, [(header\s*\n)], anchored at the head of [s]: its length. *)
Definition match_header (header s : string) : option nat :=
  if Py.startswith header s then
    match ws_newline (Py.drop (String.length header) s) with
    | Some n => Some (String.length header + n)
    | None => None
    end
  else None.

(** Group 2, the lazy [(.*?)] under [re.DOTALL] followed by the
    lookahead [(?=\n## |\Z)]: its length.  It always matches. *)
Fixpoint body_length (s : string) : nat :=
  if Py.startswith next_header_mark s then 0
  else match s with
       | EmptyString => 0
       | String _ s' => S (body_length s')
       end.

(** [re.search(pattern, content, re.DOTALL)] from offset [pos]: the
    leftmost match, as [(match.start(2), match.end(2))]. *)
Fixpoint search (header s : string) (pos : nat) : option (nat * nat) :=
  match match_header header s with
  | Some g1 => Some (pos + g1, pos + g1 + body_length (Py.drop g1 s))
  | None =>
      match s with
      | EmptyString => None
      | String _ s' => search header s' (S pos)
      end
  end.

(** [^## .+] can match at the head of [s] (which is at a line start). *)
Definition header_here (s : string) : bool :=
  match Py.drop 3 s with
  | String c _ => Py.startswith "## " s && negb (Ascii.eqb c Py.nl)
  | EmptyString => false
  end.

(** The text up to the next newline: what [.+] consumes. *)
Fixpoint line_of (s : string) : string :=
  match s with
  | EmptyString => EmptyString
  | String c s' =>
      if Ascii.eqb c Py.nl then EmptyString else String c (line_of s')
  end.

(** [re.findall(r'^## .+', content, re.MULTILINE)] as a scan over the
    text: [in_match] while the characters of a reported match are being
    consumed, [at_bol] when the position follows a newline or starts the
    text. *)
Fixpoint findall_headers (in_match at_bol : bool) (s : string) : list string :=
  match s with
  | EmptyString => []
  | String c s' =>
      if Ascii.eqb c Py.nl then findall_headers false true s'
      else if in_match then findall_headers true false s'
      else if at_bol && header_here s
           then line_of s :: findall_headers true false s'
           else findall_headers false false s'
  end.

Definition all_headers (content : string) : list string :=
  findall_headers false true content.


(** The section the pattern finds has no body: the text right after
    its header line (group 1) is itself the start of a header line. *)
Definition section_is_empty (header content : string) : bool :=
  match search header content 0 with
  | Some (start2, _) => Py.startswith "## " (Py.drop start2 content)
  | None => false
  end.

(** The document holds the header text followed by whitespace up to a
    newline: what the pattern of [_run] can match. *)
Definition has_section (header content : string) : Prop :=
  exists before ws after : string,
    content = (before ++ header ++ ws ++ String Py.nl after)%string
    /\ Py.all_space ws = true.

(** [GDDPatchTool._run].  Reading and writing the files is taken to
    succeed: the error object returned when the file system raises is
    not a case of [result]. *)
Definition _run (e : env) (section_header new_content reason : string)
  : result * env :=
  match gdd_file e with
  | None => (GddNotFound, e)
  | Some content =>
      match search (Py.strip section_header) content 0 with
      | None => (SectionNotFound section_header (all_headers content), e)
      | Some (start2, end2) =>
          let old_section := Py.take (end2 - start2) (Py.drop start2 content) in
          let new_section :=
            (String Py.nl (Py.strip new_content)
             ++ String Py.nl (String Py.nl EmptyString))%string in
          let content' :=
            (Py.take start2 content ++ new_section
             ++ Py.drop end2 content)%string in
          let revision := {|
            rev_section := section_header;
            rev_reason := reason;
            old_length := String.length old_section;
            new_length := String.length new_content;
            delta := (Z.of_nat (String.length new_content)
                      - Z.of_nat (String.length old_section))%Z
          |} in
          (Success section_header reason
                   (String.length old_section) (String.length new_content)
                   (String.length content'),
           {| gdd_file := Some content';
              revision_log := revision_log e ++ [revision];
              now := now e |})
      end
  end.

End GDDPatchTool.

(** ** tools/convergence_tools.py: the paytable sanity checker *)

Module PaytableSanityCheckerTool.

Inductive issue :=
| MISSING_FILE
| PARSE_ERROR
| EMPTY_PAYTABLE
| NON_MONOTONIC (sym_name pk : string) (val prev_val : Q)
| REEL_SYMBOL_MISSING_FROM_PAYTABLE (truly_missing : list string)
| SHORT_REEL (reel_name : string) (positions : nat)
| MISSING_REELS.

Inductive warning :=
| ZERO_PAY (sym_name : string)
| NO_WILD
| NO_SCATTER
| PAYTABLE_SYMBOL_NOT_ON_REELS (truly_missing : list string)
| REEL_PARSE_ERROR.

Inductive passed :=
| PaytableLoaded (symbols : nat)
| PaysMonotonic
| WildPresent
| ScatterPresent
| ReelsLoaded (positions reels : nat)
| ReelSymbolsInPaytable
| HighestPay (max_pay : Q).

Inductive verdict := FAIL | NEEDS_FIXES | MARGINAL | PASS.

(** A [csv.DictReader] row: field name to cell text. *)
Definition row := list (string * string).

Inductive paytable_file :=
| PaytableMissing
| PaytableUnreadable
| PaytableRows (fieldnames : list string) (paytable_data : list row).

Inductive reels_file :=
| ReelsMissing
| ReelsUnreadable
| ReelsRows (reel_header : list string) (reel_rows : list (list string)).

Record outcome := {
  verdict_of : verdict;
  issues : list issue;
  warnings : list warning;
  checks_passed : list passed
}.

Section Checker.

(** Python's builtin [float] applied to the text of a cell: [None] when
    it raises [ValueError]. *)
Variable float : string -> option Q.

(** Identify symbol and pay columns *)
Definition is_symbol_column (fn : string) : bool :=
  Py.mem (Py.strip (Py.lower fn)) ["symbol"; "name"; "sym"].

Definition sym_col (fieldnames : list string) : option string :=
  match filter is_symbol_column fieldnames with
  | [] => hd_error fieldnames
  | c :: cs => Some (last cs c)
  end.

(** The digit of a tier walked by [for n in (3, 4, 5, 6)]. *)
Definition tiers : list string := ["3"; "4"; "5"; "6"].

Definition names_tier (n fl : string) : bool :=
  Py.contains (n ++ "oak")%string fl || Py.contains (n ++ "x")%string fl
  || Py.contains (n ++ " of")%string fl || Py.contains ("x" ++ n)%string fl
  || String.eqb fl n.

Definition pay_cols (fieldnames : list string) : list (string * string) :=
  fold_left
    (fun cols fn =>
       let fl := Py.strip (Py.lower fn) in
       fold_left
         (fun cols n =>
            if names_tier n fl then Py.dict_set cols (n ++ "OAK")%string fn
            else cols)
         tiers cols)
    fieldnames [].

Definition sorted_keys (fieldnames : list string) : list string :=
  Py.sorted (Py.dict_keys (pay_cols fieldnames)).

(** [float(row.get(col, 0))], 0 when the conversion raises. *)
Definition pay_value (r : row) (col : string) : Q :=
  match Py.dict_get r col with
  | Some cell =>
      match float cell with
      | Some v => v
      | None => 0%Q
      end
  | None => 0%Q
  end.

Definition column_of (fieldnames : list string) (pk : string) : string :=
  match Py.dict_get (pay_cols fieldnames) pk with
  | Some col => col
  | None => EmptyString
  end.

(** [row.get(sym_col, default).strip()] *)
Definition symbol_of (fieldnames : list string) (default : string) (r : row)
  : string :=
  Py.strip
    match sym_col fieldnames with
    | Some c =>
        match Py.dict_get r c with
        | Some cell => cell
        | None => default
        end
    | None => default
    end.

Definition is_special (name : string) : bool :=
  Py.mem (Py.lower name) ["wild"; "scatter"; "bonus"].

(** 2. Monotonic pay check, one row: walk the tiers with [prev_val]. *)
Fixpoint monotonic_row (fieldnames : list string) (sym_name : string)
    (r : row) (pks : list string) (prev_val : Q) : list issue :=
  match pks with
  | [] => []
  | pk :: pks' =>
      let val := pay_value r (column_of fieldnames pk) in
      let found :=
        if Py.Qlt_bool 0 val && Py.Qlt_bool val prev_val
        then [NON_MONOTONIC sym_name pk val prev_val] else [] in
      found ++ monotonic_row fieldnames sym_name r pks'
                 (if Py.Qlt_bool 0 val then val else prev_val)
  end.

Definition monotonic_check (fieldnames : list string) (data : list row)
  : list issue :=
  flat_map
    (fun r =>
       let sym_name := symbol_of fieldnames "???" r in
       if negb (Py.nonempty sym_name) || is_special sym_name then []
       else monotonic_row fieldnames sym_name r (sorted_keys fieldnames) (-1)%Q)
    data.

(** 3. Zero-pay check *)
Definition zero_pay_check (fieldnames : list string) (data : list row)
  : list warning :=
  flat_map
    (fun r =>
       let sym_name := symbol_of fieldnames "???" r in
       let all_zero :=
         negb (existsb
                 (fun pk => Py.Qlt_bool 0 (pay_value r (column_of fieldnames pk)))
                 (sorted_keys fieldnames)) in
       if all_zero && negb (is_special sym_name) && Py.nonempty sym_name
       then [ZERO_PAY sym_name] else [])
    data.

(** 4. WILD/SCATTER presence *)
Definition sym_names (fieldnames : list string) (data : list row)
  : list string :=
  map (fun r => Py.lower (symbol_of fieldnames "" r)) data.

Definition has_wild (fieldnames : list string) (data : list row) : bool :=
  existsb (Py.contains "wild") (sym_names fieldnames data).

Definition has_scatter (fieldnames : list string) (data : list row) : bool :=
  existsb (fun s => Py.contains "scatter" s || Py.contains "bonus" s)
          (sym_names fieldnames data).

(** 5. Reel strips validation *)
Definition paytable_symbols (fieldnames : list string) (data : list row)
  : list string :=
  Py.set_update []
    (filter Py.nonempty (map (symbol_of fieldnames "") data)).

Definition reel_symbols (reel_rows : list (list string)) : list string :=
  Py.set_update []
    (filter
       (fun cell =>
          Py.nonempty cell
          && negb (Py.mem (Py.lower cell) [""; "position"; "pos"; "stop"]))
       (map Py.strip (List.concat reel_rows))).

(** [a - b] on sets, then the members with no case-insensitive partner. *)
Definition truly_missing (a b : list string) : list string :=
  filter (fun s => negb (Py.mem (Py.lower s) (map Py.lower b)))
         (filter (fun s => negb (Py.mem s b)) a).

(** 5c. The non-blank cells of column [col_idx]. *)
Definition reel_col_values (reel_rows : list (list string)) (col_idx : nat)
  : list string :=
  flat_map
    (fun r =>
       match nth_error r col_idx with
       | Some cell => if Py.nonempty (Py.strip cell) then [Py.strip cell] else []
       | None => []
       end)
    reel_rows.

Fixpoint short_reels (reel_rows : list (list string)) (col_idx : nat)
    (reel_header : list string) : list issue :=
  match reel_header with
  | [] => []
  | reel_name :: rest =>
      let n := List.length (reel_col_values reel_rows col_idx) in
      (if n <? 10 then [SHORT_REEL reel_name n] else [])
      ++ short_reels reel_rows (S col_idx) rest
  end.

Definition is_reel_symbol_missing (i : issue) : bool :=
  match i with
  | REEL_SYMBOL_MISSING_FROM_PAYTABLE _ => true
  | _ => false
  end.

Definition is_non_monotonic (i : issue) : bool :=
  match i with
  | NON_MONOTONIC _ _ _ _ => true
  | _ => false
  end.

(** 6. Max theoretical win estimate: the largest cell [float] accepts. *)
Definition max_pay (fieldnames : list string) (data : list row) : Q :=
  fold_left
    (fun acc r =>
       fold_left
         (fun acc pk =>
            match Py.dict_get r (column_of fieldnames pk) with
            | Some cell =>
                match float cell with
                | Some v => Py.max acc v
                | None => acc
                end
            | None => Py.max acc 0
            end)
         (sorted_keys fieldnames) acc)
    data 0%Q.

(** Verdict *)
Definition is_blocker (i : issue) : bool :=
  match i with
  | REEL_SYMBOL_MISSING_FROM_PAYTABLE _ | EMPTY_PAYTABLE
  | SHORT_REEL _ _ | MISSING_REELS => true
  | _ => false
  end.

Definition decide (issues : list issue) (warnings : list warning) : verdict :=
  if 0 <? List.length (filter is_blocker issues) then FAIL
  else match issues with
       | _ :: _ => NEEDS_FIXES
       | [] => if 3 <? List.length warnings then MARGINAL else PASS
       end.

(** What block 5 appends, given the paytable already parsed. *)
Definition reels_check (fieldnames : list string) (data : list row)
    (reels : reels_file)
  : list issue * list warning * list passed :=
  match reels with
  | ReelsMissing => ([MISSING_REELS], [], [])
  | ReelsUnreadable => ([], [REEL_PARSE_ERROR], [])
  | ReelsRows reel_header reel_rows =>
      let rs := reel_symbols reel_rows in
      let ps := paytable_symbols fieldnames data in
      let missing_from_paytable := truly_missing rs ps in
      let missing_from_reels := truly_missing ps rs in
      let i5a :=
        match missing_from_paytable with
        | [] => []
        | _ :: _ =>
            [REEL_SYMBOL_MISSING_FROM_PAYTABLE (Py.sorted missing_from_paytable)]
        end in
      let w5b :=
        match missing_from_reels with
        | [] => []
        | _ :: _ =>
            [PAYTABLE_SYMBOL_NOT_ON_REELS (Py.sorted missing_from_reels)]
        end in
      (i5a ++ short_reels reel_rows 0 reel_header,
       w5b,
       ReelsLoaded (List.length reel_rows) (List.length reel_header)
       :: match i5a with
          | [] => [ReelSymbolsInPaytable]
          | _ :: _ => []
          end)
  end.

(** [PaytableSanityCheckerTool._run] *)
Definition _run (pt : paytable_file) (reels : reels_file) : outcome :=
  match pt with
  | PaytableMissing =>
      {| verdict_of := FAIL; issues := [MISSING_FILE];
         warnings := []; checks_passed := [] |}
  | PaytableUnreadable =>
      {| verdict_of := FAIL; issues := [PARSE_ERROR];
         warnings := []; checks_passed := [] |}
  | PaytableRows fieldnames data =>
      let i1 := match data with [] => [EMPTY_PAYTABLE] | _ :: _ => [] end in
      let p1 :=
        match data with
        | [] => []
        | _ :: _ => [PaytableLoaded (List.length data)]
        end in
      let i2 := monotonic_check fieldnames data in
      let p2 := match i2 with [] => [PaysMonotonic] | _ :: _ => [] end in
      let w3 := zero_pay_check fieldnames data in
      let w4 :=
        (if has_wild fieldnames data then [] else [NO_WILD])
        ++ (if has_scatter fieldnames data then [] else [NO_SCATTER]) in
      let p4 :=
        (if has_wild fieldnames data then [WildPresent] else [])
        ++ (if has_scatter fieldnames data then [ScatterPresent] else []) in
      let '(i5, w5, p5) := reels_check fieldnames data reels in
      let p6 :=
        match pay_cols fieldnames, data with
        | _ :: _, _ :: _ =>
            if Py.Qlt_bool 0 (max_pay fieldnames data)
            then [HighestPay (max_pay fieldnames data)] else []
        | _, _ => []
        end in
      let all_issues := i1 ++ i2 ++ i5 in
      let all_warnings := w3 ++ w4 ++ w5 in
      {| verdict_of := decide all_issues all_warnings;
         issues := all_issues;
         warnings := all_warnings;
         checks_passed := p1 ++ p2 ++ p4 ++ p5 ++ p6 |}
  end.

End Checker.

End PaytableSanityCheckerTool.

(** ** flows/pipeline.py: the OODA convergence loop *)

Module Pipeline.

(** One element of the ["blockers"] list the producer writes. *)
Record blocker := {
  agent : option string;
  issue : string;
  instruction : string
}.

(** The object parsed from [convergence_result_<n>.json]; a field is
    [None] when its key is absent. *)
Record conv_result := {
  cr_converged : option bool;
  cr_blockers : option (list blocker);
  cr_warnings : option (list string);
  cr_summary : option string
}.

(** The value [conv_result] holds before the file is looked at. *)
Definition no_result : conv_result := {|
  cr_converged := Some false;
  cr_blockers := Some [];
  cr_warnings := Some [];
  cr_summary := Some "No result"
|}.

(** [d.get(key, default)] *)
Definition get {A : Type} (field : option A) (default : A) : A :=
  match field with
  | Some v => v
  | None => default
  end.

(** One record of [state.convergence_history]. *)
Record history_entry := {
  loop : Z;
  converged : bool;
  blockers : nat;
  warnings : nat;
  summary : string
}.

Inductive revision_task :=
| GddRevision (issues : list blocker)
| MathRevision (issues : list blocker).

(** [range(a, b)] *)
Definition range (a b : Z) : list Z :=
  map (fun i => (a + Z.of_nat i)%Z) (seq 0 (Z.to_nat (b - a))).

(** [re.search(r'\{.*\}', text, re.DOTALL)]: from the first opening
    brace to the last closing brace after it. *)
Fixpoint upto_last_brace (s : string) : option string :=
  match s with
  | EmptyString => None
  | String c s' =>
      match upto_last_brace s' with
      | Some r => Some (String c r)
      | None => if Ascii.eqb c "}"%char then Some (String c EmptyString)
                else None
      end
  end.

Fixpoint braces (s : string) : option string :=
  match s with
  | EmptyString => None
  | String c s' =>
      if Ascii.eqb c "{"%char then
        match upto_last_brace s' with
        | Some r => Some (String c r)
        | None => None
        end
      else braces s'
  end.

Definition has_agent (name : string) (b : blocker) : bool :=
  match agent b with
  | Some a => String.eqb a name
  | None => false
  end.

(** ACT: the revision tasks built from the blockers. *)
Definition revision_tasks (r : conv_result) : list revision_task :=
  let blockers := get (cr_blockers r) [] in
  let designer_issues := filter (has_agent "game_designer") blockers in
  let math_issues := filter (has_agent "mathematician") blockers in
  (match designer_issues with
   | [] => []
   | _ :: _ => [GddRevision designer_issues]
   end)
  ++ (match math_issues ++ designer_issues with
      | [] => []
      | _ :: _ => [MathRevision (math_issues ++ designer_issues)]
      end).

Definition entry_of (loop_num : Z) (r : conv_result) : history_entry := {|
  loop := loop_num;
  converged := get (cr_converged r) false;
  blockers := List.length (get (cr_blockers r) []);
  warnings := List.length (get (cr_warnings r) []);
  summary := get (cr_summary r) ""
|}.

(** The variables the loop updates: the job directory and everything
    else the crews act on ([world]), the history, the [converged] flag
    and [loop_num] as stored in [convergence_loops_run]. *)
Record state {World : Type} := {
  world : World;
  convergence_history : list history_entry;
  converged_flag : bool;
  convergence_loops_run : Z
}.
Arguments state : clear implicits.

Section Loop.

(** The external collaborators.  A crew run is a transition of the
    world that returns (a timed-out crew lets the flow continue); a crew
    that fails raises and aborts the whole flow, which is not a path of
    the loop and is not modelled. *)
Variable World : Type.

(** OBSERVE: the compliance officer's scan of loop [loop_num]. *)
Variable compliance_scan : Z -> World -> World.

(** ORIENT + DECIDE: the producer's assessment of loop [loop_num]; the
    flag tells whether the task description ends with the "Last loop"
    sentence. *)
Variable convergence_assessment : Z -> bool -> World -> World.

(** The text of [convergence_result_<loop_num>.json], if the file exists. *)
Variable read_result : Z -> World -> option string.

(** [json.loads]: [None] when it raises. *)
Variable json_loads : string -> option conv_result.

(** ACT: the revision crew. *)
Variable revise : list revision_task -> World -> World.

Variable MAX_CONVERGENCE_LOOPS : Z.

(** Parse convergence result *)
Definition parse_result (file : option string) : conv_result :=
  match file with
  | None => no_result
  | Some conv_text =>
      match json_loads conv_text with
      | Some r => r
      | None =>
          match braces conv_text with
          | Some json_match =>
              match json_loads json_match with
              | Some r => r
              | None => no_result
              end
          | None => no_result
          end
      end
  end.

(** The result the controller reads in world [w] for loop [loop_num]. *)
Definition result_at (loop_num : Z) (w : World) : conv_result :=
  parse_result (read_result loop_num w).

(** [for loop_num in loop_nums: ...] with its two [break]s. *)
Fixpoint ooda (loop_nums : list Z) (st : state World) : state World :=
  match loop_nums with
  | [] => st
  | loop_num :: rest =>
      let w1 := compliance_scan loop_num (world st) in
      let w2 :=
        convergence_assessment loop_num
          (loop_num =? MAX_CONVERGENCE_LOOPS)%Z w1 in
      let r := result_at loop_num w2 in
      let history := convergence_history st ++ [entry_of loop_num r] in
      if get (cr_converged r) false then
        {| world := w2; convergence_history := history;
           converged_flag := true; convergence_loops_run := loop_num |}
      else if (MAX_CONVERGENCE_LOOPS <=? loop_num)%Z then
        {| world := w2; convergence_history := history;
           converged_flag := converged_flag st;
           convergence_loops_run := loop_num |}
      else
        let w3 :=
          match revision_tasks r with
          | [] => w2
          | _ :: _ => revise (revision_tasks r) w2
          end in
        ooda rest
          {| world := w3; convergence_history := history;
             converged_flag := converged_flag st;
             convergence_loops_run := loop_num |}
  end.

(** The convergence loop of [run_design_and_math], entered in world [w]
    with [history] already recorded. *)
Definition convergence_loop (w : World) (history : list history_entry)
  : state World :=
  ooda (range 1 (MAX_CONVERGENCE_LOOPS + 1))
    {| world := w; convergence_history := history;
       converged_flag := false; convergence_loops_run := 0 |}.

(** The exit of the loop started at iteration [a] in state [st]: the
    iteration [j] it stops at, the entries recorded before it, and why
    it stopped. *)
Definition exit_at (a : Z) (st st' : state World) : Prop :=
  exists (j : Z) (earlier : list history_entry),
    (a <= j <= MAX_CONVERGENCE_LOOPS)%Z
    /\ convergence_loops_run st' = j
    /\ convergence_history st'
       = convergence_history st ++ earlier
         ++ [entry_of j (result_at j (world st'))]
    /\ Z.of_nat (List.length earlier) = (j - a)%Z
    /\ Forall (fun e => converged e = false) earlier
    /\ (exists w1,
          world st'
          = convergence_assessment j (j =? MAX_CONVERGENCE_LOOPS)%Z w1)
    /\ ((get (cr_converged (result_at j (world st'))) false = true
         /\ converged_flag st' = true)
        \/ (get (cr_converged (result_at j (world st'))) false = false
            /\ j = MAX_CONVERGENCE_LOOPS
            /\ converged_flag st' = converged_flag st)).

End Loop.

End Pipeline.

(** ** Concrete collaborators used to run the loop on examples *)

Module Scenario.
Import Pipeline.

(** A producer that reports one blocker for the mathematician on every
    loop but the third, and on the third loop reports no blocker, one
    warning and [converged = false]. *)
Definition stubborn_result (loop_num : Z) : conv_result :=
  if (loop_num =? 3)%Z then
    {| cr_converged := Some false; cr_blockers := Some [];
       cr_warnings := Some ["hit frequency on the low side"];
       cr_summary := Some "warnings only" |}
  else
    {| cr_converged := Some false;
       cr_blockers :=
         Some [{| agent := Some "mathematician"; issue := "RTP off target";
                  instruction := "rebalance the reel strips" |}];
       cr_warnings := Some [];
       cr_summary := Some "blocked" |}.

(** The world is the number of the last result file written; the file
    holds that number's digit. *)
Definition write_result (loop_num : Z) (last : bool) (w : Z) : Z := loop_num.

Definition result_text (loop_num : Z) (w : Z) : option string :=
  if (w =? loop_num)%Z then
    Some (if (w =? 3)%Z then "3" else "other")
  else None.

Definition loads (text : string) : option conv_result :=
  if String.eqb text "3" then Some (stubborn_result 3)
  else if String.eqb text "other" then Some (stubborn_result 1)
  else None.

Definition stubborn_run (budget : Z) : state Z :=
  convergence_loop Z (fun _ w => w) write_result result_text loads
    (fun _ w => w) budget 0%Z [].

End Scenario.

(** ** Concrete artifact sets used to run the validator on examples *)

Module Artifacts.
Import ConvergenceValidatorTool.

Definition eight_symbols : list string :=
  ["WILD"; "SCATTER"; "H1"; "H2"; "A"; "K"; "Q"; "J"].

Definition healthy_sim : simulation := {|
  measured_rtp := Some 96%Q;
  max_win_achieved := Some 4800%Q;
  total_spins := Some 1000000%Z;
  rtp_breakdown :=
    [("base_game", BNum 60); ("free_games", BNum (355 # 10));
     ("jackpots", BNum (1 # 2))];
  other_keys := ["hit_frequency"; "volatility_index"]
|}.

(** Scenario 2 of the specification: the breakdown sums to 80.5 while
    the measured RTP is 96.0. *)
Definition inconsistent_sim : simulation := {|
  measured_rtp := Some 96%Q;
  max_win_achieved := Some 4800%Q;
  total_spins := Some 1000000%Z;
  rtp_breakdown :=
    [("base_game", BNum 60); ("free_spins", BNum 20);
     ("jackpots", BNum (1 # 2))];
  other_keys := []
|}.

(** A simulation whose measured RTP is 0 while its breakdown sums to 50. *)
Definition zero_rtp_sim : simulation := {|
  measured_rtp := Some 0%Q;
  max_win_achieved := None;
  total_spins := Some 1000%Z;
  rtp_breakdown := [("base_game", BNum 50)];
  other_keys := []
|}.

Definition reels_text : string :=
  String.concat (String Py.nl EmptyString)
    ["Pos,Reel 1,Reel 2"; "1,A,K"; "2,WILD,Q"; "3,H1,SCATTER"].

Definition with_sim (s : simulation_file) : artifacts := {|
  gdd_md := Some "## 1. Game Overview";
  paytable_csv := PaytableRead eight_symbols;
  simulation_results_json := s;
  BaseReels_csv := Some reels_text
|}.

(** Everything in place except [simulation_results.json]. *)
Definition no_simulation : artifacts := with_sim SimulationMissing.

(** Neither [simulation_results.json] nor [BaseReels.csv]. *)
Definition no_simulation_no_reels : artifacts := {|
  gdd_md := Some "## 1. Game Overview";
  paytable_csv := PaytableRead eight_symbols;
  simulation_results_json := SimulationMissing;
  BaseReels_csv := None
|}.

(** A paytable file with no data row and no reel strips. *)
Definition empty_paytable_no_reels : artifacts := {|
  gdd_md := Some "## 1. Game Overview";
  paytable_csv := PaytableRead [];
  simulation_results_json := SimulationRead healthy_sim;
  BaseReels_csv := None
|}.

(** A simulation reaching 12000x. *)
Definition big_win_sim : simulation := {|
  measured_rtp := Some 96%Q;
  max_win_achieved := Some 12000%Q;
  total_spins := Some 1000000%Z;
  rtp_breakdown := [];
  other_keys := []
|}.

End Artifacts.

(** ** Concrete documents used to run the patch applier on examples *)

Module Documents.
Import GDDPatchTool.

Definition lines (l : list string) : string :=
  String.concat (String Py.nl EmptyString) l.

(** A two-section document. *)
Definition two_sections : string :=
  lines ["## 1. Overview"; "A slot about tides."; "## 2. Market";
         "UK and Malta."; ""].

(** A document whose first section has no body. *)
Definition empty_first_section : string :=
  lines ["## 1. Overview"; "## 2. Market"; "UK and Malta."; ""].

(** The design directory holding [doc], with an empty revision log, at
    time [t]. *)
Definition at_time (t : Z) (doc : string) : env :=
  {| gdd_file := Some doc; revision_log := []; now := t |}.

End Documents.

(** ** Concrete tables used to run the sanity checker on examples *)

Module Tables.
Import PaytableSanityCheckerTool.

(** [float] on the cells of the examples: unsigned decimal integers. *)
Fixpoint digits (s : string) (acc : Z) : option Z :=
  match s with
  | EmptyString => Some acc
  | String c s' =>
      let n := nat_of_ascii c in
      if (48 <=? n) && (n <=? 57)
      then digits s' (10 * acc + Z.of_nat (n - 48))%Z
      else None
  end.

Definition decimal (cell : string) : option Q :=
  match cell with
  | EmptyString => None
  | String _ _ =>
      match digits cell 0%Z with
      | Some z => Some (inject_Z z)
      | None => None
      end
  end.

Definition pay_row (sym p3 p4 p5 : string) : row :=
  [("Symbol", sym); ("3OAK", p3); ("4OAK", p4); ("5OAK", p5)].

Definition paytable : paytable_file :=
  PaytableRows ["Symbol"; "3OAK"; "4OAK"; "5OAK"]
    [pay_row "WILD" "0" "0" "0"; pay_row "SCATTER" "0" "0" "0";
     pay_row "A" "1" "3" "10"; pay_row "K" "1" "2" "8"].

(** Two reels of [n] positions each. *)
Definition reels (n : nat) : reels_file :=
  ReelsRows ["Reel 1"; "Reel 2"]
    (repeat ["A"; "K"] (n - 2) ++ [["WILD"; "SCATTER"]; ["SCATTER"; "WILD"]]).

End Tables.

(** ** Further Python primitives *)

Module PyText.

(** [str.isalnum] on one character (code points below 256). *)
Definition isalnum (c : ascii) : bool :=
  let n := nat_of_ascii c in
  ((48 <=? n) && (n <=? 57)) || ((65 <=? n) && (n <=? 90))
  || ((97 <=? n) && (n <=? 122))
  || (n =? 170) || (n =? 178) || (n =? 179) || (n =? 181)
  || (n =? 185) || (n =? 186) || ((188 <=? n) && (n <=? 190))
  || ((192 <=? n) && (n <=? 214)) || ((216 <=? n) && (n <=? 246))
  || (248 <=? n).

(** The class [\d] of [re] (code points below 256). *)
Definition isdigit (c : ascii) : bool :=
  let n := nat_of_ascii c in (48 <=? n) && (n <=? 57).

(** The leading run of non-whitespace characters. *)
Fixpoint word_of (s : string) : string :=
  match s with
  | EmptyString => EmptyString
  | String c s' =>
      if Py.isspace c then EmptyString else String c (word_of s')
  end.

(** [s.split()] with no argument, as a scan: [in_word] while the
    characters of the word last reported are being passed. *)
Fixpoint split_from (in_word : bool) (s : string) : list string :=
  match s with
  | EmptyString => []
  | String c s' =>
      if Py.isspace c then split_from false s'
      else if in_word then split_from true s'
      else word_of s :: split_from true s'
  end.

Definition split (s : string) : list string := split_from false s.

(** [s.rstrip(a)] for a one-character [a]. *)
Fixpoint rstrip_char (a : ascii) (s : string) : string :=
  match s with
  | EmptyString => EmptyString
  | String c s' =>
      match rstrip_char a s' with
      | EmptyString =>
          if Ascii.eqb c a then EmptyString else String c EmptyString
      | r => String c r
      end
  end.

(** [s[:n]] for any integer [n]: a negative [n] counts from the end. *)
Definition slice_to (n : Z) (s : string) : string :=
  if (0 <=? n)%Z then Py.take (Z.to_nat n) s
  else Py.take (String.length s - Z.to_nat (- n)) s.

End PyText.

(** ** tools/convergence_tools.py: the file reader *)

Module FileReaderTool.

(** The object returned: the error of a missing file, or the content
    read ([size_bytes] and the echoed path are left out). *)
Inductive result :=
| FileNotFound (file_path : string)
| FileRead (truncated : bool) (content : string).

(** [FileReaderTool._run] on a file system seen as a partial map from
    paths to texts; reading an existing file is taken to succeed. *)
Definition _run (fs : string -> option string) (file_path : string)
    (max_chars : Z) : result :=
  match fs file_path with
  | None => FileNotFound file_path
  | Some content =>
      FileRead (max_chars <? Z.of_nat (String.length content))%Z
               (PyText.slice_to max_chars content)
  end.

End FileReaderTool.

(** ** tools/jurisdiction_profiles.py: the profile getter *)

Module GetJurisdictionProfileTool.
Import Jurisdiction.

Inductive result :=
| UnknownJurisdiction (market : string) (available_jurisdictions : list string)
| Profile (jurisdiction : string) (p : profile).

(** [GetJurisdictionProfileTool._run] *)
Definition _run (market : string) : result :=
  match lookup_profile market with
  | Some (k, p) => Profile k p
  | None =>
      UnknownJurisdiction market
        (Py.sorted (Py.dict_keys JURISDICTION_PROFILES))
  end.

End GetJurisdictionProfileTool.

(** ** tools/convergence_tools.py: the GDD quality auditor *)

Module GDDQualityAuditorTool.

Record section_def := {
  num : Z;
  header : string;
  required_elements : list string;
  min_words : nat
}.

(** The 15 standard GDD sections. *)
Definition GDD_SECTIONS : list section_def :=
  [{| num := 1; header := "Game Overview";
      required_elements := ["theme"; "volatility"; "rtp"; "grid"];
      min_words := 60 |};
   {| num := 2; header := "Target Market";
      required_elements := ["jurisdiction"; "demographic"; "operator"];
      min_words := 40 |};
   {| num := 3; header := "Grid Layout";
      required_elements := ["rows"; "columns"; "reels"; "payline"];
      min_words := 30 |};
   {| num := 4; header := "Payline";
      required_elements := ["ways"; "lines"; "pattern"];
      min_words := 20 |};
   {| num := 5; header := "Symbol Hierarchy";
      required_elements := ["wild"; "scatter"; "high-pay"; "low-pay"; "paytable"];
      min_words := 80 |};
   {| num := 6; header := "RTP";
      required_elements := ["target"; "base game"; "feature"; "breakdown"];
      min_words := 40 |};
   {| num := 7; header := "Volatility";
      required_elements := ["hit frequency"; "max win"; "standard deviation"];
      min_words := 30 |};
   {| num := 8; header := "Feature Design";
      required_elements := ["trigger"; "mechanic"; "award"; "frequency"];
      min_words := 100 |};
   {| num := 9; header := "Free Spins";
      required_elements := ["trigger"; "spins"; "multiplier"; "retrigger"];
      min_words := 50 |};
   {| num := 10; header := "Visual Design";
      required_elements := ["color"; "style"; "mood"; "animation"];
      min_words := 40 |};
   {| num := 11; header := "Sound Design";
      required_elements := ["ambient"; "reel"; "win"; "feature"];
      min_words := 30 |};
   {| num := 12; header := "Win Celebration";
      required_elements := ["tier"; "animation"; "sound"; "threshold"];
      min_words := 30 |};
   {| num := 13; header := "Responsible Gambling";
      required_elements := ["session"; "reality check"; "limit"];
      min_words := 25 |};
   {| num := 14; header := "Certification";
      required_elements := ["jurisdiction"; "lab"; "standard"];
      min_words := 20 |};
   {| num := 15; header := "Competitor";
      required_elements := ["title"; "provider"; "comparison"];
      min_words := 30 |}].

(** Patterns that indicate vague or placeholder content, as written in
    the source (raw strings). *)
Definition VAGUE_PATTERNS : list string :=
  ["\bTBD\b"; "\bTBA\b"; "\bTO BE DETERMINED\b";
   "\bINSERT\b"; "\bPLACEHOLDER\b"; "\bFILL IN\b";
   "\bX{2,}\b";
   "\b\[TODO\]"; "\b\[TBD\]";
   "\bstandard\s+royals?\b";
   "\btypical\s+slot\b";
   "\bapproximately\b.*\bTBD\b"].

(** The pattern of a number followed by a unit. *)
Definition NUMBER_PATTERN : string :=
  "\b\d+[\.\d]*\s*(%|x|credits?|coins?|spins?|seconds?|ms|px|Hz)\b".

Inductive issue :=
| MISSING (header : string)
| THIN (word_count min_words : nat)
| STUB (word_count : nat)
| MISSING_ELEMENTS (missing : list string)
| LOW_SPECIFICITY
| VAGUE (vague_count : nat).

Inductive fix_instruction :=
| AddSection (num : Z) (header : string) (elements : list string)
| ExpandTo (min_words : nat)
| RewriteSection (min_words : nat) (elements : list string)
| AddContent (missing : list string)
| ReplacePlaceholders.

Record section_report := {
  section_num : Z;
  section_header : string;
  score : Z;
  issues : list issue;
  fix_instructions : list fix_instruction;
  word_count : option nat
}.

Inductive grade := A | B | C | D.

Inductive verdict :=
| PRODUCTION_READY | GOOD_WITH_FIXES | NEEDS_REVISION | MAJOR_REWRITE_NEEDED.

Record audit := {
  verdict_of : verdict;
  grade_of : grade;
  average_score : Q;
  sections_found : nat;
  sections_expected : nat;
  total_issues : nat;
  total_words : nat;
  sections : list section_report
}.

(** [re.split(r'\n(?=## )', content)]: cut at every newline that a
    [## ] follows, the newline being dropped. *)
Fixpoint split_sections (s : string) : list string :=
  match s with
  | EmptyString => [EmptyString]
  | String c s' =>
      if Ascii.eqb c Py.nl && Py.startswith "## " s'
      then EmptyString :: split_sections s'
      else match split_sections s' with
           | l :: ls => String c l :: ls
           | [] => [String c EmptyString]
           end
  end.

Fixpoint drop_while (f : ascii -> bool) (s : string) : string :=
  match s with
  | EmptyString => EmptyString
  | String c s' => if f c then drop_while f s' else s
  end.

(** The optional numbering group of the header pattern (digits, then
    an optional dot or closing parenthesis, then whitespace) at the head
    of [s]: what is left once it has matched greedily. *)
Definition skip_numbering (s : string) : string :=
  match s with
  | String c _ =>
      if PyText.isdigit c then
        let after_digits := drop_while PyText.isdigit s in
        let after_mark :=
          match after_digits with
          | String m r =>
              if Ascii.eqb m "."%char || Ascii.eqb m ")"%char
              then r else after_digits
          | EmptyString => after_digits
          end in
        drop_while Py.isspace after_mark
      else s
  | EmptyString => s
  end.

(** [re.match] of the header pattern on [t]: [## ], the optional
    numbering group, then group 2, the rest of the line. *)
Definition match_header (t : string) : option string :=
  if Py.startswith "## " t
  then Some (GDDPatchTool.line_of (skip_numbering (Py.drop 3 t)))
  else None.

(** [match.group(2).strip().rstrip('#').strip()] *)
Definition header_text (group2 : string) : string :=
  Py.strip (PyText.rstrip_char "#" (Py.strip group2)).

(** The dictionary [found_sections]: lower-cased header text to raw
    section. *)
Definition found_sections (content : string) : list (string * string) :=
  fold_left
    (fun d raw =>
       match match_header (Py.strip raw) with
       | Some g2 => Py.dict_set d (Py.lower (header_text g2)) raw
       | None => d
       end)
    (split_sections content) [].

(** The test of the presence check on one key of [found_sections]. *)
Definition names_section (sec_def : section_def) (key : string) : bool :=
  Py.contains (Py.lower (header sec_def)) key
  || existsb (fun w => Py.contains (Py.lower w) key)
       (filter (fun w => 3 <? String.length w)
               (PyText.split (header sec_def))).

Definition find_section (sec_def : section_def)
    (found : list (string * string)) : option (string * string) :=
  find (fun kv => names_section sec_def (fst kv)) found.

Section Audit.

(** [len(re.findall(pattern, text, re.IGNORECASE))]: Python's regular
    expression engine, applied to a pattern and a text. *)
Variable findall : string -> string -> nat.

(** The report of a section that was not found. *)
Definition missing_report (sec_def : section_def) : section_report :=
  {| section_num := num sec_def;
     section_header := header sec_def;
     score := 0;
     issues := [MISSING (header sec_def)];
     fix_instructions :=
       [AddSection (num sec_def) (header sec_def) (required_elements sec_def)];
     word_count := None |}.

(** 2. Word count check: points, issue and fix. *)
Definition word_count_check (sec_def : section_def) (wc : nat)
  : Z * list issue * list fix_instruction :=
  if min_words sec_def <=? wc then (25%Z, [], [])
  else if Qle_bool (inject_Z (Z.of_nat (min_words sec_def)) * (1 # 2))
                   (inject_Z (Z.of_nat wc))
  then (15%Z, [THIN wc (min_words sec_def)], [ExpandTo (min_words sec_def)])
  else (5%Z, [STUB wc],
        [RewriteSection (min_words sec_def) (required_elements sec_def)]).

(** 3. Required elements check. *)
Definition missing_elements (sec_def : section_def) (section_text : string)
  : list string :=
  filter (fun elem =>
            negb (Py.contains (Py.lower elem) (Py.lower section_text)))
         (required_elements sec_def).

Definition elements_check (sec_def : section_def) (section_text : string)
  : Z * list issue * list fix_instruction :=
  let missing := missing_elements sec_def section_text in
  let n := List.length (required_elements sec_def) in
  let found_elements := n - List.length missing in
  let points :=
    match n with
    | O => 25%Z
    | S _ => (25 * Z.of_nat found_elements / Z.of_nat n)%Z
    end in
  match missing with
  | [] => (points, [], [])
  | _ :: _ => (points, [MISSING_ELEMENTS missing], [AddContent missing])
  end.

(** 4. Specificity check. *)
Definition vague_count (section_text : string) : nat :=
  fold_left (fun acc pattern => acc + findall pattern section_text)
            VAGUE_PATTERNS 0.

Definition specificity_check (section_text : string)
  : Z * list issue * list fix_instruction :=
  let v := vague_count section_text in
  let has_numbers := 2 <=? findall NUMBER_PATTERN section_text in
  if (v =? 0) && has_numbers then (25%Z, [], [])
  else if v =? 0 then (15%Z, [LOW_SPECIFICITY], [])
  else (Z.max 0 (15 - Z.of_nat v * 5), [VAGUE v], [ReplacePlaceholders]).

(** The report of a section found with text [section_text]. *)
Definition found_report (sec_def : section_def) (section_text : string)
  : section_report :=
  let wc := List.length (PyText.split section_text) in
  let '(p2, i2, f2) := word_count_check sec_def wc in
  let '(p3, i3, f3) := elements_check sec_def section_text in
  let '(p4, i4, f4) := specificity_check section_text in
  {| section_num := num sec_def;
     section_header := header sec_def;
     score := Z.min 100 (25 + p2 + p3 + p4);
     issues := i2 ++ i3 ++ i4;
     fix_instructions := f2 ++ f3 ++ f4;
     word_count := Some wc |}.

Definition section_audit (found : list (string * string))
    (sec_def : section_def) : section_report :=
  match find_section sec_def found with
  | None => missing_report sec_def
  | Some (_, section_text) => found_report sec_def section_text
  end.

Definition grade_for (avg_score : Q) : grade * verdict :=
  if Qle_bool 85 avg_score then (A, PRODUCTION_READY)
  else if Qle_bool 70 avg_score then (B, GOOD_WITH_FIXES)
  else if Qle_bool 50 avg_score then (C, NEEDS_REVISION)
  else (D, MAJOR_REWRITE_NEEDED).

(** [GDDQualityAuditorTool._run] on the text of an existing GDD file
    (the [summary] text is left out, [average_score] is not rounded). *)
Definition _run (content : string) : audit :=
  let found := found_sections content in
  let results := map (section_audit found) GDD_SECTIONS in
  let total_score := fold_left (fun acc r => (acc + score r)%Z) results 0%Z in
  let issues_count :=
    fold_left (fun acc r => acc + List.length (issues r)) results 0 in
  let avg_score :=
    (inject_Z total_score / inject_Z (Z.of_nat (List.length GDD_SECTIONS)))%Q in
  {| verdict_of := snd (grade_for avg_score);
     grade_of := fst (grade_for avg_score);
     average_score := avg_score;
     sections_found :=
       List.length (filter (fun r => (0 <? score r)%Z) results);
     sections_expected := List.length GDD_SECTIONS;
     total_issues := issues_count;
     total_words := List.length (PyText.split content);
     sections := results |}.

End Audit.

End GDDQualityAuditorTool.

(** ** flows/pipeline.py: stage selection of the flow *)

Module SlotStudioFlow.

Section Slug.

(** A Python [str] is a list of code points of any size here; [lower] is
    [str.lower], which may change the number of code points, and
    [isalnum] is [str.isalnum] on one code point. *)
Variable char : Type.
Variable lower : list char -> list char.
Variable isalnum : char -> bool.
Variable underscore : char.

(** [initialize]: the slug made from the theme, before the time stamp
    and the version tag are appended. *)
Definition slug (theme : list char) : list char :=
  firstn 40 (map (fun c => if isalnum c then c else underscore) (lower theme)).

End Slug.

(** [initialize], iterate mode: the directories owned by each stage. *)
Definition stage_dir_map : list (string * list string) :=
  [("math", ["03_math"]);
   ("gdd", ["02_design"]);
   ("art", ["04_art"; "04_audio"]);
   ("compliance", ["05_legal"]);
   ("convergence", [])].

Definition skip_dirs (rerun_stages : list string) : list string :=
  flat_map
    (fun stage =>
       match Py.dict_get stage_dir_map stage with
       | Some dirs => dirs
       | None => []
       end)
    rerun_stages.

(** [initialize], iterate mode: whether the directory [rel_name] of the
    source job is copied into the new output directory. *)
Definition copied (rerun_stages : list string) (rel_name : string) : bool :=
  let should_skip :=
    existsb (fun sd => Py.startswith sd rel_name) (skip_dirs rerun_stages) in
  negb should_skip && negb (Py.mem rel_name ["06_pdf"; "07_prototype"]).

(** [_should_skip_stage] *)
Definition _should_skip_stage (iterate_mode : bool)
    (rerun_stages : list string) (stage_name : string) : bool :=
  if negb iterate_mode then false
  else negb (Py.mem stage_name rerun_stages).

(** [run_design_and_math]: whether the stage goes past its two early
    returns and reaches the convergence loop. *)
Definition runs_design_and_math (research_approved iterate_mode : bool)
    (rerun_stages : list string) : bool :=
  if negb research_approved then false
  else if iterate_mode then
    existsb (fun s => Py.mem s ["math"; "gdd"; "convergence"]) rerun_stages
  else true.

End SlotStudioFlow.

(** ** Further concrete inputs used to run the tools on examples *)

Module Samples.

(** A job whose only shortcomings are warnings: three features the GDD
    mentions and the breakdown does not cost, an RTP 0.7 off target and
    a paytable of three symbols. *)
Definition warned_sim : ConvergenceValidatorTool.simulation := {|
  ConvergenceValidatorTool.measured_rtp := Some (967 # 10)%Q;
  ConvergenceValidatorTool.max_win_achieved := None;
  ConvergenceValidatorTool.total_spins := Some 1000%Z;
  ConvergenceValidatorTool.rtp_breakdown :=
    [("base_game", ConvergenceValidatorTool.BNum (967 # 10))];
  ConvergenceValidatorTool.other_keys := []
|}.

Definition warned_job : ConvergenceValidatorTool.artifacts := {|
  ConvergenceValidatorTool.gdd_md :=
    Some "Free Spins with a rising Multiplier and a Jackpot.";
  ConvergenceValidatorTool.paytable_csv :=
    ConvergenceValidatorTool.PaytableRead ["A"; "K"; "Q"];
  ConvergenceValidatorTool.simulation_results_json :=
    ConvergenceValidatorTool.SimulationRead warned_sim;
  ConvergenceValidatorTool.BaseReels_csv := Some Artifacts.reels_text
|}.

(** A paytable of four symbols none of which pays, and one reel of
    twelve positions. *)
Definition dull_paytable : PaytableSanityCheckerTool.paytable_file :=
  PaytableSanityCheckerTool.PaytableRows ["Symbol"; "3OAK"; "4OAK"; "5OAK"]
    [Tables.pay_row "A" "0" "0" "0"; Tables.pay_row "K" "0" "0" "0";
     Tables.pay_row "Q" "0" "0" "0"; Tables.pay_row "J" "0" "0" "0"].

Definition one_reel : PaytableSanityCheckerTool.reels_file :=
  PaytableSanityCheckerTool.ReelsRows ["Reel 1"] (repeat ["A"] 12).

(** A directory holding one file. *)
Definition one_file (path : string) : option string :=
  if String.eqb path "gdd.md" then Some "## 1. Game Overview" else None.

(** A regular expression engine that finds nothing. *)
Definition no_match (pattern text : string) : nat := 0.

End Samples.

(** ** tools/convergence_tools.py: the patch applier on the stored file *)

Module GDDPatchFile.
Import GDDPatchTool.

Definition cr : ascii := "013"%char.

(** What [read_text] returns for the characters stored in the file:
    with universal newlines a carriage return followed by a line feed,
    and a carriage return alone, are read as one line feed. *)
Fixpoint universal_newlines (s : string) : string :=
  match s with
  | EmptyString => EmptyString
  | String c s' =>
      if Ascii.eqb c cr then
        match s' with
        | String c' _ =>
            if Ascii.eqb c' Py.nl then universal_newlines s'
            else String Py.nl (universal_newlines s')
        | EmptyString => String Py.nl EmptyString
        end
      else String c (universal_newlines s')
  end.

(** What [write_text] stores: every line feed is written as
    [os.linesep]. *)
Fixpoint write_newlines (linesep : string) (s : string) : string :=
  match s with
  | EmptyString => EmptyString
  | String c s' =>
      if Ascii.eqb c Py.nl then (linesep ++ write_newlines linesep s')%string
      else String c (write_newlines linesep s')
  end.

(** [GDDPatchTool._run] on the design directory as it is stored:
    [gdd_file] holds the characters of the file, the tool works on what
    [read_text] makes of them and, on success only, stores what
    [write_text] makes of the patched text. *)
Definition _run (linesep : string) (disk : env)
    (section_header new_content reason : string) : result * env :=
  let decoded :=
    {| gdd_file := option_map universal_newlines (gdd_file disk);
       revision_log := revision_log disk;
       now := now disk |} in
  match GDDPatchTool._run decoded section_header new_content reason with
  | (Success a b c d t, e') =>
      (Success a b c d t,
       {| gdd_file := option_map (write_newlines linesep) (gdd_file e');
          revision_log := revision_log e';
          now := now e' |})
  | (r, _) => (r, disk)
  end.

End GDDPatchFile.

(** ** Further documents used to run the patch applier on examples *)

Module MoreDocuments.

Definition crlf : string := String GDDPatchFile.cr (String Py.nl EmptyString).

(** The two-section document with carriage return and line feed at the
    end of every line. *)
Definition two_sections_crlf : string :=
  String.concat crlf
    ["## 1. Overview"; "A slot about tides."; "## 2. Market";
     "UK and Malta."; ""].

(** A document whose first section quotes the header of the second at
    the end of a line. *)
Definition quoted_header : string :=
  Documents.lines
    ["## 1. Overview"; "Markets are listed under ## 2. Market";
     "and nowhere else."; "## 2. Market"; "UK and Malta."; ""].

End MoreDocuments.

(** ** JSON values as [json.loads] returns them *)

Module Json.

#[local] Set Warnings "-register-all".

(** [None], [bool], [int], [float], [str], [list] and [dict] (the items
    of a dictionary in insertion order, the keys distinct). *)
Inductive json :=
| JNull
| JBool (b : bool)
| JInt (z : Z)
| JFloat (f : PrimFloat.float)
| JStr (s : string)
| JList (items : list json)
| JObj (items : list (string * json)).

(** [d.get(k)]: [None] when the key is absent. *)
Definition get (d : list (string * json)) (k : string) : json :=
  match Py.dict_get d k with
  | Some v => v
  | None => JNull
  end.

(** [d.get(k, default)] *)
Definition get_default (d : list (string * json)) (k : string)
    (default : json) : json :=
  match Py.dict_get d k with
  | Some v => v
  | None => default
  end.

(** Truthiness: [None], [False], zero, and the empty string, list and
    dictionary are falsy; a float is falsy when it compares equal to
    zero. *)
Definition truthy (v : json) : bool :=
  match v with
  | JNull => false
  | JBool b => b
  | JInt z => negb (z =? 0)%Z
  | JFloat f => negb (PrimFloat.eqb f PrimFloat.zero)
  | JStr s => Py.nonempty s
  | JList [] => false
  | JList (_ :: _) => true
  | JObj [] => false
  | JObj (_ :: _) => true
  end.

End Json.

(** ** flows/pipeline.py: the OODA convergence loop on the parsed result
    file, with the exceptions that leave it *)

Module RunDesignAndMath.
Import Json.

(** What [run_crew_with_timeout] does with a crew: it returns, after
    the crew is done or the time is out, or it raises the exception of
    the crew.  Either way the crew has acted on the world. *)
Inductive crew_result (World : Type) :=
| Done (w : World)
| Failed (w : World).
Arguments Done {World} w.
Arguments Failed {World} w.

(** [convergence_result_<n>.json]: absent, read as text, or raising
    when it is read ([OSError], or [UnicodeDecodeError], which the
    handler's own [read_text] raises again). *)
Inductive result_file :=
| NoFile
| Text (conv_text : string)
| Unreadable.

(** [json.loads]: a value, a [ValueError] ([JSONDecodeError] included),
    or another exception ([RecursionError] on deep nesting). *)
Inductive loaded :=
| Value (v : json)
| Invalid
| Crash.

(** The value [conv_result] holds before the file is looked at. *)
Definition no_result : json :=
  JObj [("converged", JBool false); ("blockers", JList []);
        ("warnings", JList []); ("summary", JStr "No result")].

(** [len(v)]; [None] when it raises [TypeError]. *)
Definition len (v : json) : option nat :=
  match v with
  | JStr s => Some (String.length s)
  | JList l => Some (List.length l)
  | JObj d => Some (List.length d)
  | _ => None
  end.

(** The series [for b in v] runs over: the elements of a list, the
    characters of a string, the keys of a dictionary; [None] when [v]
    is not iterable. *)
Definition elements (v : json) : option (list json) :=
  match v with
  | JList l => Some l
  | JStr s =>
      Some (map (fun c => JStr (String c EmptyString))
              (list_ascii_of_string s))
  | JObj d => Some (map (fun kv => JStr (fst kv)) d)
  | _ => None
  end.

(** One record of [state.convergence_history]. *)
Record history_entry := {
  loop : Z;
  converged : json;
  blockers : nat;
  warnings : nat;
  summary : json
}.

(** The record appended for [conv_result]; [None] when building it
    raises: [conv_result] has no [get], or a count has no [len]. *)
Definition entry_of (loop_num : Z) (conv_result : json)
  : option history_entry :=
  match conv_result with
  | JObj d =>
      match len (get_default d "blockers" (JList [])),
            len (get_default d "warnings" (JList [])) with
      | Some b, Some w =>
          Some {| loop := loop_num;
                  converged := get_default d "converged" (JBool false);
                  blockers := b;
                  warnings := w;
                  summary := get_default d "summary" (JStr "") |}
      | _, _ => None
      end
  | _ => None
  end.

(** [b.get("agent") == name] *)
Definition has_agent (name : string) (b : list (string * json)) : bool :=
  match get b "agent" with
  | JStr a => String.eqb a name
  | _ => false
  end.

(** [[b for b in blockers if b.get("agent") == name]]; [None] when an
    element has no [get]. *)
Fixpoint with_agent (name : string) (blockers : list json)
  : option (list (list (string * json))) :=
  match blockers with
  | [] => Some []
  | JObj b :: rest =>
      match with_agent name rest with
      | Some issues => Some (if has_agent name b then b :: issues else issues)
      | None => None
      end
  | _ :: _ => None
  end.

(** The values [b['issue']] and [b['instruction']] of every issue, as
    the lines of [issues_text] hold them; [None] on a [KeyError]. *)
Fixpoint issues_text (issues : list (list (string * json)))
  : option (list (json * json)) :=
  match issues with
  | [] => Some []
  | b :: rest =>
      match Py.dict_get b "issue", Py.dict_get b "instruction",
            issues_text rest with
      | Some issue, Some instruction, Some lines =>
          Some ((issue, instruction) :: lines)
      | _, _, _ => None
      end
  end.

Inductive revision_task :=
| GddRevision (issues : list (json * json))
| MathRevision (issues : list (json * json)).

(** ACT: the revision tasks built from the blockers of a result that is
    a dictionary; [None] when building them raises. *)
Definition revision_tasks (d : list (string * json))
  : option (list revision_task) :=
  match elements (get_default d "blockers" (JList [])) with
  | Some blockers =>
      match with_agent "game_designer" blockers,
            with_agent "mathematician" blockers with
      | Some designer_issues, Some math_issues =>
          match issues_text designer_issues,
                issues_text (math_issues ++ designer_issues) with
          | Some designer_lines, Some math_lines =>
              Some ((match designer_issues with
                     | [] => []
                     | _ :: _ => [GddRevision designer_lines]
                     end)
                    ++ (match math_issues ++ designer_issues with
                        | [] => []
                        | _ :: _ => [MathRevision math_lines]
                        end))
          | _, _ => None
          end
      | _, _ => None
      end
  | None => None
  end.

(** The variables of the flow the loop works on: the job directory and
    everything else the crews act on ([world]), the history, the local
    [converged] and the attribute [convergence_loops_run]. *)
Record state {World : Type} := {
  world : World;
  convergence_history : list history_entry;
  converged_flag : bool;
  convergence_loops_run : Z
}.
Arguments state : clear implicits.

(** How control leaves the loop: past its end or through a [break],
    with [loop_num] as it then is (0 when the loop never bound it), or
    with an exception raised during iteration [loop_num]. *)
Inductive exit (World : Type) :=
| Left (loop_num : Z) (st : state World)
| Raised (loop_num : Z) (st : state World).
Arguments Left {World} loop_num st.
Arguments Raised {World} loop_num st.

Section Loop.

Variable World : Type.

(** OBSERVE: the compliance officer's scan of loop [loop_num]. *)
Variable compliance_scan : Z -> World -> crew_result World.

(** ORIENT + DECIDE: the producer's assessment of loop [loop_num]; the
    flag tells whether the task description ends with the "Last loop"
    sentence. *)
Variable convergence_assessment : Z -> bool -> World -> crew_result World.

(** [convergence_result_<loop_num>.json] as the world holds it. *)
Variable read_result : Z -> World -> result_file.

Variable json_loads : string -> loaded.

(** ACT: the revision crew. *)
Variable revise : list revision_task -> World -> crew_result World.

Variable MAX_CONVERGENCE_LOOPS : Z.

(** Parse convergence result; [None] when an exception leaves the
    block. *)
Definition parse_result (file : result_file) : option json :=
  match file with
  | NoFile => Some no_result
  | Unreadable => None
  | Text conv_text =>
      match json_loads conv_text with
      | Value v => Some v
      | Crash => None
      | Invalid =>
          match Pipeline.braces conv_text with
          | Some json_match =>
              match json_loads json_match with
              | Value v => Some v
              | Invalid => Some no_result
              | Crash => None
              end
          | None => Some no_result
          end
      end
  end.

Definition at_world (st : state World) (w : World) : state World :=
  {| world := w;
     convergence_history := convergence_history st;
     converged_flag := converged_flag st;
     convergence_loops_run := convergence_loops_run st |}.

(** [for loop_num in loop_nums: ...] with its two [break]s; [last] is
    [loop_num] as the iterations before left it.  Exceptions come from
    the crews, from reading and parsing the result file and from the
    operations on the parsed value; building the tasks and crews and
    printing are taken not to raise, and the stage update catches every
    [Exception]. *)
Fixpoint ooda (loop_nums : list Z) (last : Z) (st : state World)
  : exit World :=
  match loop_nums with
  | [] => Left last st
  | loop_num :: rest =>
      match compliance_scan loop_num (world st) with
      | Failed w1 => Raised loop_num (at_world st w1)
      | Done w1 =>
          match convergence_assessment loop_num
                  (loop_num =? MAX_CONVERGENCE_LOOPS)%Z w1 with
          | Failed w2 => Raised loop_num (at_world st w2)
          | Done w2 =>
              match parse_result (read_result loop_num w2) with
              | None => Raised loop_num (at_world st w2)
              | Some conv_result =>
                  match conv_result, entry_of loop_num conv_result with
                  | JObj d, Some entry =>
                      let recorded :=
                        {| world := w2;
                           convergence_history :=
                             convergence_history st ++ [entry];
                           converged_flag := converged_flag st;
                           convergence_loops_run :=
                             convergence_loops_run st |} in
                      if truthy (converged entry) then
                        Left loop_num
                          {| world := w2;
                             convergence_history :=
                               convergence_history st ++ [entry];
                             converged_flag := true;
                             convergence_loops_run :=
                               convergence_loops_run st |}
                      else if (MAX_CONVERGENCE_LOOPS <=? loop_num)%Z then
                        Left loop_num recorded
                      else
                        match revision_tasks d with
                        | None => Raised loop_num recorded
                        | Some [] => ooda rest loop_num recorded
                        | Some (t :: ts) =>
                            match revise (t :: ts) w2 with
                            | Failed w3 =>
                                Raised loop_num (at_world recorded w3)
                            | Done w3 =>
                                ooda rest loop_num (at_world recorded w3)
                            end
                        end
                  | _, _ => Raised loop_num (at_world st w2)
                  end
              end
          end
      end
  end.

(** The convergence loop of [run_design_and_math] and the assignment
    to [convergence_loops_run] that follows it, entered in world [w]
    with [history] already recorded and the attribute at [loops_run].
    An exception skips the assignment. *)
Definition convergence_loop (w : World) (history : list history_entry)
    (loops_run : Z) : exit World :=
  match ooda (Pipeline.range 1 (MAX_CONVERGENCE_LOOPS + 1)) 0
          {| world := w; convergence_history := history;
             converged_flag := false; convergence_loops_run := loops_run |}
  with
  | Left loop_num st =>
      Left loop_num
        {| world := world st;
           convergence_history := convergence_history st;
           converged_flag := converged_flag st;
           convergence_loops_run := loop_num |}
  | Raised loop_num st => Raised loop_num st
  end.

(** What holds of the loop started at iteration [a] in state [st] when
    control leaves it by [e]: the iteration [k] it stops in, the entries
    recorded before that iteration, none of them converged, and how the
    last iteration went. *)
Definition stops_at (a : Z) (st : state World) (e : exit World) : Prop :=
  exists (k : Z) (earlier : list history_entry),
    (a <= k <= MAX_CONVERGENCE_LOOPS)%Z
    /\ Z.of_nat (List.length earlier) = (k - a)%Z
    /\ Forall (fun entry => truthy (converged entry) = false) earlier
    /\ match e with
       | Left loop_num st' =>
           loop_num = k
           /\ convergence_loops_run st' = convergence_loops_run st
           /\ exists conv_result entry,
                parse_result (read_result k (world st')) = Some conv_result
                /\ entry_of k conv_result = Some entry
                /\ convergence_history st'
                   = convergence_history st ++ earlier ++ [entry]
                /\ (exists w1,
                      convergence_assessment k
                        (k =? MAX_CONVERGENCE_LOOPS)%Z w1
                      = Done (world st'))
                /\ ((truthy (converged entry) = true
                     /\ converged_flag st' = true)
                    \/ (truthy (converged entry) = false
                        /\ k = MAX_CONVERGENCE_LOOPS
                        /\ converged_flag st' = converged_flag st))
       | Raised loop_num st' =>
           loop_num = k
           /\ convergence_loops_run st' = convergence_loops_run st
           /\ converged_flag st' = converged_flag st
           /\ (convergence_history st' = convergence_history st ++ earlier
               \/ exists entry,
                    truthy (converged entry) = false
                    /\ (k < MAX_CONVERGENCE_LOOPS)%Z
                    /\ convergence_history st'
                       = convergence_history st ++ earlier ++ [entry])
       end.

End Loop.

Arguments at_world {World} st w.

End RunDesignAndMath.

(** ** Concrete collaborators used to run the loop on parsed results *)

Module Runs.
Import Json RunDesignAndMath.

(** The world is the number of the last result file written. *)
Definition assess (loop_num : Z) (last : bool) (w : Z) : crew_result Z :=
  Done loop_num.

Definition idle (w : Z) : crew_result Z := Done w.

(** A producer that writes the text [blocked] on every loop but the
    third, and the text [warned] on the third. *)
Definition stubborn_file (loop_num : Z) (w : Z) : result_file :=
  if (w =? loop_num)%Z then
    Text (if (w =? 3)%Z then "warned" else "blocked")
  else NoFile.

Definition blocked : json :=
  JObj [("converged", JBool false);
        ("blockers",
         JList [JObj [("agent", JStr "mathematician");
                      ("issue", JStr "RTP off target");
                      ("instruction", JStr "rebalance the reel strips")]]);
        ("warnings", JList []);
        ("summary", JStr "blocked")].

Definition warned : json :=
  JObj [("converged", JBool false);
        ("blockers", JList []);
        ("warnings", JList [JStr "hit frequency on the low side"]);
        ("summary", JStr "warnings only")].

(** [json.loads] on the texts the runs below read: the two results
    above, and the text of an empty JSON list. *)
Definition loads (text : string) : loaded :=
  if String.eqb text "warned" then Value warned
  else if String.eqb text "blocked" then Value blocked
  else if String.eqb text "[]" then Value (JList [])
  else Invalid.

Definition stubborn_run (budget : Z) : exit Z :=
  convergence_loop Z (fun _ => idle) assess stubborn_file loads
    (fun _ => idle) budget 0%Z [] 0%Z.





End Runs.

(** ** Python arithmetic on [int] and [float] *)

Module PyNumber.
Import PrimFloat.
Import Json.

#[local] Set Warnings "-inexact-float".

(** A number in an arithmetic expression: an [int] of any size (a
    [bool] counts as the int 0 or 1) or a binary64 [float]. *)
Inductive number := Int (z : Z) | Float (f : PrimFloat.float).

(** The operand a JSON value is in arithmetic and in ordering
    comparisons with numbers; [None] when the operation raises
    [TypeError]. *)
Definition number_of (v : json) : option number :=
  match v with
  | JBool b => Some (Int (Z.b2z b))
  | JInt z => Some (Int z)
  | JFloat f => Some (Float f)
  | _ => None
  end.

(** [isinstance(v, (int, float))] *)
Definition is_number (v : json) : bool :=
  match v with
  | JBool _ | JInt _ | JFloat _ => true
  | _ => false
  end.

(** The float nearest to an integer, ties to even; infinite when the
    integer is beyond the range of the floats. *)
Definition nearest_float (z : Z) : PrimFloat.float :=
  FloatOps.SF2Prim
    (SpecFloat.binary_normalize FloatOps.prec FloatOps.emax z 0 false).

(** The conversion of an [int] operand to [float]; [None] when it
    raises [OverflowError]. *)
Definition float_of_int (z : Z) : option PrimFloat.float :=
  let f := nearest_float z in
  if PrimFloat.is_infinity f then None else Some f.

(** [float(x)] *)
Definition to_float (x : number) : option PrimFloat.float :=
  match x with
  | Int z => float_of_int z
  | Float f => Some f
  end.

(** [x - y]: exact on two ints, otherwise on the two floats. *)
Definition sub (x y : number) : option number :=
  match x, y with
  | Int a, Int b => Some (Int (a - b))
  | _, _ =>
      match to_float x, to_float y with
      | Some a, Some b => Some (Float (PrimFloat.sub a b))
      | _, _ => None
      end
  end.

(** [abs(x)] *)
Definition abs (x : number) : number :=
  match x with
  | Int z => Int (Z.abs z)
  | Float f => Float (PrimFloat.abs f)
  end.

(** [z > f] and [f > z] for an int and a float: the comparison is made
    on the exact values, without converting the int. *)
Definition int_gt_float (z : Z) (f : PrimFloat.float) : bool :=
  match FloatOps.Prim2SF f with
  | SpecFloat.S754_nan => false
  | SpecFloat.S754_infinity s => s
  | SpecFloat.S754_zero _ => (0 <? z)%Z
  | SpecFloat.S754_finite s m e =>
      let v := if s then Z.neg m else Z.pos m in
      if (0 <=? e)%Z then (v * 2 ^ e <? z)%Z
      else (v <? z * 2 ^ (- e))%Z
  end.

Definition float_gt_int (f : PrimFloat.float) (z : Z) : bool :=
  match FloatOps.Prim2SF f with
  | SpecFloat.S754_nan => false
  | SpecFloat.S754_infinity s => negb s
  | SpecFloat.S754_zero _ => (z <? 0)%Z
  | SpecFloat.S754_finite s m e =>
      let v := if s then Z.neg m else Z.pos m in
      if (0 <=? e)%Z then (z <? v * 2 ^ e)%Z
      else (z * 2 ^ (- e) <? v)%Z
  end.

(** [x > f] for a float [f], and [x > z] for an int [z]. *)
Definition gt_float (x : number) (f : PrimFloat.float) : bool :=
  match x with
  | Int z => int_gt_float z f
  | Float g => PrimFloat.ltb f g
  end.

Definition gt_int (x : number) (z : Z) : bool :=
  match x with
  | Int a => (z <? a)%Z
  | Float g => float_gt_int g z
  end.

(** [x / d] for an int [d] raises: [ZeroDivisionError] when [d] is 0,
    [OverflowError] when the quotient of two ints is beyond the range of
    the floats or when [d] has no float. *)
Definition div_raises (x : number) (d : Z) : bool :=
  match x with
  | Int z =>
      (d =? 0)%Z || ((2 ^ 1024 - 2 ^ 970) * Z.abs d <=? Z.abs z)%Z
  | Float _ =>
      match float_of_int d with
      | Some _ => (d =? 0)%Z
      | None => true
      end
  end.

(** The built-in [sum] over floats adds from left to right, starting
    from the int 0, in CPython before 3.12; later versions carry a
    compensation term along and add it at the end. *)
Definition sum_left (l : list PrimFloat.float) : PrimFloat.float :=
  fold_left PrimFloat.add l PrimFloat.zero.

End PyNumber.

(** ** tools/convergence_tools.py: the convergence validator on the
    parsed simulation file *)

Module ConvergenceValidatorOnJson.
Import PrimFloat.
Import Json PyNumber.

#[local] Set Warnings "-inexact-float".

Definition severity := ConvergenceValidatorTool.severity.
Definition conflict_type := ConvergenceValidatorTool.conflict_type.
Definition artifact := ConvergenceValidatorTool.artifact.
Definition verdict := ConvergenceValidatorTool.verdict.

(** The values interpolated in a conflict's [detail] and [fix] texts. *)
Inductive conflict_detail :=
| NotFound (a : artifact)
| Deviates (measured_rtp : json) (deviation : number)
    (target_rtp : PrimFloat.float)
| ExceedsTarget (max_win_achieved : json) (max_win_target : Z)
| ExceedsMarketCap (max_win_achieved : json) (market : string) (cap : Z)
| BreakdownGap (total : number) (measured_rtp : json).

Record conflict := {
  c_type : conflict_type;
  c_severity : severity;
  c_detail : conflict_detail;
  instruction_to : option string
}.

Definition missing_file (a : artifact) (sev : severity)
    (to : option string) : conflict :=
  {| c_type := ConvergenceValidatorTool.MISSING_FILE; c_severity := sev;
     c_detail := NotFound a; instruction_to := to |}.

Definition for_mathematician (ty : conflict_type) (sev : severity)
    (d : conflict_detail) : conflict :=
  {| c_type := ty; c_severity := sev; c_detail := d;
     instruction_to := Some "mathematician" |}.

Inductive warning :=
| PARSE_ERROR (a : artifact)
| RTP_OFF_TARGET (measured_rtp : json) (deviation : number)
| FEATURE_UNCOSTED (gdd_term : string)
| LOW_SYMBOL_COUNT (symbols : nat).

(** Entries of [checks_passed]; [SimulationSpins None] is the text with
    the default ['?']. *)
Inductive passed :=
| GddFileExists
| PaytableSymbols (n : nat)
| SimulationSpins (total_spins : option json)
| RtpOnTarget (measured_rtp : json) (target_rtp : PrimFloat.float)
    (deviation : number)
| MaxWinWithinCap (max_win_achieved : json) (market : string) (cap : Z)
| BreakdownSumsTo (total : number) (measured_rtp : json)
| ReelPositions (positions : Z).

(** [simulation_results.json]: missing, read and parsed, or raising an
    [Exception] while it is read or parsed. *)
Inductive simulation_file :=
| SimulationMissing
| SimulationRead (value : json)
| SimulationBroken.

Inductive reels_file :=
| ReelsMissing
| ReelsRead (reel_text : string)
| ReelsUnreadable.

Record artifacts := {
  gdd_md : option string;
  paytable_csv : ConvergenceValidatorTool.paytable_file;
  simulation_results_json : simulation_file;
  BaseReels_csv : reels_file
}.

Record appended := {
  conflicts : list conflict;
  warnings : list warning;
  checks_passed : list passed
}.

Definition nothing : appended :=
  {| conflicts := []; warnings := []; checks_passed := [] |}.

Definition a_conflict (c : conflict) : appended :=
  {| conflicts := [c]; warnings := []; checks_passed := [] |}.

Definition a_warning (w : warning) : appended :=
  {| conflicts := []; warnings := [w]; checks_passed := [] |}.

Definition a_passed (p : passed) : appended :=
  {| conflicts := []; warnings := []; checks_passed := [p] |}.

Definition seq_app (a b : appended) : appended :=
  {| conflicts := conflicts a ++ conflicts b;
     warnings := warnings a ++ warnings b;
     checks_passed := checks_passed a ++ checks_passed b |}.

Definition all_app (l : list appended) : appended :=
  fold_right seq_app nothing l.


(** Blocks that may raise return [None] then. *)
Fixpoint all_or_raise (l : list (option appended)) : option appended :=
  match l with
  | [] => Some nothing
  | None :: _ => None
  | Some a :: l' =>
      match all_or_raise l' with
      | Some b => Some (seq_app a b)
      | None => None
      end
  end.

(** 1. Read GDD *)
Definition gdd_text (fs : artifacts) : string :=
  match gdd_md fs with
  | Some t => t
  | None => EmptyString
  end.

Definition read_gdd (fs : artifacts) : appended :=
  match gdd_md fs with
  | Some _ => a_passed GddFileExists
  | None =>
      a_conflict (missing_file ConvergenceValidatorTool.Gdd
                    ConvergenceValidatorTool.BLOCKER None)
  end.

(** 2. Read Paytable CSV *)
Definition paytable (fs : artifacts) : list string :=
  match paytable_csv fs with
  | ConvergenceValidatorTool.PaytableMissing => []
  | ConvergenceValidatorTool.PaytableRead syms => Py.set_update [] syms
  | ConvergenceValidatorTool.PaytableBroken syms => Py.set_update [] syms
  end.

Definition read_paytable (fs : artifacts) : appended :=
  match paytable_csv fs with
  | ConvergenceValidatorTool.PaytableRead _ =>
      a_passed (PaytableSymbols (List.length (paytable fs)))
  | ConvergenceValidatorTool.PaytableBroken _ =>
      a_warning (PARSE_ERROR ConvergenceValidatorTool.Paytable)
  | ConvergenceValidatorTool.PaytableMissing =>
      a_conflict (missing_file ConvergenceValidatorTool.Paytable
                    ConvergenceValidatorTool.BLOCKER None)
  end.

(** 3. Read Simulation Results.  [sim] is bound as soon as [json.loads]
    returns; a value that is not a dictionary then makes the rest of
    the [try] body raise, which is recorded as a parse error, and [sim]
    keeps that value. *)
Definition sim (fs : artifacts) : json :=
  match simulation_results_json fs with
  | SimulationRead v => v
  | _ => JObj []
  end.

Definition read_simulation (fs : artifacts) : appended :=
  match simulation_results_json fs with
  | SimulationRead (JObj d) =>
      a_passed (SimulationSpins (Py.dict_get d "total_spins"))
  | SimulationRead _ =>
      a_warning (PARSE_ERROR ConvergenceValidatorTool.SimulationResults)
  | SimulationBroken =>
      a_warning (PARSE_ERROR ConvergenceValidatorTool.SimulationResults)
  | SimulationMissing =>
      a_conflict (missing_file ConvergenceValidatorTool.SimulationResults
                    ConvergenceValidatorTool.HIGH None)
  end.

(** 4. RTP Check *)
Definition rtp_check (d : list (string * json))
    (target_rtp : PrimFloat.float) : option appended :=
  match get d "measured_rtp" with
  | JNull => Some nothing
  | measured_rtp =>
      match number_of measured_rtp with
      | Some m =>
          match sub m (Float target_rtp) with
          | Some difference =>
              let deviation := abs difference in
              if gt_float deviation 1.0%float then
                Some (a_conflict
                        (for_mathematician
                           ConvergenceValidatorTool.RTP_DEVIATION
                           ConvergenceValidatorTool.BLOCKER
                           (Deviates measured_rtp deviation target_rtp)))
              else if gt_float deviation 0.5%float then
                Some (a_warning (RTP_OFF_TARGET measured_rtp deviation))
              else
                Some (a_passed
                        (RtpOnTarget measured_rtp target_rtp deviation))
          | None => None
          end
      | None => None
      end
  end.

(** 5. Max Win Check *)
Definition market_cap_check (max_win_achieved : json) (a : number)
    (market : string) : appended :=
  match Py.dict_get ConvergenceValidatorTool.MAX_WIN_CAPS
          (Py.strip (Py.lower market)) with
  | Some (Some cap) =>
      if negb (cap =? 0)%Z then
        if gt_int a cap then
          a_conflict
            (for_mathematician
               ConvergenceValidatorTool.JURISDICTION_MAX_WIN
               ConvergenceValidatorTool.BLOCKER
               (ExceedsMarketCap max_win_achieved market cap))
        else a_passed (MaxWinWithinCap max_win_achieved market cap)
      else nothing
  | _ => nothing
  end.

Definition max_win_check (d : list (string * json)) (max_win_target : Z)
    (target_markets : list string) : option appended :=
  match get d "max_win_achieved" with
  | JNull => Some nothing
  | max_win_achieved =>
      match number_of max_win_achieved, float_of_int max_win_target with
      | Some a, Some target =>
          let caps :=
            all_app (map (market_cap_check max_win_achieved a)
                       target_markets) in
          if gt_float a (PrimFloat.mul target 1.2%float) then
            if div_raises a max_win_target then None
            else
              Some (seq_app
                      (a_conflict
                         (for_mathematician
                            ConvergenceValidatorTool.MAX_WIN_EXCEEDED
                            ConvergenceValidatorTool.HIGH
                            (ExceedsTarget max_win_achieved max_win_target)))
                      caps)
          else Some caps
      | _, _ => None
      end
  end.

(** 6. RTP Breakdown Consistency *)

(** [float(v) for v in rtp_breakdown.values() if isinstance(v, (int,
    float))], in order; [None] when a conversion raises. *)
Fixpoint breakdown_floats (b : list (string * json))
  : option (list PrimFloat.float) :=
  match b with
  | [] => Some []
  | (_, v) :: b' =>
      match number_of v with
      | Some x =>
          match to_float x, breakdown_floats b' with
          | Some f, Some fs => Some (f :: fs)
          | _, _ => None
          end
      | None => breakdown_floats b'
      end
  end.

Section Sum.

(** The built-in [sum] on a series of floats that is not empty. *)
Variable sum : list PrimFloat.float -> PrimFloat.float.

(** [sum(...)] from the start value, the int 0. *)
Definition total_of (floats : list PrimFloat.float) : number :=
  match floats with
  | [] => Int 0
  | _ :: _ => Float (sum floats)
  end.

Definition breakdown_check (d : list (string * json)) : option appended :=
  let rtp_breakdown := get_default d "rtp_breakdown" (JObj []) in
  let measured_rtp := get d "measured_rtp" in
  if truthy rtp_breakdown then
    match rtp_breakdown with
    | JObj b =>
        match breakdown_floats b with
        | Some floats =>
            let total := total_of floats in
            if truthy measured_rtp then
              match number_of measured_rtp with
              | Some m =>
                  match sub total m with
                  | Some difference =>
                      if gt_float (abs difference) 1.0%float then
                        Some (a_conflict
                                (for_mathematician
                                   ConvergenceValidatorTool.RTP_BREAKDOWN_MISMATCH
                                   ConvergenceValidatorTool.HIGH
                                   (BreakdownGap total measured_rtp)))
                      else
                        Some (a_passed
                                (BreakdownSumsTo total measured_rtp))
                  | None => None
                  end
              | None => None
              end
            else Some nothing
        | None => None
        end
    | _ => None
    end
  else Some nothing.

(** 7. GDD Feature vs Math Feature Alignment *)
Definition has_math (b : list (string * json)) (gdd_term math_key : string)
  : bool :=
  existsb
    (fun k => Py.contains math_key (Py.lower k)
              || Py.contains (Py.replace_char " " "_" gdd_term) (Py.lower k))
    (Py.dict_keys b).

Definition feature_check (rtp_breakdown : json) (gdd_lower : string)
    (kw : string * string) : option appended :=
  let (gdd_term, math_key) := kw in
  if Py.contains gdd_term gdd_lower then
    match rtp_breakdown with
    | JObj b =>
        if negb (has_math b gdd_term math_key) && truthy rtp_breakdown
        then Some (a_warning (FEATURE_UNCOSTED gdd_term))
        else Some nothing
    | _ => None
    end
  else Some nothing.

Definition feature_alignment (fs : artifacts) (d : list (string * json))
  : option appended :=
  if Py.nonempty (gdd_text fs) && truthy (JObj d) then
    all_or_raise
      (map (feature_check (get_default d "rtp_breakdown" (JObj []))
              (Py.lower (gdd_text fs)))
           ConvergenceValidatorTool.feature_keywords)
  else Some nothing.

(** 8. Symbol Count Consistency *)
Definition symbol_count_check (fs : artifacts) : appended :=
  match paytable fs with
  | [] => nothing
  | _ :: _ =>
      if Py.nonempty (gdd_text fs) && (List.length (paytable fs) <? 8)
      then a_warning (LOW_SYMBOL_COUNT (List.length (paytable fs)))
      else nothing
  end.

(** 9. Reel Strips Exist *)
Definition reels_check (fs : artifacts) : appended :=
  match BaseReels_csv fs with
  | ReelsRead reel_text =>
      a_passed
        (ReelPositions
           (Z.of_nat
              (List.length (ConvergenceValidatorTool.reel_lines reel_text))
            - 1)%Z)
  | ReelsUnreadable => nothing
  | ReelsMissing =>
      match paytable fs with
      | _ :: _ =>
          a_conflict (missing_file ConvergenceValidatorTool.BaseReels
                        ConvergenceValidatorTool.HIGH (Some "mathematician"))
      | [] => nothing
      end
  end.

(** 10. Convergence Decision *)
Definition is_blocker (c : conflict) : bool :=
  match c_severity c with
  | ConvergenceValidatorTool.BLOCKER => true
  | ConvergenceValidatorTool.HIGH => false
  end.

Definition is_high (c : conflict) : bool :=
  match c_severity c with
  | ConvergenceValidatorTool.HIGH => true
  | ConvergenceValidatorTool.BLOCKER => false
  end.

Definition decide (r : appended) : verdict :=
  let blocker_count := List.length (filter is_blocker (conflicts r)) in
  let high_count := List.length (filter is_high (conflicts r)) in
  if 0 <? blocker_count then ConvergenceValidatorTool.NOT_CONVERGED
  else if 0 <? high_count then ConvergenceValidatorTool.NOT_CONVERGED
  else if 3 <? List.length (warnings r) then ConvergenceValidatorTool.MARGINAL
  else ConvergenceValidatorTool.CONVERGED.

(** The three lists at the end of [_run], blocks 1 to 9 in order;
    [None] when a block raises.  Blocks 4 to 7 call [sim.get], which
    raises when [sim] is not a dictionary. *)
Definition report (fs : artifacts) (target_rtp : PrimFloat.float)
    (max_win_target : Z) (target_markets : list string) : option appended :=
  match sim fs with
  | JObj d =>
      all_or_raise
        [Some (read_gdd fs);
         Some (read_paytable fs);
         Some (read_simulation fs);
         rtp_check d target_rtp;
         max_win_check d max_win_target target_markets;
         breakdown_check d;
         feature_alignment fs d;
         Some (symbol_count_check fs);
         Some (reels_check fs)]
  | _ => None
  end.

(** [ConvergenceValidatorTool._run] with a float [target_rtp] and an int
    [max_win_target]: the verdict and the three lists of the returned
    object; [None] when the call raises. *)
Definition _run (fs : artifacts) (target_rtp : PrimFloat.float)
    (max_win_target : Z) (target_markets : list string)
  : option (verdict * appended) :=
  match report fs target_rtp max_win_target target_markets with
  | Some r => Some (decide r, r)
  | None => None
  end.

End Sum.

End ConvergenceValidatorOnJson.

(** ** Simulation files used to run the validator on the parsed file *)

Module Simulations.
Import PrimFloat.
Import Json.

#[local] Set Warnings "-inexact-float".

Definition with_simulation (value : json)
  : ConvergenceValidatorOnJson.artifacts :=
  {| ConvergenceValidatorOnJson.gdd_md := Some "A slot about tides.";
     ConvergenceValidatorOnJson.paytable_csv :=
       ConvergenceValidatorTool.PaytableRead
         ["A"; "K"; "Q"; "J"; "10"; "9"; "WILD"; "SCATTER"];
     ConvergenceValidatorOnJson.simulation_results_json :=
       ConvergenceValidatorOnJson.SimulationRead value;
     ConvergenceValidatorOnJson.BaseReels_csv :=
       ConvergenceValidatorOnJson.ReelsRead "R1,R2,R3" |}.

(** Scenario 2 of the specification. *)
Definition inconsistent : json :=
  JObj [("measured_rtp", JFloat 96.0%float);
        ("rtp_breakdown",
         JObj [("base_game", JFloat 60.0%float);
               ("free_spins", JFloat 20.0%float);
               ("jackpots", JFloat 0.5%float)])].

(** Components whose decimal values add up to 96.2, against a measured
    RTP of 97.2. *)
Definition one_point_apart : json :=
  JObj [("measured_rtp", JFloat 97.2%float);
        ("rtp_breakdown",
         JObj [("base_game", JFloat 38.4%float);
               ("free_spins", JFloat 36.7%float);
               ("bonus", JFloat 21.1%float)])].

(** A breakdown of 50 against a measured RTP of 0. *)
Definition zero_rtp : json :=
  JObj [("measured_rtp", JInt 0);
        ("rtp_breakdown", JObj [("base_game", JFloat 50.0%float)])].

Definition ninety_six : PrimFloat.float := 96%float.

(** A simulation that reports a max win of 4800. *)
Definition big_win : json :=
  JObj [("measured_rtp", JInt 96); ("max_win_achieved", JInt 4800)].

(** A breakdown component that is an int beyond the range of the
    floats. *)
Definition huge_component : json :=
  JObj [("measured_rtp", JFloat 96.0%float);
        ("rtp_breakdown", JObj [("base_game", JInt (10 ^ 400))])].

(** A breakdown holding an int, a boolean and a string, against an int
    measured RTP. *)
Definition mixed_values : json :=
  JObj [("measured_rtp", JInt 96);
        ("rtp_breakdown",
         JObj [("base_game", JInt 60); ("free_spins", JFloat 34.5%float);
               ("bonus", JBool true); ("note", JStr "estimated")])].

End Simulations.

(** * Part II: theorems *)

(** ** The convergence loop *)

Section LoopFacts.
Import Pipeline.

Variable World : Type.
Variable compliance_scan : Z -> World -> World.
Variable convergence_assessment : Z -> bool -> World -> World.
Variable read_result : Z -> World -> option string.
Variable json_loads : string -> option conv_result.
Variable revise : list revision_task -> World -> World.
Variable MAX_CONVERGENCE_LOOPS : Z.

Local Abbreviation N := MAX_CONVERGENCE_LOOPS.
Local Abbreviation ooda' :=
  (ooda World compliance_scan convergence_assessment read_result json_loads
        revise N).
Local Abbreviation result_at' := (result_at World read_result json_loads).
Local Abbreviation exit_at' :=
  (exit_at World convergence_assessment read_result json_loads N).
Local Abbreviation loop' :=
  (convergence_loop World compliance_scan convergence_assessment read_result
                    json_loads revise N).

Lemma range_nil (a b : Z) : (b <= a)%Z -> range a b = [].
Proof.
  intros H. unfold range.
  replace (Z.to_nat (b - a)) with 0 by lia. reflexivity.
Qed.

Lemma range_cons (a b : Z) :
  (a < b)%Z -> range a b = a :: range (a + 1) b.
Proof.
  intros H. unfold range.
  replace (Z.to_nat (b - a)) with (S (Z.to_nat (b - (a + 1)))) by lia.
  cbn [seq map]. f_equal.
  - lia.
  - rewrite <- seq_shift, map_map. apply map_ext. intros i. lia.
Qed.

Lemma ooda_exit (n : nat) :
  forall (a : Z) (st : state World),
    Z.to_nat (N + 1 - a) = S n -> (1 <= a)%Z ->
    exit_at' a st (ooda' (range a (N + 1)) st).
Proof.
  induction n as [|n IH]; intros a st Hn Ha.
  - assert (a = N) by lia. subst a.
    rewrite range_cons by lia. rewrite (range_nil (N + 1)) by lia.
    cbn [ooda].
    destruct (get (cr_converged (result_at' N _)) false) eqn:Hc.
    + exists N, []. cbn. repeat split; try lia; eauto.
    + rewrite Z.leb_refl.
      exists N, []. cbn. repeat split; try lia; eauto.
  - rewrite range_cons by lia. cbn [ooda].
    destruct (get (cr_converged (result_at' a _)) false) eqn:Hc.
    + exists a, []. cbn. repeat split; try lia; eauto.
    + destruct (N <=? a)%Z eqn:Hle; [apply Z.leb_le in Hle; lia|].
      match goal with
      | |- exit_at' _ _ (ooda' _ ?s) =>
          destruct (IH (a + 1)%Z s ltac:(lia) ltac:(lia))
            as (j & earlier & Hj & Hrun & Hhist & Hlen & Hall & Hw & Hwhy)
      end.
      exists j, (entry_of a (result_at' a
                   (convergence_assessment a (a =? N)%Z
                      (compliance_scan a (world st)))) :: earlier).
      split; [lia|]. split; [exact Hrun|].
      split.
      { rewrite Hhist. cbn [convergence_history].
        rewrite <- app_assoc. reflexivity. }
      split; [cbn [List.length]; lia|].
      split; [constructor; auto|].
      split; [exact Hw|].
      destruct Hwhy as [[H1 H2]|[H1 [H2 H3]]]; [left|right]; auto.
Qed.

(** C3 (amended). When the loop reaches its final iteration [N], it
    exits after exactly [N] iterations: [N - 1] non-converged entries
    followed by the entry built from the result of the final assessment,
    the one whose task carries the "Last loop" sentence.  That entry's
    [converged] and the loop's flag are the value read from that result,
    whatever it is, and the entry holds the count of its warnings. *)
Theorem final_iteration_records_assessment
    (w : World) (h : list history_entry) :
  (1 <= N)%Z ->
  convergence_loops_run (loop' w h) = N ->
  let final := result_at' N (world (loop' w h)) in
  exists earlier : list history_entry,
    convergence_history (loop' w h) = h ++ earlier ++ [entry_of N final]
    /\ Z.of_nat (List.length earlier) = (N - 1)%Z
    /\ Forall (fun e => converged e = false) earlier
    /\ (exists w1, world (loop' w h) = convergence_assessment N true w1)
    /\ converged (entry_of N final) = get (cr_converged final) false
    /\ warnings (entry_of N final) = List.length (get (cr_warnings final) [])
    /\ converged_flag (loop' w h) = get (cr_converged final) false.
Proof.
  intros HN Hrun0. unfold convergence_loop in *.
  match goal with
  | |- context [ooda' _ ?s] =>
      destruct (ooda_exit (Z.to_nat (N - 1)) 1%Z s ltac:(lia) ltac:(lia))
        as (j & earlier & Hj & Hrun & Hhist & Hlen & Hall & Hw & Hwhy);
      set (st' := ooda' (range 1 (N + 1)) s) in *
  end.
  rewrite Hrun0 in Hrun. subst j.
  cbn zeta. exists earlier.
  cbn [convergence_history] in Hhist.
  split; [exact Hhist|]. split; [lia|]. split; [exact Hall|].
  split.
  { destruct Hw as [w1 Hw]. exists w1. rewrite Z.eqb_refl in Hw. exact Hw. }
  split; [reflexivity|]. split; [reflexivity|].
  destruct Hwhy as [[H1 H2]|[H1 [_ H2]]]; rewrite H1; auto.
Qed.

End LoopFacts.

(** ** The convergence loop and the exceptions that leave it *)

Section LoopExits.
Import Json RunDesignAndMath.

Variable World : Type.
Variable compliance_scan : Z -> World -> crew_result World.
Variable convergence_assessment : Z -> bool -> World -> crew_result World.
Variable read_result : Z -> World -> result_file.
Variable json_loads : string -> loaded.
Variable revise : list revision_task -> World -> crew_result World.
Variable MAX_CONVERGENCE_LOOPS : Z.

Local Abbreviation N := MAX_CONVERGENCE_LOOPS.
Local Abbreviation run_ooda :=
  (ooda World compliance_scan convergence_assessment read_result json_loads
        revise N).
Local Abbreviation stops :=
  (stops_at World convergence_assessment read_result json_loads N).





End LoopExits.


(** With a budget of 3, two blocked iterations and a third that leaves
    [converged] false, control leaves the loop at the budget [break]
    with three entries and [convergence_loops_run] at 3. *)
Example stubborn_run_exhausts_the_budget :
  exists st,
    Runs.stubborn_run 3 = RunDesignAndMath.Left 3 st
    /\ RunDesignAndMath.convergence_loops_run st = 3%Z
    /\ RunDesignAndMath.converged_flag st = false
    /\ map RunDesignAndMath.loop (RunDesignAndMath.convergence_history st)
       = [1%Z; 2%Z; 3%Z]
    /\ map RunDesignAndMath.blockers
         (RunDesignAndMath.convergence_history st)
       = [1; 1; 0].
Proof. eexists. repeat split. Qed.


Lemma final_iteration_records_assessment_witness :
  let st := Scenario.stubborn_run 3 in
  let final :=
    Pipeline.result_at Z Scenario.result_text Scenario.loads 3
      (Pipeline.world st) in
  exists earlier,
    Pipeline.convergence_history st
    = [] ++ earlier ++ [Pipeline.entry_of 3 final]
    /\ Z.of_nat (List.length earlier) = (3 - 1)%Z
    /\ Forall (fun e => Pipeline.converged e = false) earlier
    /\ (exists w1, Pipeline.world st = Scenario.write_result 3 true w1)
    /\ Pipeline.converged (Pipeline.entry_of 3 final)
       = Pipeline.get (Pipeline.cr_converged final) false
    /\ Pipeline.warnings (Pipeline.entry_of 3 final)
       = List.length (Pipeline.get (Pipeline.cr_warnings final) [])
    /\ Pipeline.converged_flag st
       = Pipeline.get (Pipeline.cr_converged final) false.
Proof.
  apply (final_iteration_records_assessment Z (fun _ w => w)
           Scenario.write_result Scenario.result_text Scenario.loads
           (fun _ w => w) 3%Z 0%Z []).
  - lia.
  - reflexivity.
Defined.

(** C3, as stated, fails: with a budget of 3, two blocked iterations and
    a third assessment that reports no blocker and one warning but
    leaves [converged] false, the loop exits after 3 iterations and both
    the final history entry and the flag written to
    [convergence_history.json] say not converged. *)
Lemma last_loop_not_forced_to_converge :
  let st := Scenario.stubborn_run 3 in
  let final :=
    Pipeline.result_at Z Scenario.result_text Scenario.loads 3
      (Pipeline.world st) in
  Pipeline.convergence_loops_run st = 3%Z
  /\ Pipeline.cr_blockers final = Some []
  /\ Pipeline.cr_warnings final = Some ["hit frequency on the low side"]
  /\ map Pipeline.blockers (Pipeline.convergence_history st) = [1; 1; 0]
  /\ map Pipeline.converged (Pipeline.convergence_history st)
     = [false; false; false]
  /\ Pipeline.converged_flag st = false.
Proof. vm_compute. repeat split; reflexivity. Qed.

(** ** The jurisdiction compliance checker *)

Section ComplianceFacts.
Import Jurisdiction JurisdictionComplianceCheckerTool.

Lemma dict_get_In {V : Type} (d : list (string * V)) (k : string) (v : V) :
  Py.dict_get d k = Some v -> In (k, v) d.
Proof.
  induction d as [|[k' v'] d IH]; cbn; [discriminate|].
  destruct (String.eqb k' k) eqn:E.
  - apply String.eqb_eq in E. intros [= ->]. subst. now left.
  - intros H. right. now apply IH.
Qed.

Lemma lookup_profile_In (m k : string) (p : profile) :
  lookup_profile m = Some (k, p) -> In (k, p) JURISDICTION_PROFILES.
Proof.
  unfold lookup_profile.
  destruct (Py.dict_get JURISDICTION_PROFILES m) as [p'|] eqn:E.
  - intros [= <- <-]. now apply dict_get_In.
  - intros H. now apply find_some in H.
Qed.

(** Every profile of the table has a positive minimum RTP and no
    max-win cap. *)
Lemma table_profile (k : string) (p : profile) :
  In (k, p) JURISDICTION_PROFILES -> (0 < rtp_min p)%Q /\ cap_x p = None.
Proof.
  cbn. intros H.
  repeat (destruct H as [H|H]; [injection H as <- <-; now split|]).
  contradiction.
Qed.

Lemma resolved_min_positive (markets : list string) (m : Q) :
  In m (map rtp_min (resolved_profiles markets)) -> (0 < m)%Q.
Proof.
  intros H. apply in_map_iff in H. destruct H as (p & <- & H).
  apply in_flat_map in H. destruct H as (name & _ & H).
  destruct (lookup_profile name) as [[k q]|] eqn:E; [|contradiction].
  destruct H as [<-|[]].
  apply lookup_profile_In in E. now apply table_profile in E.
Qed.

Lemma py_max_cases (a b : Q) :
  (Py.max a b = a /\ (b <= a)%Q) \/ (Py.max a b = b /\ (a <= b)%Q).
Proof.
  unfold Py.max. destruct (Qle_bool b a) eqn:E.
  - left. split; [reflexivity|]. now apply Qle_bool_iff.
  - right. split; [reflexivity|].
    destruct (Qlt_le_dec a b) as [H|H]; [now apply Qlt_le_weak|].
    apply Qle_bool_iff in H. congruence.
Qed.

Lemma fold_max_init (l : list Q) (t0 : Q) :
  (t0 <= fold_left Py.max l t0)%Q.
Proof.
  revert t0. induction l as [|x l IH]; intros t0; cbn; [apply Qle_refl|].
  eapply Qle_trans; [|apply IH].
  destruct (py_max_cases t0 x) as [[-> _]|[-> H]]; [apply Qle_refl|exact H].
Qed.

Lemma fold_max_upper (l : list Q) (t0 m : Q) :
  In m l -> (m <= fold_left Py.max l t0)%Q.
Proof.
  revert t0. induction l as [|x l IH]; intros t0; cbn; [contradiction|].
  intros [->|H]; [|now apply IH].
  eapply Qle_trans; [|apply fold_max_init].
  destruct (py_max_cases t0 m) as [[-> H]|[-> _]]; [exact H|apply Qle_refl].
Qed.

Lemma fold_max_attained (l : list Q) (t0 : Q) :
  fold_left Py.max l t0 = t0 \/ In (fold_left Py.max l t0) l.
Proof.
  revert t0. induction l as [|x l IH]; intros t0; cbn; [now left|].
  destruct (IH (Py.max t0 x)) as [E|H]; [|now right; right].
  rewrite E.
  destruct (py_max_cases t0 x) as [[-> _]|[-> _]]; [now left|now right; left].
Qed.

Lemma fold_tightest (rtp : Q) (mw : Z) (feats markets : list string) :
  forall st,
    tightest_min_rtp (fold_left (check_market rtp mw feats) markets st)
    = fold_left Py.max (map rtp_min (resolved_profiles markets))
        (tightest_min_rtp st).
Proof.
  induction markets as [|m ms IH]; intros st; cbn [fold_left]; [reflexivity|].
  rewrite IH. unfold resolved_profiles. cbn [flat_map].
  rewrite map_app, fold_left_app. f_equal.
  unfold check_market.
  destruct (lookup_profile m) as [[k p]|]; reflexivity.
Qed.

Lemma check_market_blockers (rtp : Q) (mw : Z) (feats : list string)
    (st : loop_state) (m : string) :
  l_blockers (check_market rtp mw feats st m)
  = l_blockers st ++ l_blockers (check_market rtp mw feats initial_state m).
Proof.
  unfold check_market.
  destruct (lookup_profile m) as [[k p]|]; cbn [l_blockers initial_state];
    [|now rewrite app_nil_r].
  destruct (Qle_bool (rtp_min p) rtp && Qle_bool rtp (rtp_max p));
    destruct (cap_x p) as [c|];
    try destruct (negb (c =? 0)%Z && (c <? mw)%Z);
    destruct (negb (List.length (filter _ feats) =? 0));
    cbn [app]; rewrite <- ?app_assoc, ?app_nil_r; reflexivity.
Qed.

Lemma fold_blockers (rtp : Q) (mw : Z) (feats markets : list string) :
  forall st,
    l_blockers (fold_left (check_market rtp mw feats) markets st)
    = l_blockers st
      ++ flat_map
           (fun m => l_blockers (check_market rtp mw feats initial_state m))
           markets.
Proof.
  induction markets as [|m ms IH]; intros st; cbn [fold_left flat_map].
  - now rewrite app_nil_r.
  - rewrite IH, check_market_blockers, app_assoc. reflexivity.
Qed.

(** The cap blocker one market contributes. *)
Lemma market_cap_blocker (rtp : Q) (mw : Z) (feats : list string)
    (m k : string) (c : Z) :
  In (MaxWinExceedsCap k mw c)
     (l_blockers (check_market rtp mw feats initial_state m))
  <-> exists p,
        lookup_profile m = Some (k, p)
        /\ cap_x p = Some c /\ c <> 0%Z /\ (c < mw)%Z.
Proof.
  unfold check_market.
  destruct (lookup_profile m) as [[k' p]|]; cbn [l_blockers initial_state].
  2:{ split; [contradiction|]. intros (p & [=] & _). }
  assert (Hcap : forall l1 l3,
            (forall x, In x l1 -> forall a b d, x <> MaxWinExceedsCap a b d) ->
            (forall x, In x l3 -> forall a b d, x <> MaxWinExceedsCap a b d) ->
            forall l2,
              In (MaxWinExceedsCap k mw c) (l1 ++ l2 ++ l3)
              <-> In (MaxWinExceedsCap k mw c) l2).
  { intros l1 l3 H1 H3 l2. rewrite !in_app_iff. split; [|tauto].
    intros [H|[H|H]]; [exfalso; eapply H1; eauto|exact H|
                       exfalso; eapply H3; eauto]. }
  set (b1 := if Qle_bool (rtp_min p) rtp && Qle_bool rtp (rtp_max p)
             then [] else [RtpOutsideRange k' rtp (rtp_min p) (rtp_max p)]).
  set (hits := filter (fun f => Py.mem f (banned p)) feats).
  set (b3 := if negb (List.length hits =? 0)
             then [BannedFeaturesUsed k' hits] else []).
  set (b2 := match cap_x p with
             | Some c0 =>
                 if negb (c0 =? 0)%Z && (c0 <? mw)%Z
                 then [MaxWinExceedsCap k' mw c0] else []
             | None => []
             end).
  match goal with
  | |- In _ ?l <-> _ => replace l with (b1 ++ b2 ++ b3)
  end.
  2:{ unfold b1, b2, b3, hits.
      destruct (Qle_bool (rtp_min p) rtp && Qle_bool rtp (rtp_max p));
        destruct (cap_x p) as [c0|];
        try destruct (negb (c0 =? 0)%Z && (c0 <? mw)%Z);
        destruct (negb (List.length (filter _ feats) =? 0));
        reflexivity. }
  rewrite Hcap.
  - unfold b2. destruct (cap_x p) as [c0|] eqn:Ecap.
    + destruct (negb (c0 =? 0)%Z && (c0 <? mw)%Z) eqn:E.
      * apply andb_true_iff in E as [E1 E2].
        apply negb_true_iff, Z.eqb_neq in E1. apply Z.ltb_lt in E2.
        split.
        -- intros [[= -> ->]|[]]. exists p. auto.
        -- intros (p' & [= -> <-] & Hc & _).
           rewrite Ecap in Hc. injection Hc as ->. now left.
      * split; [contradiction|].
        intros (p' & [= -> <-] & Hc & H1 & H2).
        rewrite Ecap in Hc. injection Hc as ->.
        apply Z.eqb_neq in H1. apply Z.ltb_lt in H2.
        rewrite H1, H2 in E. discriminate.
    + split; [contradiction|]. intros (p' & [= _ <-] & Hc & _).
      congruence.
  - unfold b1. intros x Hx a b d.
    destruct (Qle_bool _ _ && _); [contradiction|].
    destruct Hx as [<-|[]]. discriminate.
  - unfold b3. intros x Hx a b d.
    destruct (negb _); [|contradiction].
    destruct Hx as [<-|[]]. discriminate.
Qed.

(** C2 (amended). For every list of jurisdiction names, the
    intersection's [tightest_min_rtp] is the maximum of the minimum-RTP
    bounds of the resolved profiles: an upper bound of them all and,
    when at least one name resolves, one of them; it is 0.0 when none
    resolves.  The intersection has exactly five keys and none of them
    is a max-win cap: a cap only bears on the market it belongs to,
    whose blocker is reported exactly when the cap is non-null and
    below the proposed max win. *)
Theorem intersection_tightest_min_rtp
    (markets : list string) (proposed_rtp : Q) (proposed_max_win : Z)
    (proposed_features : list string) :
  let r := _run markets proposed_rtp proposed_max_win proposed_features in
  let mins := map rtp_min (resolved_profiles markets) in
  exists t : Q,
    Py.dict_get (intersection r) "tightest_min_rtp" = Some (VFloat t)
    /\ (forall m, In m mins -> (m <= t)%Q)
    /\ (mins <> [] -> In t mins)
    /\ (mins = [] -> t = 0%Q)
    /\ Py.dict_keys (intersection r)
       = ["tightest_min_rtp"; "rtp_compliant";
          "features_banned_in_any_market"; "all_required_rg_features";
          "slowest_min_cycle_ms"]
    /\ Py.dict_get (intersection r) "max_win_cap" = None
    /\ (forall k c,
          In (MaxWinExceedsCap k proposed_max_win c) (blockers r) <->
          exists m p,
            In m markets /\ lookup_profile m = Some (k, p)
            /\ cap_x p = Some c /\ c <> 0%Z /\ (c < proposed_max_win)%Z).
Proof.
  cbn zeta.
  exists (fold_left Py.max (map rtp_min (resolved_profiles markets)) 0%Q).
  split.
  { unfold _run, build_intersection. cbn [intersection Py.dict_get String.eqb].
    cbn. rewrite fold_tightest. reflexivity. }
  split; [intros m; apply fold_max_upper|].
  split.
  { intros Hne.
    destruct (fold_max_attained (map rtp_min (resolved_profiles markets)) 0%Q)
      as [E|H]; [|exact H].
    exfalso.
    destruct (map rtp_min (resolved_profiles markets)) as [|x l] eqn:El;
      [congruence|].
    assert (Hx : (0 < x)%Q).
    { apply (resolved_min_positive markets). rewrite El. now left. }
    assert (Hle : (x <= fold_left Py.max (x :: l) 0)%Q)
      by (apply fold_max_upper; now left).
    rewrite E in Hle. exact (Qlt_not_le _ _ Hx Hle). }
  split; [intros ->; reflexivity|].
  split; [reflexivity|]. split; [reflexivity|].
  intros k c. unfold _run. cbn [blockers].
  rewrite fold_blockers. cbn [l_blockers initial_state app].
  rewrite in_flat_map. split.
  - intros (m & Hm & H). apply market_cap_blocker in H.
    destruct H as (p & H). exists m, p. tauto.
  - intros (m & p & Hm & H). exists m. split; [exact Hm|].
    apply market_cap_blocker. exists p. exact H.
Qed.

(** C2, as stated, fails on its second half: for the markets UK and
    Malta the intersection has the five keys below and nothing under a
    max-win cap key, although the proposed max win went through each
    market's own "Max Win" check. *)
Lemma intersection_has_no_max_win_cap :
  let r := _run ["UK"; "Malta"] 96 5000 [] in
  markets_checked r = ["UK"; "Malta"]
  /\ Py.dict_keys (intersection r)
     = ["tightest_min_rtp"; "rtp_compliant";
        "features_banned_in_any_market"; "all_required_rg_features";
        "slowest_min_cycle_ms"]
  /\ Py.dict_get (intersection r) "max_win_cap" = None
  /\ (forall v, ~ In ("max_win_cap", v) (intersection r)).
Proof.
  cbn zeta. split; [reflexivity|]. split; [reflexivity|].
  split; [reflexivity|].
  intros v H. cbn in H.
  repeat (destruct H as [H|H]; [discriminate|]). contradiction.
Qed.

End ComplianceFacts.

(** ** The convergence validator *)

(** Breaks up disjunctions, conjunctions and existentials among the
    hypotheses. *)
Ltac break_up :=
  repeat match goal with
    | H : _ \/ _ |- _ => destruct H
    | H : False |- _ => contradiction
    | H : _ /\ _ |- _ => destruct H
    | H : exists _, _ |- _ => destruct H
    end.

(** Reduces the memberships in what a block appends, then breaks them
    up. *)
Ltac in_singleton :=
  cbn [ConvergenceValidatorTool.conflicts
       ConvergenceValidatorTool.checks_passed
       ConvergenceValidatorTool.warnings
       ConvergenceValidatorTool.a_conflict
       ConvergenceValidatorTool.a_passed
       ConvergenceValidatorTool.a_warning
       ConvergenceValidatorTool.nothing In] in *;
  break_up.

Section ValidatorFacts.
Import ConvergenceValidatorTool.

Lemma Qlt_bool_true (a b : Q) : Py.Qlt_bool a b = true <-> (a < b)%Q.
Proof.
  unfold Py.Qlt_bool. rewrite negb_true_iff. split.
  - intros E. destruct (Qlt_le_dec a b) as [H|H]; [exact H|].
    apply Qle_bool_iff in H. congruence.
  - intros H. destruct (Qle_bool b a) eqn:E; [|reflexivity].
    apply Qle_bool_iff in E. exfalso. exact (Qlt_not_le _ _ H E).
Qed.

Lemma Qlt_bool_false (a b : Q) : Py.Qlt_bool a b = false <-> ~ (a < b)%Q.
Proof.
  rewrite <- Qlt_bool_true. destruct (Py.Qlt_bool a b); split; congruence.
Qed.

Lemma conflicts_all_app (l : list appended) :
  conflicts (all_app l) = flat_map conflicts l.
Proof.
  unfold all_app. induction l as [|a l IH]; cbn; [reflexivity|].
  now rewrite IH.
Qed.

Lemma warnings_all_app (l : list appended) :
  warnings (all_app l) = flat_map warnings l.
Proof.
  unfold all_app. induction l as [|a l IH]; cbn; [reflexivity|].
  now rewrite IH.
Qed.

Lemma checks_passed_all_app (l : list appended) :
  checks_passed (all_app l) = flat_map checks_passed l.
Proof.
  unfold all_app. induction l as [|a l IH]; cbn; [reflexivity|].
  now rewrite IH.
Qed.

Variable fs : artifacts.
Variable target_rtp : Q.
Variable max_win_target : Z.
Variable target_markets : list string.

Local Abbreviation the_report :=
  (report fs target_rtp max_win_target target_markets).

(** The conflicts of the report, block by block. *)
Lemma report_conflicts (c : conflict) :
  In c (conflicts the_report) <->
  In c (conflicts (read_gdd fs))
  \/ In c (conflicts (read_paytable fs))
  \/ In c (conflicts (read_simulation fs))
  \/ In c (conflicts (rtp_check (sim fs) target_rtp))
  \/ In c (conflicts (max_win_check (sim fs) max_win_target target_markets))
  \/ In c (conflicts (breakdown_check (sim fs)))
  \/ In c (conflicts (feature_alignment fs))
  \/ In c (conflicts (symbol_count_check fs))
  \/ In c (conflicts (reels_check fs)).
Proof.
  unfold report. rewrite conflicts_all_app. cbn [flat_map].
  rewrite !in_app_iff. cbn [In]. tauto.
Qed.

Lemma report_checks_passed (p : passed) :
  In p (checks_passed the_report) <->
  In p (checks_passed (read_gdd fs))
  \/ In p (checks_passed (read_paytable fs))
  \/ In p (checks_passed (read_simulation fs))
  \/ In p (checks_passed (rtp_check (sim fs) target_rtp))
  \/ In p (checks_passed
             (max_win_check (sim fs) max_win_target target_markets))
  \/ In p (checks_passed (breakdown_check (sim fs)))
  \/ In p (checks_passed (feature_alignment fs))
  \/ In p (checks_passed (symbol_count_check fs))
  \/ In p (checks_passed (reels_check fs)).
Proof.
  unfold report. rewrite checks_passed_all_app. cbn [flat_map].
  rewrite !in_app_iff. cbn [In]. tauto.
Qed.

(** What the RTP check appends stays in the report. *)
Lemma rtp_check_in_report :
  (forall c, In c (conflicts (rtp_check (sim fs) target_rtp)) ->
             In c (conflicts the_report))
  /\ (forall w, In w (warnings (rtp_check (sim fs) target_rtp)) ->
                In w (warnings the_report))
  /\ (forall p, In p (checks_passed (rtp_check (sim fs) target_rtp)) ->
                In p (checks_passed the_report)).
Proof.
  unfold report.
  rewrite conflicts_all_app, warnings_all_app, checks_passed_all_app.
  cbn [flat_map]. repeat split; intros x H; rewrite !in_app_iff; tauto.
Qed.

(** Blocks that never append a conflict. *)
Lemma feature_alignment_conflicts : conflicts (feature_alignment fs) = [].
Proof.
  unfold feature_alignment.
  destruct (Py.nonempty (gdd_text fs) && sim_truthy (sim fs)); [|reflexivity].
  cbn zeta. rewrite conflicts_all_app.
  induction feature_keywords as [|[t k] l IH]; cbn; [reflexivity|].
  rewrite IH.
  destruct (Py.contains t _); [|reflexivity].
  destruct (negb _ && negb _); reflexivity.
Qed.

Lemma feature_alignment_passed : checks_passed (feature_alignment fs) = [].
Proof.
  unfold feature_alignment.
  destruct (Py.nonempty (gdd_text fs) && sim_truthy (sim fs)); [|reflexivity].
  cbn zeta. rewrite checks_passed_all_app.
  induction feature_keywords as [|[t k] l IH]; cbn; [reflexivity|].
  rewrite IH.
  destruct (Py.contains t _); [|reflexivity].
  destruct (negb _ && negb _); reflexivity.
Qed.

Lemma symbol_count_conflicts : conflicts (symbol_count_check fs) = [].
Proof.
  unfold symbol_count_check. destruct (paytable fs); [reflexivity|].
  destruct (Py.nonempty _ && _); reflexivity.
Qed.

Lemma symbol_count_passed : checks_passed (symbol_count_check fs) = [].
Proof.
  unfold symbol_count_check. destruct (paytable fs); [reflexivity|].
  destruct (Py.nonempty _ && _); reflexivity.
Qed.

(** What the jurisdiction-cap loop appends for one market. *)
Lemma market_cap_check_conflict (achieved : Q) (market : string) (c : conflict) :
  In c (conflicts (market_cap_check achieved market)) <->
  exists cap : Z,
    Py.dict_get MAX_WIN_CAPS (Py.strip (Py.lower market)) = Some (Some cap)
    /\ cap <> 0%Z
    /\ (inject_Z cap < achieved)%Q
    /\ c = for_mathematician JURISDICTION_MAX_WIN BLOCKER
          (ExceedsMarketCap achieved market cap).
Proof.
  unfold market_cap_check.
  destruct (Py.dict_get MAX_WIN_CAPS _) as [[cap|]|].
  - destruct (cap =? 0)%Z eqn:E0; cbn [negb].
    + apply Z.eqb_eq in E0. cbn. split; [contradiction|].
      intros (cap' & [= <-] & H & _). contradiction.
    + apply Z.eqb_neq in E0.
      destruct (Py.Qlt_bool (inject_Z cap) achieved) eqn:E; cbn.
      * apply Qlt_bool_true in E. split.
        -- intros [<-|[]]. exists cap. auto.
        -- intros (cap' & [= <-] & _ & _ & ->). now left.
      * apply Qlt_bool_false in E. split; [contradiction|].
        intros (cap' & [= <-] & _ & H & _). contradiction.
  - cbn. split; [contradiction|]. intros (cap' & [=] & _).
  - cbn. split; [contradiction|]. intros (cap' & [=] & _).
Qed.

Lemma market_cap_check_passed (achieved : Q) (market : string) (p : passed) :
  In p (checks_passed (market_cap_check achieved market)) <->
  exists cap : Z,
    Py.dict_get MAX_WIN_CAPS (Py.strip (Py.lower market)) = Some (Some cap)
    /\ cap <> 0%Z
    /\ ~ (inject_Z cap < achieved)%Q
    /\ p = MaxWinWithinCap achieved market cap.
Proof.
  unfold market_cap_check.
  destruct (Py.dict_get MAX_WIN_CAPS _) as [[cap|]|].
  - destruct (cap =? 0)%Z eqn:E0; cbn [negb].
    + apply Z.eqb_eq in E0. cbn. split; [contradiction|].
      intros (cap' & [= <-] & H & _). contradiction.
    + apply Z.eqb_neq in E0.
      destruct (Py.Qlt_bool (inject_Z cap) achieved) eqn:E; cbn.
      * apply Qlt_bool_true in E. split; [contradiction|].
        intros (cap' & [= <-] & _ & H & _). contradiction.
      * apply Qlt_bool_false in E. split.
        -- intros [<-|[]]. exists cap. auto.
        -- intros (cap' & [= <-] & _ & _ & ->). now left.
  - cbn. split; [contradiction|]. intros (cap' & [=] & _).
  - cbn. split; [contradiction|]. intros (cap' & [=] & _).
Qed.

Lemma all_app_map_conflicts {A : Type} (f : A -> appended) (l : list A)
    (c : conflict) :
  In c (conflicts (all_app (map f l))) <->
  exists x, In x l /\ In c (conflicts (f x)).
Proof.
  rewrite conflicts_all_app, flat_map_concat_map, map_map,
    <- flat_map_concat_map.
  apply in_flat_map.
Qed.

Lemma all_app_map_passed {A : Type} (f : A -> appended) (l : list A)
    (p : passed) :
  In p (checks_passed (all_app (map f l))) <->
  exists x, In x l /\ In p (checks_passed (f x)).
Proof.
  rewrite checks_passed_all_app, flat_map_concat_map, map_map,
    <- flat_map_concat_map.
  apply in_flat_map.
Qed.

Lemma read_gdd_conflict (c : conflict) :
  In c (conflicts (read_gdd fs)) <->
  gdd_md fs = None
  /\ c = missing_file Gdd BLOCKER None.
Proof.
  unfold read_gdd. destruct (gdd_md fs); split; intros H; in_singleton;
    try discriminate; auto.
Qed.

Lemma read_paytable_conflict (c : conflict) :
  In c (conflicts (read_paytable fs)) <->
  paytable_csv fs = PaytableMissing
  /\ c = missing_file Paytable BLOCKER None.
Proof.
  unfold read_paytable. destruct (paytable_csv fs); split; intros H;
    in_singleton; try discriminate; auto.
Qed.

Lemma read_simulation_conflict (c : conflict) :
  In c (conflicts (read_simulation fs)) <->
  simulation_results_json fs = SimulationMissing
  /\ c = missing_file SimulationResults HIGH None.
Proof.
  unfold read_simulation. destruct (simulation_results_json fs); split;
    intros H; in_singleton; try discriminate; auto.
Qed.

Lemma rtp_check_conflict (c : conflict) :
  In c (conflicts (rtp_check (sim fs) target_rtp)) <->
  exists m : Q,
    measured_rtp (sim fs) = Some m
    /\ (1 < Qabs (m - target_rtp))%Q
    /\ c = for_mathematician RTP_DEVIATION BLOCKER
          (Deviates m (Qabs (m - target_rtp)) target_rtp).
Proof.
  unfold rtp_check. destruct (measured_rtp (sim fs)) as [m|].
  - cbn zeta.
    destruct (Py.Qlt_bool 1 (Qabs (m - target_rtp))) eqn:E1.
    + apply Qlt_bool_true in E1. split; intros H; in_singleton.
      * exists m. auto.
      * left. match goal with H : Some _ = Some _ |- _ => injection H as <- end.
        auto.
    + apply Qlt_bool_false in E1.
      destruct (Py.Qlt_bool (1 # 2) (Qabs (m - target_rtp))); split;
        intros H; in_singleton;
        match goal with H : Some _ = Some _ |- _ => injection H as <- end;
        contradiction.
  - split; intros H; in_singleton; discriminate.
Qed.

Lemma max_win_check_conflict (c : conflict) :
  In c (conflicts (max_win_check (sim fs) max_win_target target_markets)) <->
  exists achieved : Q,
    max_win_achieved (sim fs) = Some achieved
    /\ (((inject_Z max_win_target * (12 # 10) < achieved)%Q
         /\ c = for_mathematician MAX_WIN_EXCEEDED HIGH
          (ExceedsTarget achieved max_win_target))
        \/ exists market,
             In market target_markets
             /\ In c (conflicts (market_cap_check achieved market))).
Proof.
  unfold max_win_check. destruct (max_win_achieved (sim fs)) as [a|].
  - cbn [conflicts seq_app]. rewrite in_app_iff, all_app_map_conflicts.
    destruct (Py.Qlt_bool (inject_Z max_win_target * (12 # 10)) a) eqn:E.
    + apply Qlt_bool_true in E. split.
      * intros [H|H]; in_singleton; exists a; split; auto.
        right. eauto.
      * intros (a' & [= <-] & [[_ ->]|H]); [left; now left|now right].
    + apply Qlt_bool_false in E. split.
      * intros [H|H]; in_singleton. exists a. split; auto. right. eauto.
      * intros (a' & [= <-] & [[H _]|H]); [contradiction|now right].
  - split; intros H; in_singleton; discriminate.
Qed.

Lemma breakdown_check_conflict (c : conflict) :
  In c (conflicts (breakdown_check (sim fs))) <->
  exists m : Q,
    rtp_breakdown (sim fs) <> []
    /\ measured_rtp (sim fs) = Some m
    /\ ~ (m == 0)%Q
    /\ (1 < Qabs (breakdown_total (rtp_breakdown (sim fs)) - m))%Q
    /\ c = for_mathematician RTP_BREAKDOWN_MISMATCH HIGH
          (BreakdownGap (breakdown_total (rtp_breakdown (sim fs))) m).
Proof.
  unfold breakdown_check.
  destruct (rtp_breakdown (sim fs)) as [|kv b] eqn:Eb.
  { split; intros H; in_singleton. congruence. }
  destruct (measured_rtp (sim fs)) as [m|].
  2:{ split; intros H; in_singleton; discriminate. }
  cbn zeta.
  destruct (Qeq_bool m 0) eqn:E0.
  { apply Qeq_bool_iff in E0. split; intros H; in_singleton.
    match goal with H : Some _ = Some _ |- _ => injection H as <- end.
    contradiction. }
  assert (~ (m == 0)%Q) by (intros H; apply Qeq_bool_iff in H; congruence).
  destruct (Py.Qlt_bool 1 (Qabs (breakdown_total (kv :: b) - m))) eqn:E1.
  - apply Qlt_bool_true in E1. split; intros H'; in_singleton.
    + exists m. repeat split; auto. discriminate.
    + left. match goal with H : Some _ = Some _ |- _ => injection H as <- end.
      auto.
  - apply Qlt_bool_false in E1. split; intros H'; in_singleton.
    match goal with H : Some _ = Some _ |- _ => injection H as <- end.
    contradiction.
Qed.

Lemma reels_check_conflict (c : conflict) :
  In c (conflicts (reels_check fs)) <->
  BaseReels_csv fs = None
  /\ paytable fs <> []
  /\ c = missing_file BaseReels HIGH (Some "mathematician").
Proof.
  unfold reels_check. destruct (BaseReels_csv fs).
  - split; intros H; in_singleton; discriminate.
  - destruct (paytable fs); split; intros H; in_singleton; try congruence.
    + repeat split; auto. discriminate.
    + now left.
Qed.

End ValidatorFacts.

Section ValidatorVerdicts.
Import ConvergenceValidatorTool.

Variable fs : artifacts.
Variable target_rtp : Q.
Variable max_win_target : Z.
Variable target_markets : list string.

Local Abbreviation the_report :=
  (report fs target_rtp max_win_target target_markets).

Lemma breakdown_check_passed (p : passed) :
  In p (checks_passed (breakdown_check (sim fs))) <->
  exists m : Q,
    rtp_breakdown (sim fs) <> []
    /\ measured_rtp (sim fs) = Some m
    /\ ~ (m == 0)%Q
    /\ ~ (1 < Qabs (breakdown_total (rtp_breakdown (sim fs)) - m))%Q
    /\ p = BreakdownSumsTo (breakdown_total (rtp_breakdown (sim fs))) m.
Proof.
  unfold breakdown_check.
  destruct (rtp_breakdown (sim fs)) as [|kv b] eqn:Eb.
  { split; intros H; in_singleton. congruence. }
  destruct (measured_rtp (sim fs)) as [m|].
  2:{ split; intros H; in_singleton; discriminate. }
  cbn zeta.
  destruct (Qeq_bool m 0) eqn:E0.
  { apply Qeq_bool_iff in E0. split; intros H; in_singleton.
    match goal with H : Some _ = Some _ |- _ => injection H as <- end.
    contradiction. }
  assert (~ (m == 0)%Q) by (intros H; apply Qeq_bool_iff in H; congruence).
  destruct (Py.Qlt_bool 1 (Qabs (breakdown_total (kv :: b) - m))) eqn:E1.
  - apply Qlt_bool_true in E1. split; intros H'; in_singleton.
    match goal with H : Some _ = Some _ |- _ => injection H as <- end.
    contradiction.
  - apply Qlt_bool_false in E1. split; intros H'; in_singleton.
    + exists m. repeat split; auto. discriminate.
    + left. match goal with H : Some _ = Some _ |- _ => injection H as <- end.
      auto.
Qed.

Lemma max_win_check_passed (p : passed) :
  In p (checks_passed (max_win_check (sim fs) max_win_target target_markets))
  <->
  exists (achieved : Q) (market : string),
    max_win_achieved (sim fs) = Some achieved
    /\ In market target_markets
    /\ In p (checks_passed (market_cap_check achieved market)).
Proof.
  unfold max_win_check. destruct (max_win_achieved (sim fs)) as [a|].
  - cbn [checks_passed seq_app]. rewrite in_app_iff, all_app_map_passed.
    split.
    + intros [H|(market & H1 & H2)].
      * destruct (Py.Qlt_bool _ a); in_singleton.
      * exists a, market. auto.
    + intros (a' & market & [= <-] & H1 & H2). right. eauto.
  - split; intros H; in_singleton; discriminate.
Qed.

(** The kind of entry each remaining block appends to [checks_passed]. *)
Lemma other_blocks_passed (p : passed) :
  In p (checks_passed (read_gdd fs))
  \/ In p (checks_passed (read_paytable fs))
  \/ In p (checks_passed (read_simulation fs))
  \/ In p (checks_passed (rtp_check (sim fs) target_rtp))
  \/ In p (checks_passed (reels_check fs)) ->
  match p with
  | BreakdownSumsTo _ _ | MaxWinWithinCap _ _ _ => False
  | _ => True
  end.
Proof.
  unfold read_gdd, read_paytable, read_simulation, rtp_check, reels_check.
  intros [H|[H|[H|[H|H]]]].
  - destruct (gdd_md fs); in_singleton; subst; exact I.
  - destruct (paytable_csv fs); in_singleton; subst; exact I.
  - destruct (simulation_results_json fs); in_singleton; subst; exact I.
  - destruct (measured_rtp (sim fs)); [|in_singleton].
    cbn zeta in H.
    destruct (Py.Qlt_bool 1 _); [in_singleton|].
    destruct (Py.Qlt_bool (1 # 2) _); in_singleton; subst; exact I.
  - destruct (BaseReels_csv fs); [in_singleton; subst; exact I|].
    destruct (paytable fs); in_singleton.
Qed.

Lemma report_breakdown_passed (total m : Q) :
  In (BreakdownSumsTo total m) (checks_passed the_report) <->
  In (BreakdownSumsTo total m) (checks_passed (breakdown_check (sim fs))).
Proof.
  rewrite report_checks_passed, feature_alignment_passed,
    symbol_count_passed.
  split; [|tauto].
  intros [H|[H|[H|[H|[H|[H|[H|[H|H]]]]]]]]; auto; try contradiction;
    try (exfalso; apply (other_blocks_passed (BreakdownSumsTo total m));
         tauto).
  apply max_win_check_passed in H.
  destruct H as (a & market & _ & _ & H).
  apply market_cap_check_passed in H.
  destruct H as (cap & _ & _ & _ & [=]).
Qed.

Lemma report_cap_passed (achieved : Q) (market : string) (cap : Z) :
  In (MaxWinWithinCap achieved market cap) (checks_passed the_report) <->
  In (MaxWinWithinCap achieved market cap)
     (checks_passed (max_win_check (sim fs) max_win_target target_markets)).
Proof.
  rewrite report_checks_passed, feature_alignment_passed,
    symbol_count_passed.
  split; [|tauto].
  intros [H|[H|[H|[H|[H|[H|[H|[H|H]]]]]]]]; auto; try contradiction;
    try (exfalso;
         apply (other_blocks_passed (MaxWinWithinCap achieved market cap));
         tauto).
  apply breakdown_check_passed in H.
  destruct H as (m & _ & _ & _ & _ & [=]).
Qed.

(** A conflict of the report by its type: which block appended it. *)
Lemma report_conflict_of_type (c : conflict) :
  In c (conflicts the_report) ->
  match c_type c with
  | MISSING_FILE =>
      In c (conflicts (read_gdd fs)) \/ In c (conflicts (read_paytable fs))
      \/ In c (conflicts (read_simulation fs))
      \/ In c (conflicts (reels_check fs))
  | RTP_DEVIATION => In c (conflicts (rtp_check (sim fs) target_rtp))
  | MAX_WIN_EXCEEDED | JURISDICTION_MAX_WIN =>
      In c (conflicts (max_win_check (sim fs) max_win_target target_markets))
  | RTP_BREAKDOWN_MISMATCH => In c (conflicts (breakdown_check (sim fs)))
  end.
Proof.
  rewrite report_conflicts, feature_alignment_conflicts,
    symbol_count_conflicts.
  intros [H|[H|[H|[H|[H|[H|[H|[H|H]]]]]]]]; try contradiction.
  - pose proof H as H'. apply read_gdd_conflict in H' as [_ ->]. cbn. tauto.
  - pose proof H as H'. apply read_paytable_conflict in H' as [_ ->].
    cbn. tauto.
  - pose proof H as H'. apply read_simulation_conflict in H' as [_ ->].
    cbn. tauto.
  - pose proof H as H'. apply rtp_check_conflict in H' as (m & _ & _ & ->).
    exact H.
  - pose proof H as H'.
    apply max_win_check_conflict in H' as (a & _ & [[_ ->]|(mk & _ & H')]);
      [exact H|].
    apply market_cap_check_conflict in H' as (cap & _ & _ & _ & ->). exact H.
  - pose proof H as H'.
    apply breakdown_check_conflict in H' as (m & _ & _ & _ & _ & ->). exact H.
  - pose proof H as H'. apply reels_check_conflict in H' as (_ & _ & ->).
    cbn. tauto.
Qed.

(** Any conflict at all makes the verdict [NOT_CONVERGED]. *)
Lemma decide_not_converged (r : appended) (c : conflict) :
  In c (conflicts r) -> decide r = NOT_CONVERGED.
Proof.
  intros H. unfold decide.
  destruct (0 <? List.length (filter is_blocker (conflicts r))) eqn:Eb;
    [reflexivity|].
  destruct (0 <? List.length (filter is_high (conflicts r))) eqn:Eh;
    [reflexivity|].
  exfalso. apply Nat.ltb_ge in Eb, Eh.
  destruct (c_severity c) eqn:Es.
  - assert (Hin : In c (filter is_blocker (conflicts r)))
      by (apply filter_In; split; [exact H|unfold is_blocker; now rewrite Es]).
    destruct (filter is_blocker (conflicts r)); [contradiction|cbn in Eb; lia].
  - assert (Hin : In c (filter is_high (conflicts r)))
      by (apply filter_In; split; [exact H|unfold is_high; now rewrite Es]).
    destruct (filter is_high (conflicts r)); [contradiction|cbn in Eh; lia].
Qed.

(** When the tool returns, it returns the verdict decided on the three
    lists built by the nine blocks. *)
Lemma run_report (v : verdict) (r : appended) :
  _run fs target_rtp max_win_target target_markets = Some (v, r) ->
  r = the_report /\ v = decide the_report.
Proof.
  unfold _run. destruct (raises fs max_win_target); [discriminate|].
  now intros [= <- <-].
Qed.

(** Every conflict of the report, by the block that appended it. *)
Lemma report_conflict_cases (c : conflict) :
  In c (conflicts the_report) ->
  c = missing_file Gdd BLOCKER None
  \/ c = missing_file Paytable BLOCKER None
  \/ (simulation_results_json fs = SimulationMissing
      /\ c = missing_file SimulationResults HIGH None)
  \/ (exists m, c = for_mathematician RTP_DEVIATION BLOCKER
                      (Deviates m (Qabs (m - target_rtp)) target_rtp))
  \/ (exists a, c = for_mathematician MAX_WIN_EXCEEDED HIGH
                      (ExceedsTarget a max_win_target))
  \/ (exists a market cap,
        max_win_achieved (sim fs) = Some a
        /\ In market target_markets
        /\ Py.dict_get MAX_WIN_CAPS (Py.strip (Py.lower market))
           = Some (Some cap)
        /\ (inject_Z cap < a)%Q
        /\ c = for_mathematician JURISDICTION_MAX_WIN BLOCKER
                 (ExceedsMarketCap a market cap))
  \/ (exists m,
        measured_rtp (sim fs) = Some m
        /\ ~ (m == 0)%Q
        /\ (1 < Qabs (breakdown_total (rtp_breakdown (sim fs)) - m))%Q
        /\ c = for_mathematician RTP_BREAKDOWN_MISMATCH HIGH
                 (BreakdownGap (breakdown_total (rtp_breakdown (sim fs))) m))
  \/ (BaseReels_csv fs = None /\ paytable fs <> []
      /\ c = missing_file BaseReels HIGH (Some "mathematician")).
Proof.
  rewrite report_conflicts, feature_alignment_conflicts,
    symbol_count_conflicts.
  intros [H|[H|[H|[H|[H|[H|[H|[H|H]]]]]]]]; try contradiction.
  - apply read_gdd_conflict in H as [_ ->]. tauto.
  - apply read_paytable_conflict in H as [_ ->]. tauto.
  - apply read_simulation_conflict in H as [H ->]. tauto.
  - apply rtp_check_conflict in H as (m & _ & _ & ->). eauto 10.
  - apply max_win_check_conflict in H as (a & Ha & [[_ ->]|(mk & Hm & H)]).
    + eauto 10.
    + apply market_cap_check_conflict in H as (cap & Hc & _ & Hlt & ->).
      do 5 right. left. exists a, mk, cap. auto.
  - apply breakdown_check_conflict in H as (m & _ & Hm & H0 & H1 & ->).
    do 6 right. left. exists m. auto.
  - apply reels_check_conflict in H as (H1 & H2 & ->). tauto.
Qed.

(** C4 (amended). A missing [simulation_results.json] is recorded as a
    [MISSING_FILE] conflict of severity [HIGH] (no other conflict is
    about that file), the blocks that read the simulation append
    nothing, and the tool returns [NOT_CONVERGED].  A missing
    [BaseReels.csv] is recorded as a [MISSING_FILE] conflict of severity
    [HIGH] when the paytable holds at least one symbol, and the verdict
    is then [NOT_CONVERGED]; when the paytable holds no symbol it is not
    recorded. *)
Theorem missing_artifacts_are_high_conflicts :
  (simulation_results_json fs = SimulationMissing ->
   In (missing_file SimulationResults HIGH None) (conflicts the_report)
   /\ (forall c, In c (conflicts the_report) ->
                 c_detail c = NotFound SimulationResults ->
                 c_severity c = HIGH)
   /\ rtp_check (sim fs) target_rtp = nothing
   /\ max_win_check (sim fs) max_win_target target_markets = nothing
   /\ breakdown_check (sim fs) = nothing
   /\ feature_alignment fs = nothing
   /\ _run fs target_rtp max_win_target target_markets
      = Some (NOT_CONVERGED, the_report))
  /\ (BaseReels_csv fs = None -> paytable fs <> [] ->
      forall v r,
        _run fs target_rtp max_win_target target_markets = Some (v, r) ->
        In (missing_file BaseReels HIGH (Some "mathematician")) (conflicts r)
        /\ (forall c, In c (conflicts r) ->
                      c_detail c = NotFound BaseReels ->
                      c_severity c = HIGH)
        /\ v = NOT_CONVERGED)
  /\ (BaseReels_csv fs = None -> paytable fs = [] ->
      forall c, In c (conflicts the_report) ->
                c_detail c <> NotFound BaseReels).
Proof.
  split; [|split].
  - intros Hs.
    assert (Hin : In (missing_file SimulationResults HIGH None)
                     (conflicts the_report)).
    { apply report_conflicts. do 2 right. left.
      apply read_simulation_conflict. auto. }
    assert (Hsim : sim fs = empty_sim) by (unfold sim; now rewrite Hs).
    split; [exact Hin|]. split.
    { intros c Hc Hd. apply report_conflict_cases in Hc.
      break_up; subst c; try discriminate Hd; reflexivity. }
    rewrite Hsim. split; [reflexivity|]. split; [reflexivity|].
    split; [reflexivity|]. split.
    { unfold feature_alignment. rewrite Hsim. cbn [sim_truthy empty_sim
        measured_rtp max_win_achieved total_spins rtp_breakdown other_keys].
      now rewrite andb_false_r. }
    unfold _run, raises. rewrite Hsim. cbn [max_win_achieved empty_sim].
    f_equal. f_equal. eapply decide_not_converged, Hin.
  - intros Hr Hp v r Hrun. apply run_report in Hrun as [-> ->].
    assert (Hin : In (missing_file BaseReels HIGH (Some "mathematician"))
                     (conflicts the_report)).
    { apply report_conflicts. do 8 right. apply reels_check_conflict. auto. }
    split; [exact Hin|]. split.
    { intros c Hc Hd. apply report_conflict_cases in Hc.
      break_up; subst c; try discriminate Hd; reflexivity. }
    eapply decide_not_converged, Hin.
  - intros Hr Hp c Hc Hd. apply report_conflict_cases in Hc.
    break_up; subst c; try discriminate Hd. contradiction.
Qed.

(** Every non-null cap of the validator's table is non-zero, so that
    the truthiness test [if cap] is the test [cap is not None]. *)
Lemma MAX_WIN_CAPS_nonzero (key : string) (cap : Z) :
  Py.dict_get MAX_WIN_CAPS key = Some (Some cap) -> cap <> 0%Z.
Proof.
  intros H. apply dict_get_In in H. cbn in H.
  repeat (destruct H as [H|H];
          [(discriminate H) || (injection H as _ <-; discriminate)|]).
  contradiction.
Qed.

(** C9. The jurisdiction max-win check reads the validator's own
    [MAX_WIN_CAPS] only.  A [JURISDICTION_MAX_WIN] conflict is in the
    report exactly when it is the blocker built for a target market
    whose lower-cased, stripped name maps to a non-null cap that the
    measured max win exceeds.  A market missing from the table or mapped
    to a null cap yields neither that blocker nor a passed check.  The
    table caps the UK at 10000x while the profile store records no cap
    for the UK. *)
Theorem jurisdiction_max_win_uses_own_cap_table
    (v : verdict) (r : appended) :
  _run fs target_rtp max_win_target target_markets = Some (v, r) ->
  (forall c : conflict,
     In c (conflicts r) /\ c_type c = JURISDICTION_MAX_WIN <->
     exists (market : string) (cap : Z) (achieved : Q),
       In market target_markets
       /\ max_win_achieved (sim fs) = Some achieved
       /\ Py.dict_get MAX_WIN_CAPS (Py.strip (Py.lower market))
          = Some (Some cap)
       /\ (inject_Z cap < achieved)%Q
       /\ c = for_mathematician JURISDICTION_MAX_WIN BLOCKER
                (ExceedsMarketCap achieved market cap))
  /\ (forall market : string,
        Py.dict_get MAX_WIN_CAPS (Py.strip (Py.lower market)) = None
        \/ Py.dict_get MAX_WIN_CAPS (Py.strip (Py.lower market)) = Some None ->
        (forall c achieved cap,
           In c (conflicts r) ->
           c_detail c <> ExceedsMarketCap achieved market cap)
        /\ (forall achieved cap,
              ~ In (MaxWinWithinCap achieved market cap)
                   (checks_passed r)))
  /\ Py.dict_get MAX_WIN_CAPS "uk" = Some (Some 10000%Z)
  /\ Jurisdiction.lookup_profile "UK" = Some ("UK", Jurisdiction.UK)
  /\ Jurisdiction.cap_x Jurisdiction.UK = None.
Proof.
  intros Hrun. apply run_report in Hrun as [-> _].
  split; [|split; [|repeat split]].
  - intros c. split.
    + intros [Hc Ht]. apply report_conflict_of_type in Hc. rewrite Ht in Hc.
      apply max_win_check_conflict in Hc
        as (a & Ha & [[_ ->]|(mk & Hm & Hc)]); [discriminate Ht|].
      apply market_cap_check_conflict in Hc as (cap & Hcap & _ & Hlt & ->).
      exists mk, cap, a. auto.
    + intros (mk & cap & a & Hm & Ha & Hcap & Hlt & ->).
      split; [|reflexivity].
      apply report_conflicts. do 4 right. left.
      apply max_win_check_conflict. exists a. split; [exact Ha|].
      right. exists mk. split; [exact Hm|].
      apply market_cap_check_conflict. exists cap.
      pose proof (MAX_WIN_CAPS_nonzero _ _ Hcap). auto.
  - intros mk Hskip. split.
    + intros c a cap Hc Hd. apply report_conflict_cases in Hc.
      break_up; subst c; try discriminate Hd;
        cbn in Hd; injection Hd as -> -> ->; congruence.
    + intros a cap Hp.
      apply report_cap_passed, max_win_check_passed in Hp.
      destruct Hp as (a' & mk' & _ & _ & Hp).
      apply market_cap_check_passed in Hp as (cap' & Hcap & _ & _ & [= -> -> ->]).
      destruct Hskip as [Hs|Hs]; congruence.
Qed.

(** C10. When the measured RTP is absent, or present and equal to 0,
    the report holds no [RTP_BREAKDOWN_MISMATCH] conflict and no passed
    check for the breakdown, whatever the breakdown sums to.  The target
    deviation check is skipped in the first case only: with a measured
    RTP of 0 it appends its blocker, its warning or its passed check. *)
Theorem zero_rtp_skips_breakdown_reconciliation
    (v : verdict) (r : appended) :
  _run fs target_rtp max_win_target target_markets = Some (v, r) ->
  (measured_rtp (sim fs) = None
   \/ (exists m, measured_rtp (sim fs) = Some m /\ (m == 0)%Q) ->
   (forall c, In c (conflicts r) ->
              c_type c <> RTP_BREAKDOWN_MISMATCH)
   /\ (forall total m,
         ~ In (BreakdownSumsTo total m) (checks_passed r)))
  /\ (measured_rtp (sim fs) = None ->
      rtp_check (sim fs) target_rtp = nothing
      /\ forall c, In c (conflicts r) -> c_type c <> RTP_DEVIATION)
  /\ (forall m, measured_rtp (sim fs) = Some m ->
      let deviation := Qabs (m - target_rtp) in
      In (for_mathematician RTP_DEVIATION BLOCKER
            (Deviates m deviation target_rtp)) (conflicts r)
      \/ In (RTP_OFF_TARGET m deviation) (warnings r)
      \/ In (RtpOnTarget m target_rtp deviation) (checks_passed r)).
Proof.
  intros Hrun. apply run_report in Hrun as [-> _].
  split; [|split].
  - intros Hskip. split.
    + intros c Hc Ht. apply report_conflict_of_type in Hc. rewrite Ht in Hc.
      apply breakdown_check_conflict in Hc as (m & _ & Hm & H0 & _).
      destruct Hskip as [Hn|(m' & Hm' & H0')]; [congruence|].
      rewrite Hm in Hm'. injection Hm' as <-. contradiction.
    + intros total m Hp.
      apply report_breakdown_passed, breakdown_check_passed in Hp.
      destruct Hp as (m1 & _ & Hm & H0 & _).
      destruct Hskip as [Hn|(m' & Hm' & H0')]; [congruence|].
      rewrite Hm in Hm'. injection Hm' as <-. contradiction.
  - intros Hn. split; [unfold rtp_check; now rewrite Hn|].
    intros c Hc Ht. apply report_conflict_of_type in Hc. rewrite Ht in Hc.
    apply rtp_check_conflict in Hc as (m & Hm & _). congruence.
  - intros m Hm. cbn zeta.
    destruct (rtp_check_in_report fs target_rtp max_win_target
                target_markets) as (Hc & Hw & Hp).
    unfold rtp_check in Hc, Hw, Hp. rewrite Hm in Hc, Hw, Hp.
    cbn zeta in Hc, Hw, Hp.
    destruct (Py.Qlt_bool 1 (Qabs (m - target_rtp))).
    { left. apply Hc. now left. }
    destruct (Py.Qlt_bool (1 # 2) (Qabs (m - target_rtp))).
    { right; left. apply Hw. now left. }
    right; right. apply Hp. now left.
Qed.

End ValidatorVerdicts.

(** ** The breakdown reconciliation in the interpreter's arithmetic *)

Section BreakdownOnFloats.
Import PrimFloat.
Import Json PyNumber ConvergenceValidatorOnJson.

#[local] Set Warnings "-inexact-float".

Variable sum : list PrimFloat.float -> PrimFloat.float.
Variable fs : artifacts.
Variable target_rtp : PrimFloat.float.
Variable max_win_target : Z.
Variable target_markets : list string.



















End BreakdownOnFloats.

Lemma missing_artifacts_are_high_conflicts_witness :
  let r :=
    ConvergenceValidatorTool.report Artifacts.no_simulation_no_reels 96 5000
      ["UK"; "Malta"] in
  In (ConvergenceValidatorTool.missing_file
        ConvergenceValidatorTool.SimulationResults
        ConvergenceValidatorTool.HIGH None)
     (ConvergenceValidatorTool.conflicts r)
  /\ In (ConvergenceValidatorTool.missing_file
           ConvergenceValidatorTool.BaseReels
           ConvergenceValidatorTool.HIGH (Some "mathematician"))
        (ConvergenceValidatorTool.conflicts r)
  /\ ConvergenceValidatorTool._run Artifacts.no_simulation_no_reels 96 5000
       ["UK"; "Malta"]
     = Some (ConvergenceValidatorTool.NOT_CONVERGED, r).
Proof.
  cbn zeta.
  destruct (missing_artifacts_are_high_conflicts
              Artifacts.no_simulation_no_reels 96 5000 ["UK"; "Malta"])
    as (Hsim & Hreels & _).
  destruct (Hsim eq_refl) as (H1 & _ & _ & _ & _ & _ & H2).
  destruct (Hreels eq_refl ltac:(discriminate) _ _ H2) as (H3 & _ & _).
  exact (conj H1 (conj H3 H2)).
Defined.

(** C4, as stated, fails.  With only [simulation_results.json] missing
    the single conflict recorded has severity [HIGH] and none has
    severity [BLOCKER]; with [BaseReels.csv] missing next to a paytable
    file without data rows, no conflict is recorded at all and the
    verdict is [CONVERGED]. *)
Lemma missing_simulation_is_not_a_blocker :
  ConvergenceValidatorTool.conflicts
    (ConvergenceValidatorTool.report Artifacts.no_simulation 96 5000 ["UK"])
  = [ConvergenceValidatorTool.missing_file
       ConvergenceValidatorTool.SimulationResults
       ConvergenceValidatorTool.HIGH None]
  /\ filter ConvergenceValidatorTool.is_blocker
       (ConvergenceValidatorTool.conflicts
          (ConvergenceValidatorTool.report Artifacts.no_simulation 96 5000
             ["UK"]))
     = []
  /\ ConvergenceValidatorTool.BaseReels_csv Artifacts.empty_paytable_no_reels
     = None
  /\ (exists r,
        ConvergenceValidatorTool._run Artifacts.empty_paytable_no_reels
          96 5000 ["UK"]
        = Some (ConvergenceValidatorTool.CONVERGED, r)
        /\ ConvergenceValidatorTool.conflicts r = []).
Proof.
  split; [reflexivity|]. split; [reflexivity|]. split; [reflexivity|].
  eexists. split; reflexivity.
Qed.

Section BreakdownExamples.
Import PrimFloat.


(** Scenario 2 of the specification in the interpreter's arithmetic: the
    floats 60.0, 20.0 and 0.5 add up to 80.5, which is 15.5 away from
    96.0. *)
Example scenario_breakdown_gap_on_floats :
  ConvergenceValidatorOnJson._run PyNumber.sum_left
    (Simulations.with_simulation Simulations.inconsistent)
    96%float 5000 []
  = Some
      (ConvergenceValidatorTool.NOT_CONVERGED,
       {| ConvergenceValidatorOnJson.conflicts :=
            [ConvergenceValidatorOnJson.for_mathematician
               ConvergenceValidatorTool.RTP_BREAKDOWN_MISMATCH
               ConvergenceValidatorTool.HIGH
               (ConvergenceValidatorOnJson.BreakdownGap
                  (PyNumber.Float 80.5%float) (Json.JFloat 96%float))];
          ConvergenceValidatorOnJson.warnings := [];
          ConvergenceValidatorOnJson.checks_passed :=
            [ConvergenceValidatorOnJson.GddFileExists;
             ConvergenceValidatorOnJson.PaytableSymbols 8;
             ConvergenceValidatorOnJson.SimulationSpins None;
             ConvergenceValidatorOnJson.RtpOnTarget (Json.JFloat 96%float)
               96%float (PyNumber.Float 0%float);
             ConvergenceValidatorOnJson.ReelPositions 0] |}).
Proof. reflexivity. Qed.

(** Components written 38.4, 36.7 and 21.1 against a measured RTP
    written 97.2: the decimal values are exactly 1.0 apart, the floats
    added from left to right give a total that is more than 1.0 away
    from the float of 97.2, and the mismatch is reported. *)
Example rounding_decides_at_the_threshold :
  PrimFloat.sub
    (PyNumber.sum_left
       [0x1.3333333333333p+5%float; 0x1.259999999999ap+5%float;
        0x1.519999999999ap+4%float])
    0x1.84ccccccccccdp+6%float
  = (-0x1.000000000004p+0)%float
  /\ exists r,
       ConvergenceValidatorOnJson._run PyNumber.sum_left
         (Simulations.with_simulation Simulations.one_point_apart)
         97%float 5000 []
       = Some (ConvergenceValidatorTool.NOT_CONVERGED, r)
       /\ map ConvergenceValidatorOnJson.c_type
            (ConvergenceValidatorOnJson.conflicts r)
          = [ConvergenceValidatorTool.RTP_BREAKDOWN_MISMATCH].
Proof.
  split; [reflexivity|]. eexists. split; reflexivity.
Qed.

(** An int, a float and a boolean are summed as floats, a string is
    skipped, and an int measured RTP is compared as a float. *)
Example breakdown_of_mixed_values :
  exists v r,
    ConvergenceValidatorOnJson._run PyNumber.sum_left
      (Simulations.with_simulation Simulations.mixed_values)
      96%float 5000 []
    = Some (v, r)
    /\ In (ConvergenceValidatorOnJson.BreakdownSumsTo
             (PyNumber.Float 95.5%float) (Json.JInt 96))
          (ConvergenceValidatorOnJson.checks_passed r).
Proof.
  eexists _, _. split; [reflexivity|]. cbn. tauto.
Qed.

(** A measured RTP of 0 in the interpreter's arithmetic: the breakdown
    sums to 50.0, and the report holds neither the mismatch nor the
    passed check for the breakdown. *)
Example zero_rtp_on_floats :
  exists v r,
    ConvergenceValidatorOnJson._run PyNumber.sum_left
      (Simulations.with_simulation Simulations.zero_rtp)
      96%float 5000 []
    = Some (v, r)
    /\ map ConvergenceValidatorOnJson.c_type
         (ConvergenceValidatorOnJson.conflicts r)
       = [ConvergenceValidatorTool.RTP_DEVIATION]
    /\ ConvergenceValidatorOnJson.checks_passed r
       = [ConvergenceValidatorOnJson.GddFileExists;
          ConvergenceValidatorOnJson.PaytableSymbols 8;
          ConvergenceValidatorOnJson.SimulationSpins None;
          ConvergenceValidatorOnJson.ReelPositions 0].
Proof. eexists _, _. repeat split. Qed.

(** A breakdown component that is an int with no float makes [float(v)]
    raise [OverflowError]: the validator raises and reports nothing. *)
Example breakdown_of_a_huge_int_raises :
  ConvergenceValidatorOnJson._run PyNumber.sum_left
    (Simulations.with_simulation Simulations.huge_component)
    96%float 5000 []
  = None.
Proof. vm_compute. reflexivity. Qed.

(** A simulation file that holds valid JSON other than an object makes
    the validator raise. *)
Example validator_raises_on_a_list :
  ConvergenceValidatorOnJson._run PyNumber.sum_left
    (Simulations.with_simulation (Json.JList [])) 96%float 5000 []
  = None.
Proof. reflexivity. Qed.

End BreakdownExamples.

(** Scenario 2 of the specification: a breakdown of 60.0, 20.0 and 0.5
    against a measured RTP of 96.0 is reported as a [HIGH] mismatch. *)
Example scenario_breakdown_gap :
  ConvergenceValidatorTool._run
    (Artifacts.with_sim
       (ConvergenceValidatorTool.SimulationRead Artifacts.inconsistent_sim))
    96 5000 []
  = Some
      (ConvergenceValidatorTool.NOT_CONVERGED,
       {| ConvergenceValidatorTool.conflicts :=
            [ConvergenceValidatorTool.for_mathematician
               ConvergenceValidatorTool.RTP_BREAKDOWN_MISMATCH
               ConvergenceValidatorTool.HIGH
               (ConvergenceValidatorTool.BreakdownGap (161 # 2) 96)];
          ConvergenceValidatorTool.warnings := [];
          ConvergenceValidatorTool.checks_passed :=
            [ConvergenceValidatorTool.GddFileExists;
             ConvergenceValidatorTool.PaytableSymbols 8;
             ConvergenceValidatorTool.SimulationSpins (Some 1000000%Z);
             ConvergenceValidatorTool.RtpOnTarget 96 96 0;
             ConvergenceValidatorTool.ReelPositions 3] |}).
Proof. reflexivity. Qed.


Lemma zero_rtp_skips_breakdown_reconciliation_witness :
  let r :=
    ConvergenceValidatorTool.report
      (Artifacts.with_sim
         (ConvergenceValidatorTool.SimulationRead Artifacts.zero_rtp_sim))
      96 5000 [] in
  (forall c, In c (ConvergenceValidatorTool.conflicts r) ->
             ConvergenceValidatorTool.c_type c
             <> ConvergenceValidatorTool.RTP_BREAKDOWN_MISMATCH)
  /\ (forall total m,
        ~ In (ConvergenceValidatorTool.BreakdownSumsTo total m)
             (ConvergenceValidatorTool.checks_passed r)).
Proof.
  cbn zeta.
  destruct (zero_rtp_skips_breakdown_reconciliation
              (Artifacts.with_sim
                 (ConvergenceValidatorTool.SimulationRead
                    Artifacts.zero_rtp_sim))
              96 5000 [] _ _ eq_refl)
    as (Hskip & _ & _).
  apply Hskip. right. exists 0%Q. split; reflexivity.
Defined.

Lemma jurisdiction_max_win_uses_own_cap_table_witness :
  let r :=
    ConvergenceValidatorTool.report
      (Artifacts.with_sim
         (ConvergenceValidatorTool.SimulationRead Artifacts.big_win_sim))
      96 10000 [" UK "; "Curacao"; "Spain"] in
  In (ConvergenceValidatorTool.for_mathematician
        ConvergenceValidatorTool.JURISDICTION_MAX_WIN
        ConvergenceValidatorTool.BLOCKER
        (ConvergenceValidatorTool.ExceedsMarketCap 12000 " UK " 10000))
     (ConvergenceValidatorTool.conflicts r)
  /\ (forall achieved cap,
        ~ In (ConvergenceValidatorTool.MaxWinWithinCap achieved "Curacao" cap)
             (ConvergenceValidatorTool.checks_passed r))
  /\ (forall achieved cap,
        ~ In (ConvergenceValidatorTool.MaxWinWithinCap achieved "Spain" cap)
             (ConvergenceValidatorTool.checks_passed r)).
Proof.
  cbn zeta.
  destruct (jurisdiction_max_win_uses_own_cap_table
              (Artifacts.with_sim
                 (ConvergenceValidatorTool.SimulationRead
                    Artifacts.big_win_sim))
              96 10000 [" UK "; "Curacao"; "Spain"] _ _ eq_refl)
    as (Hiff & Hskip & _).
  split; [|split].
  - apply Hiff. exists " UK ", 10000%Z, 12000%Q.
    repeat split; cbn; auto.
  - apply (Hskip "Curacao"). right. reflexivity.
  - apply (Hskip "Spain"). left. reflexivity.
Defined.

(** ** The targeted patch applier *)

Section StringFacts.

Lemma str_app_assoc (a b c : string) :
  ((a ++ b) ++ c = a ++ (b ++ c))%string.
Proof. induction a as [|x a IH]; cbn; [reflexivity|]. now rewrite IH. Qed.

Lemma str_length_app (a b : string) :
  String.length (a ++ b) = String.length a + String.length b.
Proof. induction a as [|x a IH]; cbn; [reflexivity|]. now rewrite IH. Qed.

Lemma take_drop (n : nat) (s : string) :
  (Py.take n s ++ Py.drop n s)%string = s.
Proof.
  revert s. induction n as [|n IH]; intros [|c s]; cbn; try reflexivity.
  now rewrite IH.
Qed.

Lemma take_app (n : nat) (a b : string) :
  Py.take (String.length a + n) (a ++ b) = (a ++ Py.take n b)%string.
Proof. induction a as [|x a IH]; cbn; [reflexivity|]. now rewrite IH. Qed.

Lemma drop_app (n : nat) (a b : string) :
  Py.drop (String.length a + n) (a ++ b) = Py.drop n b.
Proof. induction a as [|x a IH]; cbn; [reflexivity|]. exact IH. Qed.


Lemma startswith_app (p s : string) :
  Py.startswith p s = true <-> exists r, s = (p ++ r)%string.
Proof.
  revert s. induction p as [|a p IH]; intros s; cbn.
  - split; [intros _; now exists s|reflexivity].
  - destruct s as [|b s].
    + split; [discriminate|]. intros [r [=]].
    + rewrite andb_true_iff, Ascii.eqb_eq, IH. split.
      * intros [-> [r ->]]. now exists r.
      * intros [r [= -> ->]]. split; [reflexivity|now exists r].
Qed.

Lemma startswith_take (p : string) (n : nat) (s : string) :
  Py.startswith p (Py.take n s) = true -> Py.startswith p s = true.
Proof.
  revert n s. induction p as [|a p IH]; intros n s; cbn; [reflexivity|].
  destruct n as [|n], s as [|b s]; cbn; try discriminate.
  rewrite !andb_true_iff. intros [-> H]. split; [reflexivity|].
  now apply (IH n).
Qed.

End StringFacts.

Section PatchFacts.
Import GDDPatchTool.

Lemma ws_newline_sound (s : string) :
  forall n, ws_newline s = Some n ->
  exists ws after,
    s = (ws ++ String Py.nl after)%string
    /\ Py.all_space ws = true /\ n = S (String.length ws).
Proof.
  induction s as [|c s IH]; intros n; cbn; [discriminate|].
  destruct (Py.isspace c) eqn:Ec; [|discriminate].
  destruct (ws_newline s) as [m|].
  - intros [= <-]. destruct (IH m eq_refl) as (ws & after & -> & Hws & ->).
    exists (String c ws), after. cbn. rewrite Ec, Hws. auto.
  - destruct (Ascii.eqb c Py.nl) eqn:En; [|discriminate].
    apply Ascii.eqb_eq in En. subst c. intros [= <-].
    exists EmptyString, s. auto.
Qed.

Lemma ws_newline_complete (ws after : string) :
  Py.all_space ws = true ->
  ws_newline (ws ++ String Py.nl after) <> None.
Proof.
  induction ws as [|c ws IH]; cbn.
  - intros _. change (Py.isspace Py.nl) with true. cbn.
    destruct (ws_newline after); discriminate.
  - rewrite andb_true_iff. intros [-> H].
    destruct (ws_newline (ws ++ String Py.nl after));
      [discriminate|]. exfalso. now apply (IH H).
Qed.

Lemma match_header_sound (h s : string) (g : nat) :
  match_header h s = Some g ->
  exists ws after,
    s = (h ++ ws ++ String Py.nl after)%string
    /\ Py.all_space ws = true
    /\ g = String.length h + S (String.length ws).
Proof.
  unfold match_header.
  destruct (Py.startswith h s) eqn:Eh; [|discriminate].
  apply startswith_app in Eh. destruct Eh as [r ->].
  rewrite <- (Nat.add_0_r (String.length h)), drop_app. cbn [Py.drop].
  rewrite Nat.add_0_r.
  destruct (ws_newline r) as [n|] eqn:En; [|discriminate].
  intros [= <-]. apply ws_newline_sound in En.
  destruct En as (ws & after & -> & Hws & ->). eauto.
Qed.

Lemma match_header_complete (h ws after : string) :
  Py.all_space ws = true ->
  match_header h (h ++ ws ++ String Py.nl after) <> None.
Proof.
  intros Hws. unfold match_header.
  assert (E : Py.startswith h (h ++ ws ++ String Py.nl after) = true)
    by (apply startswith_app; eauto).
  rewrite E.
  rewrite <- (Nat.add_0_r (String.length h)), drop_app. cbn [Py.drop].
  destruct (ws_newline (ws ++ String Py.nl after)) eqn:En; [discriminate|].
  now apply ws_newline_complete in En.
Qed.

Lemma search_unfold (h s : string) (pos : nat) :
  search h s pos
  = match match_header h s with
    | Some g1 => Some (pos + g1, pos + g1 + body_length (Py.drop g1 s))
    | None =>
        match s with
        | EmptyString => None
        | String _ s' => search h s' (S pos)
        end
    end.
Proof. destruct s; reflexivity. Qed.

Lemma search_sound (h s : string) :
  forall pos a b,
    search h s pos = Some (a, b) ->
    exists before rest g,
      s = (before ++ rest)%string
      /\ match_header h rest = Some g
      /\ a = pos + String.length before + g
      /\ b = a + body_length (Py.drop g rest).
Proof.
  induction s as [|c s IH]; intros pos a b; rewrite search_unfold.
  - destruct (match_header h EmptyString) as [g|] eqn:E; [|discriminate].
    intros [= <- <-]. exists EmptyString, EmptyString, g. cbn.
    rewrite Nat.add_0_r. auto.
  - destruct (match_header h (String c s)) as [g|] eqn:E.
    + intros [= <- <-]. exists EmptyString, (String c s), g. cbn.
      rewrite Nat.add_0_r. auto.
    + intros H. apply IH in H.
      destruct H as (before & rest & g & -> & Hm & -> & ->).
      exists (String c before), rest, g. cbn.
      repeat split; auto; lia.
Qed.

Lemma search_complete (h before rest : string) :
  forall pos,
    match_header h rest <> None -> search h (before ++ rest) pos <> None.
Proof.
  induction before as [|c before IH]; intros pos Hm; cbn [append];
    rewrite search_unfold.
  - destruct (match_header h rest); [discriminate|contradiction].
  - destruct (match_header h (String c (before ++ rest)));
      [discriminate|]. now apply IH.
Qed.

(** The search fails exactly on the documents that hold no occurrence
    of the header followed by whitespace up to a newline. *)
Lemma search_None_iff (h content : string) :
  search h content 0 = None <-> ~ has_section h content.
Proof.
  split.
  - intros Hs (before & ws & after & -> & Hws).
    eapply search_complete; [|exact Hs].
    now apply match_header_complete.
  - intros Hno. destruct (search h content 0) as [[a b]|] eqn:E;
      [|reflexivity].
    exfalso. apply Hno. apply search_sound in E.
    destruct E as (before & rest & g & -> & Hm & _).
    apply match_header_sound in Hm.
    destruct Hm as (ws & after & -> & Hws & _).
    now exists before, ws, after.
Qed.







(** The body found by the lazy group holds no [\n## ]. *)
Lemma body_has_no_mark (r : string) :
  Py.contains next_header_mark (Py.take (body_length r) r) = false.
Proof.
  induction r as [|c r IH]; [reflexivity|].
  cbn [body_length].
  destruct (Py.startswith next_header_mark (String c r)) eqn:E;
    [reflexivity|].
  cbn [Py.take Py.contains]. rewrite IH, orb_false_r.
  destruct (Py.startswith next_header_mark
              (String c (Py.take (body_length r) r))) eqn:E';
    [|reflexivity].
  apply (startswith_take _ (S (body_length r)) (String c r)) in E'.
  congruence.
Qed.


Lemma body_length_le (r : string) : body_length r <= String.length r.
Proof.
  induction r as [|c r IH]; [cbn; lia|]. cbn [body_length].
  destruct (Py.startswith next_header_mark (String c r)); cbn; lia.
Qed.

Lemma take_length (n : nat) (s : string) :
  n <= String.length s -> String.length (Py.take n s) = n.
Proof.
  revert s. induction n as [|n IH]; intros [|c s]; cbn; try lia.
  intros H. rewrite IH; lia.
Qed.









End PatchFacts.


(** Scenario 6 of the specification: the headers returned are the two
    headers of the document. *)
Example scenario_missing_section :
  GDDPatchTool._run (Documents.at_time 0 Documents.two_sections)
    "## 99. Nonexistent" "new text" "fix"
  = (GDDPatchTool.SectionNotFound "## 99. Nonexistent"
       ["## 1. Overview"; "## 2. Market"],
     Documents.at_time 0 Documents.two_sections).
Proof. reflexivity. Qed.


(** A file stored with carriage return and line feed at its line ends
    is written back, with [os.linesep] a line feed, with line feeds
    alone: the line ends of the section that was not patched change as
    well. *)
Example patch_of_crlf_file :
  GDDPatchFile._run (String Py.nl EmptyString)
    (Documents.at_time 0 MoreDocuments.two_sections_crlf)
    "## 2. Market" "Sweden only." "compliance"
  = (GDDPatchTool.Success "## 2. Market" "compliance" 14 12 63,
     {| GDDPatchTool.gdd_file :=
          Some (Documents.lines
                  ["## 1. Overview"; "A slot about tides."; "## 2. Market";
                   ""; "Sweden only."; ""; ""]);
        GDDPatchTool.revision_log :=
          [{| GDDPatchTool.rev_section := "## 2. Market";
              GDDPatchTool.rev_reason := "compliance";
              GDDPatchTool.old_length := 14;
              GDDPatchTool.new_length := 12;
              GDDPatchTool.delta := (-2)%Z |}];
        GDDPatchTool.now := 0%Z |}).
Proof. reflexivity. Qed.

(** The occurrence of the header that is patched is the first one in
    the text, also when it ends a line of an earlier section: the text
    from there to the next header line is replaced, and the section the
    header names is left as it was. *)
Example patch_at_a_quoted_header :
  GDDPatchTool.gdd_file
    (snd (GDDPatchFile._run (String Py.nl EmptyString)
            (Documents.at_time 0 MoreDocuments.quoted_header)
            "## 2. Market" "Sweden only." "compliance"))
  = Some (Documents.lines
            ["## 1. Overview"; "Markets are listed under ## 2. Market";
             ""; "Sweden only."; ""; ""; "## 2. Market"; "UK and Malta.";
             ""]).
Proof. reflexivity. Qed.


(** Patching a section that has no body: the span replaced starts at
    the next header line, so the next section is replaced as well. *)
Example patch_of_empty_section :
  GDDPatchTool.section_is_empty "## 1. Overview"
    Documents.empty_first_section = true
  /\ GDDPatchTool.gdd_file
    (snd (GDDPatchTool._run
            (Documents.at_time 0 Documents.empty_first_section)
            "## 1. Overview" "A slot about tides." "fill in"))
  = Some (Documents.lines
            ["## 1. Overview"; ""; "A slot about tides."; ""; ""]).
Proof. split; reflexivity. Qed.

(** ** The paytable sanity checker *)

Section SanityFacts.
Import PaytableSanityCheckerTool.

Variable float : string -> option Q.

(** A reel is flagged exactly when it has fewer than 10 non-blank
    cells. *)
Lemma short_reels_flagged (reel_rows : list (list string))
    (reel_header : list string) (reel_name : string) (n : nat) :
  forall col_idx,
    In (SHORT_REEL reel_name n) (short_reels reel_rows col_idx reel_header) <->
    exists i,
      nth_error reel_header i = Some reel_name
      /\ n = List.length (reel_col_values reel_rows (col_idx + i))
      /\ n < 10.
Proof.
  induction reel_header as [|name rest IH]; intros col_idx; cbn [short_reels].
  - split; [contradiction|]. intros ([|i] & [=] & _).
  - rewrite in_app_iff, IH. split.
    + intros [H|(i & H1 & H2 & H3)].
      * destruct (Nat.ltb_spec
                    (List.length (reel_col_values reel_rows col_idx)) 10)
          as [Hlt|Hge]; [|contradiction].
        destruct H as [[= <- <-]|[]].
        exists 0. rewrite Nat.add_0_r. auto.
      * exists (S i). rewrite Nat.add_succ_r. auto.
    + intros ([|i] & H1 & H2 & H3).
      * left. cbn in H1. injection H1 as ->.
        rewrite Nat.add_0_r in H2. subst n.
        apply Nat.ltb_lt in H3. rewrite H3. now left.
      * right. exists i. rewrite Nat.add_succ_r in H2. auto.
Qed.

(** An under-populated reel among the issues forces the verdict
    [FAIL]. *)
Lemma short_reel_fails (pt : paytable_file) (reels : reels_file)
    (reel_name : string) (n : nat) :
  In (SHORT_REEL reel_name n) (issues (_run float pt reels)) ->
  verdict_of (_run float pt reels) = FAIL.
Proof.
  destruct pt as [| |fieldnames data]; cbn [_run issues verdict_of];
    try reflexivity.
  destruct (reels_check fieldnames data reels) as [[i5 w5] p5].
  cbn [issues verdict_of]. intros H. unfold decide.
  match goal with
  | |- context [filter is_blocker ?l] =>
      assert (Hin : In (SHORT_REEL reel_name n) (filter is_blocker l))
        by (apply filter_In; split; [exact H|reflexivity]);
      destruct (filter is_blocker l); [contradiction|reflexivity]
  end.
Qed.

End SanityFacts.

(** C8 on the code: two reels of 15 positions each, below the minimum of
    20 named by the checker's own messages, raise no issue and the
    verdict is [PASS]; the same reels cut to 9 positions are flagged and
    the verdict is [FAIL]. *)
Theorem reel_of_fifteen_positions_passes :
  let out15 :=
    PaytableSanityCheckerTool._run Tables.decimal Tables.paytable
      (Tables.reels 15) in
  let out9 :=
    PaytableSanityCheckerTool._run Tables.decimal Tables.paytable
      (Tables.reels 9) in
  PaytableSanityCheckerTool.issues out15 = []
  /\ PaytableSanityCheckerTool.verdict_of out15
     = PaytableSanityCheckerTool.PASS
  /\ PaytableSanityCheckerTool.issues out9
     = [PaytableSanityCheckerTool.SHORT_REEL "Reel 1" 9;
        PaytableSanityCheckerTool.SHORT_REEL "Reel 2" 9]
  /\ PaytableSanityCheckerTool.verdict_of out9
     = PaytableSanityCheckerTool.FAIL.
Proof. cbn zeta. repeat split; vm_compute; reflexivity. Qed.

(** Scenario 1 of the specification: a lower tier paying more than the
    next one is reported once for the symbol. *)
Example scenario_non_monotonic :
  PaytableSanityCheckerTool.issues
    (PaytableSanityCheckerTool._run Tables.decimal
       (PaytableSanityCheckerTool.PaytableRows
          ["Symbol"; "5OAK"; "4OAK"; "3OAK"]
          [[("Symbol", "Ace"); ("5OAK", "5"); ("4OAK", "1"); ("3OAK", "2")]])
       (Tables.reels 20))
  = [PaytableSanityCheckerTool.NON_MONOTONIC "Ace" "4OAK" 1 2;
     PaytableSanityCheckerTool.REEL_SYMBOL_MISSING_FROM_PAYTABLE
       ["A"; "K"; "SCATTER"; "WILD"]].
Proof. vm_compute. reflexivity. Qed.

(** Scenario 3 of the specification: a bonus buy proposed for the UK and
    Sweden is a blocker in each, and the verdict is [BLOCKED]. *)
Example scenario_bonus_buy :
  let r :=
    JurisdictionComplianceCheckerTool._run ["UK"; "Sweden"] 96 5000
      ["bonus_buy"] in
  JurisdictionComplianceCheckerTool.blockers r
  = [JurisdictionComplianceCheckerTool.BannedFeaturesUsed "UK" ["bonus_buy"];
     JurisdictionComplianceCheckerTool.BannedFeaturesUsed "Sweden"
       ["bonus_buy"]]
  /\ JurisdictionComplianceCheckerTool.verdict_of r
     = JurisdictionComplianceCheckerTool.BLOCKED.
Proof. split; reflexivity. Qed.

(** * Part III: further properties of the code *)

(** ** The convergence loop: history, missing results, revision tasks *)

Section LoopHistory.
Import Pipeline.

Variable World : Type.
Variable compliance_scan : Z -> World -> World.
Variable convergence_assessment : Z -> bool -> World -> World.
Variable read_result : Z -> World -> option string.
Variable json_loads : string -> option conv_result.
Variable revise : list revision_task -> World -> World.
Variable MAX_CONVERGENCE_LOOPS : Z.

Local Abbreviation N := MAX_CONVERGENCE_LOOPS.
Local Abbreviation ooda' :=
  (ooda World compliance_scan convergence_assessment read_result json_loads
        revise N).
Local Abbreviation result_at' := (result_at World read_result json_loads).
Local Abbreviation loop' :=
  (convergence_loop World compliance_scan convergence_assessment read_result
                    json_loads revise N).





End LoopHistory.

Section LoopParsing.
Import Pipeline.

Lemma chars_app (a b : string) :
  list_ascii_of_string (a ++ b)%string
  = list_ascii_of_string a ++ list_ascii_of_string b.
Proof.
  induction a as [|c a IH]; cbn; [reflexivity|now rewrite IH].
Qed.

Lemma upto_last_brace_spec (s : string) :
  match upto_last_brace s with
  | Some r =>
      exists mid post,
        s = (mid ++ "}" ++ post)%string /\ r = (mid ++ "}")%string
        /\ ~ In "}"%char (list_ascii_of_string post)
  | None => ~ In "}"%char (list_ascii_of_string s)
  end.
Proof.
  induction s as [|c s IH]; cbn [upto_last_brace].
  - cbn. tauto.
  - destruct (upto_last_brace s) as [r|].
    + destruct IH as (mid & post & -> & -> & Hpost).
      exists (String c mid), post. cbn. auto.
    + destruct (Ascii.eqb c "}"%char) eqn:E.
      * apply Ascii.eqb_eq in E. subst c.
        exists EmptyString, s. cbn. auto.
      * apply Ascii.eqb_neq in E. cbn. intros [H|H]; auto.
Qed.

(** X3. The fallback of the result parser, [re.search(r'\{.*\}', text,
    re.DOTALL)], returns the part of the text from its first opening
    brace to its last closing brace, and finds nothing exactly when no
    closing brace follows an opening one. *)
Theorem braces_are_the_outermost_pair (s : string) :
  match braces s with
  | Some j =>
      exists pre mid post,
        s = (pre ++ j ++ post)%string
        /\ j = ("{" ++ mid ++ "}")%string
        /\ ~ In "{"%char (list_ascii_of_string pre)
        /\ ~ In "}"%char (list_ascii_of_string post)
  | None =>
      forall pre mid post, s <> (pre ++ "{" ++ mid ++ "}" ++ post)%string
  end.
Proof.
  induction s as [|c s IH]; cbn [braces].
  - intros [|? ?] ? ?; discriminate.
  - destruct (Ascii.eqb c "{"%char) eqn:E.
    + apply Ascii.eqb_eq in E. subst c.
      pose proof (upto_last_brace_spec s) as Hs.
      destruct (upto_last_brace s) as [r|].
      * destruct Hs as (mid & post & -> & -> & Hpost).
        exists EmptyString, mid, post.
        split; [cbn; f_equal; now rewrite str_app_assoc|]. cbn. auto.
      * intros pre mid post Heq.
        assert (Hin : In "}"%char (list_ascii_of_string (String "{" s))).
        { rewrite Heq. rewrite !chars_app. cbn.
          rewrite !in_app_iff. cbn. rewrite !in_app_iff. cbn. tauto. }
        cbn in Hin. destruct Hin as [Hin|Hin]; [discriminate|auto].
    + apply Ascii.eqb_neq in E.
      destruct (braces s) as [j|].
      * destruct IH as (pre & mid & post & -> & -> & Hpre & Hpost).
        exists (String c pre), mid, post. cbn.
        repeat split; auto. intros [H|H]; auto.
      * intros [|c' pre] mid post Heq; cbn in Heq.
        -- injection Heq as Hc _. auto.
        -- injection Heq as _ Hs. exact (IH _ _ _ Hs).
Qed.

(** X4. Revision tasks are built from the blockers assigned to the game
    designer or the mathematician only: the designer's issues go to both
    tasks, the mathematician's to the math task, and a blocker of any
    other agent (the compliance officer's, or one with no agent) reaches
    no task; with none of the two agents named there is no task at all. *)
Theorem revision_tasks_serve_designer_and_mathematician (r : conv_result) :
  let blockers := get (cr_blockers r) [] in
  let designer := filter (has_agent "game_designer") blockers in
  let math := filter (has_agent "mathematician") blockers in
  (revision_tasks r = []
   <-> forall b, In b blockers ->
         has_agent "game_designer" b = false
         /\ has_agent "mathematician" b = false)
  /\ (forall l, In (GddRevision l) (revision_tasks r) ->
        l = designer /\ designer <> [])
  /\ (forall l, In (MathRevision l) (revision_tasks r) -> l = math ++ designer)
  /\ (designer <> [] ->
      revision_tasks r = [GddRevision designer; MathRevision (math ++ designer)])
  /\ (designer = [] -> math <> [] ->
      revision_tasks r = [MathRevision math]).
Proof.
  intros blockers designer math. unfold revision_tasks.
  fold blockers. fold designer. fold math.
  split; [|split; [|split; [|split]]].
  - split.
    + intros Hnil b Hb.
      destruct designer as [|d ds] eqn:Ed; [|discriminate].
      rewrite app_nil_r in Hnil. cbn in Hnil.
      destruct math as [|m ms] eqn:Em; [|discriminate].
      split.
      * destruct (has_agent "game_designer" b) eqn:E; [|reflexivity].
        assert (In b designer) by (apply filter_In; auto).
        rewrite Ed in *. contradiction.
      * destruct (has_agent "mathematician" b) eqn:E; [|reflexivity].
        assert (In b math) by (apply filter_In; auto).
        rewrite Em in *. contradiction.
    + intros Hall.
      assert (Hd : designer = []).
      { destruct designer as [|d ds] eqn:Ed; [reflexivity|].
        assert (Hin : In d designer) by (rewrite Ed; now left).
        apply filter_In in Hin. destruct Hin as [Hin Hag].
        destruct (Hall d Hin). congruence. }
      assert (Hm : math = []).
      { destruct math as [|m ms] eqn:Em; [reflexivity|].
        assert (Hin : In m math) by (rewrite Em; now left).
        apply filter_In in Hin. destruct Hin as [Hin Hag].
        destruct (Hall m Hin). congruence. }
      rewrite Hd, Hm. reflexivity.
  - intros l Hl. destruct designer as [|d ds]; cbn in Hl.
    + destruct (math ++ []); cbn in Hl; [contradiction|].
      destruct Hl as [Hl|[]]; discriminate.
    + destruct (math ++ d :: ds) eqn:E.
      * destruct Hl as [Hl|[]]. injection Hl as <-. split; congruence.
      * destruct Hl as [Hl|[Hl|[]]]; [|discriminate].
        injection Hl as <-. split; congruence.
  - intros l Hl. destruct designer as [|d ds]; cbn in Hl.
    + destruct (math ++ []) eqn:E; cbn in Hl; [contradiction|].
      destruct Hl as [Hl|[]]. injection Hl as <-. reflexivity.
    + destruct (math ++ d :: ds) eqn:E.
      * destruct Hl as [Hl|[]]. discriminate.
      * destruct Hl as [Hl|[Hl|[]]]; [discriminate|].
        injection Hl as <-. reflexivity.
  - intros Hd. destruct designer as [|d ds]; [congruence|].
    destruct (math ++ d :: ds) eqn:E; [|reflexivity].
    apply app_eq_nil in E. destruct E; discriminate.
  - intros Hd Hm. rewrite Hd, app_nil_r.
    destruct math; [congruence|reflexivity].
Qed.

End LoopParsing.

(** ** The jurisdiction compliance checker: markets, verdict, unions *)

Section ComplianceCoverage.
Import Jurisdiction JurisdictionComplianceCheckerTool.

Variable proposed_rtp : Q.
Variable proposed_features : list string.

Local Abbreviation rtp := proposed_rtp.
Local Abbreviation feats := proposed_features.
Local Abbreviation known m :=
  (match lookup_profile m with Some _ => true | None => false end).
Local Abbreviation canonical m :=
  (match lookup_profile m with Some (k, _) => [k] | None => [] end).

Lemma mem_In (x : string) (l : list string) : Py.mem x l = true <-> In x l.
Proof.
  unfold Py.mem. rewrite existsb_exists. split.
  - intros (y & Hy & E). apply String.eqb_eq in E. now subst.
  - intros H. exists x. split; [exact H|apply String.eqb_refl].
Qed.

Lemma filter_empty_iff {A : Type} (f : A -> bool) (l : list A) :
  filter f l = [] <-> forall x, In x l -> f x = false.
Proof.
  induction l as [|a l IH]; cbn.
  - split; [intros _ x []|reflexivity].
  - destruct (f a) eqn:E.
    + split; [discriminate|]. intros H. specialize (H a (or_introl eq_refl)).
      congruence.
    + rewrite IH. split.
      * intros H x [<-|Hx]; auto.
      * intros H x Hx. apply H. now right.
Qed.

Lemma flat_map_empty_iff {A B : Type} (f : A -> list B) (l : list A) :
  flat_map f l = [] <-> forall x, In x l -> f x = [].
Proof.
  induction l as [|a l IH]; cbn.
  - split; [intros _ x []|reflexivity].
  - split.
    + intros H. apply app_eq_nil in H. destruct H as [Ha Hl].
      intros x [<-|Hx]; [exact Ha|]. now apply IH.
    + intros H. rewrite (H a (or_introl eq_refl)). cbn.
      apply IH. intros x Hx. apply H. now right.
Qed.

Lemma lookup_cap (m k : string) (p : profile) :
  lookup_profile m = Some (k, p) -> cap_x p = None.
Proof.
  intros H. apply lookup_profile_In in H. now apply table_profile in H.
Qed.

Lemma resolved_In (markets : list string) (p : profile) :
  In p (resolved_profiles markets)
  <-> exists m k, In m markets /\ lookup_profile m = Some (k, p).
Proof.
  unfold resolved_profiles. rewrite in_flat_map. split.
  - intros (m & Hm & H).
    destruct (lookup_profile m) as [[k q]|] eqn:E; [|contradiction].
    destruct H as [<-|[]]. eauto.
  - intros (m & k & Hm & E). exists m. split; [exact Hm|].
    rewrite E. now left.
Qed.

Lemma check_market_max_win (mw mw' : Z) (st : loop_state) (m : string) :
  check_market rtp mw feats st m = check_market rtp mw' feats st m.
Proof.
  unfold check_market.
  destruct (lookup_profile m) as [[k p]|] eqn:E; [|reflexivity].
  rewrite (lookup_cap _ _ _ E). reflexivity.
Qed.

Lemma fold_max_win (mw mw' : Z) (markets : list string) :
  forall st,
    fold_left (check_market rtp mw feats) markets st
    = fold_left (check_market rtp mw' feats) markets st.
Proof.
  induction markets as [|m ms IH]; intros st; cbn [fold_left]; [reflexivity|].
  rewrite IH. f_equal. apply check_market_max_win.
Qed.

(** X5. No profile of the table carries a max-win cap, so the proposed max
    win has no bearing on the outcome: two runs that differ in it alone
    agree on the blockers, the warnings, the status of every per-market
    check, the intersection, the checklist and the verdict (the detail
    text of the Max Win check, which echoes the value, is not part of
    [results]). *)
Theorem proposed_max_win_never_changes_the_result
    (markets : list string) (mw mw' : Z) :
  _run markets rtp mw feats = _run markets rtp mw' feats.
Proof.
  unfold _run. cbn zeta. now rewrite (fold_max_win mw mw').
Qed.

Lemma fold_checked (mw : Z) (markets : list string) :
  forall st,
    l_checked (fold_left (check_market rtp mw feats) markets st)
    = l_checked st ++ flat_map (fun m => canonical m) markets.
Proof.
  induction markets as [|m ms IH]; intros st; cbn [fold_left flat_map].
  - now rewrite app_nil_r.
  - rewrite IH. unfold check_market.
    destruct (lookup_profile m) as [[k p]|]; cbn [l_checked].
    + now rewrite <- app_assoc.
    + reflexivity.
Qed.

Lemma fold_unknown (mw : Z) (markets : list string) :
  forall st,
    l_unknown (fold_left (check_market rtp mw feats) markets st)
    = l_unknown st ++ filter (fun m => negb (known m)) markets.
Proof.
  induction markets as [|m ms IH]; intros st; cbn [fold_left filter].
  - now rewrite app_nil_r.
  - rewrite IH. unfold check_market.
    destruct (lookup_profile m) as [[k p]|]; cbn [l_unknown negb].
    + reflexivity.
    + now rewrite <- app_assoc.
Qed.

(** X6. Every market name of the request is accounted for exactly once, in
    order: a name that resolves (by exact key, else case-insensitively
    after stripping) appears in [markets_checked] under the table's own
    key, every other name appears in [unknown_markets] as given. *)
Theorem every_market_is_checked_or_unknown (markets : list string) (mw : Z) :
  let r := _run markets rtp mw feats in
  markets_checked r = flat_map (fun m => canonical m) markets
  /\ unknown_markets r = filter (fun m => negb (known m)) markets
  /\ List.length (markets_checked r) + List.length (unknown_markets r)
     = List.length markets
  /\ forall k, In k (markets_checked r) ->
       In k (Py.dict_keys JURISDICTION_PROFILES).
Proof.
  cbn zeta. unfold _run. cbn [markets_checked unknown_markets].
  rewrite fold_checked, fold_unknown. cbn [l_checked l_unknown initial_state app].
  split; [reflexivity|]. split; [reflexivity|]. split.
  - induction markets as [|m ms IH]; cbn [flat_map filter List.length];
      [reflexivity|].
    rewrite length_app.
    destruct (lookup_profile m) as [[k p]|]; cbn [negb List.length app]; lia.
  - intros k Hk. apply in_flat_map in Hk. destruct Hk as (m & _ & Hk).
    destruct (lookup_profile m) as [[k' p]|] eqn:E; [|contradiction].
    destruct Hk as [<-|[]]. apply lookup_profile_In in E.
    unfold Py.dict_keys. apply in_map_iff. now exists (k', p).
Qed.

Lemma hits_cases (l : list string) :
  (filter (fun f => Py.mem f l) feats = []
   /\ forall f, In f feats -> ~ In f l)
  \/ (filter (fun f => Py.mem f l) feats <> []
      /\ exists f, In f feats /\ In f l).
Proof.
  destruct (filter (fun f => Py.mem f l) feats) as [|x xs] eqn:E.
  - left. split; [reflexivity|]. intros f Hf Hin.
    pose proof (proj1 (filter_empty_iff _ _) E f Hf) as H.
    apply mem_In in Hin. cbn in H. congruence.
  - right. split; [discriminate|]. exists x.
    assert (H : In x (filter (fun f => Py.mem f l) feats))
      by (rewrite E; now left).
    apply filter_In in H. destruct H as [H1 H2]. apply mem_In in H2. auto.
Qed.

Lemma rtp_cases (p : profile) :
  (Qle_bool (rtp_min p) rtp && Qle_bool rtp (rtp_max p) = true
   /\ (rtp_min p <= rtp)%Q /\ (rtp <= rtp_max p)%Q)
  \/ (Qle_bool (rtp_min p) rtp && Qle_bool rtp (rtp_max p) = false
      /\ ((rtp < rtp_min p)%Q \/ (rtp_max p < rtp)%Q)).
Proof.
  destruct (Qle_bool (rtp_min p) rtp) eqn:E1;
    destruct (Qle_bool rtp (rtp_max p)) eqn:E2; cbn [andb].
  - left. split; [reflexivity|].
    split; now apply Qle_bool_iff.
  - right. split; [reflexivity|]. right.
    apply Qnot_le_lt. intros H. apply Qle_bool_iff in H. congruence.
  - right. split; [reflexivity|]. left.
    apply Qnot_le_lt. intros H. apply Qle_bool_iff in H. congruence.
  - right. split; [reflexivity|]. left.
    apply Qnot_le_lt. intros H. apply Qle_bool_iff in H. congruence.
Qed.

Local Abbreviation blocking p :=
  (Qlt rtp (rtp_min p) \/ Qlt (rtp_max p) rtp
   \/ exists f, In f feats /\ In f (banned p)).
Local Abbreviation restricting p :=
  (exists f, In f feats /\ In f (restricted p)).

Lemma market_blockers_cases (mw : Z) (m : string) :
  match lookup_profile m with
  | None => l_blockers (check_market rtp mw feats initial_state m) = []
  | Some (k, p) =>
      (l_blockers (check_market rtp mw feats initial_state m) = []
       /\ ~ blocking p)
      \/ (l_blockers (check_market rtp mw feats initial_state m) <> []
          /\ blocking p)
  end.
Proof.
  unfold check_market.
  destruct (lookup_profile m) as [[k p]|] eqn:E; [|reflexivity].
  rewrite (lookup_cap _ _ _ E). cbn [l_blockers initial_state app].
  destruct (rtp_cases p) as [(-> & H1 & H2)|(-> & H)];
    destruct (hits_cases (banned p)) as [(-> & Hb)|(Hne & Hb)].
  - left. split; [reflexivity|].
    intros [H|[H|(f & Hf & Hin)]].
    + exact (Qlt_not_le _ _ H H1).
    + exact (Qlt_not_le _ _ H H2).
    + exact (Hb f Hf Hin).
  - right. split; [|auto].
    destruct (filter _ feats); [congruence|]. cbn. discriminate.
  - right. split; [cbn; discriminate|tauto].
  - right. split; [|tauto].
    destruct (filter _ feats); [congruence|]. cbn. discriminate.
Qed.

Lemma check_market_warnings (mw : Z) (st : loop_state) (m : string) :
  l_warnings (check_market rtp mw feats st m)
  = l_warnings st ++ l_warnings (check_market rtp mw feats initial_state m).
Proof.
  unfold check_market.
  destruct (lookup_profile m) as [[k p]|]; cbn [l_warnings initial_state];
    [|now rewrite app_nil_r].
  destruct (negb (List.length (filter _ feats) =? 0));
    cbn [app]; rewrite ?app_nil_r; reflexivity.
Qed.

Lemma fold_warnings (mw : Z) (markets : list string) :
  forall st,
    l_warnings (fold_left (check_market rtp mw feats) markets st)
    = l_warnings st
      ++ flat_map
           (fun m => l_warnings (check_market rtp mw feats initial_state m))
           markets.
Proof.
  induction markets as [|m ms IH]; intros st; cbn [fold_left flat_map].
  - now rewrite app_nil_r.
  - rewrite IH, check_market_warnings, app_assoc. reflexivity.
Qed.

Lemma market_warnings_cases (mw : Z) (m : string) :
  match lookup_profile m with
  | None => l_warnings (check_market rtp mw feats initial_state m) = []
  | Some (k, p) =>
      (l_warnings (check_market rtp mw feats initial_state m) = []
       /\ ~ restricting p)
      \/ (l_warnings (check_market rtp mw feats initial_state m) <> []
          /\ restricting p)
  end.
Proof.
  unfold check_market.
  destruct (lookup_profile m) as [[k p]|] eqn:E; [|reflexivity].
  cbn [l_warnings initial_state app].
  destruct (hits_cases (restricted p)) as [(-> & Hb)|(Hne & Hb)].
  - left. split; [reflexivity|]. intros (f & Hf & Hin). exact (Hb f Hf Hin).
  - right. split; [|exact Hb].
    destruct (filter _ feats); [congruence|]. cbn. discriminate.
Qed.

Lemma blockers_empty_iff (markets : list string) (mw : Z) :
  blockers (_run markets rtp mw feats) = []
  <-> forall p, In p (resolved_profiles markets) -> ~ blocking p.
Proof.
  unfold _run. cbn [blockers]. rewrite fold_blockers.
  cbn [l_blockers initial_state app]. rewrite flat_map_empty_iff. split.
  - intros H p Hp. apply resolved_In in Hp. destruct Hp as (m & k & Hm & E).
    pose proof (market_blockers_cases mw m) as Hc. rewrite E in Hc.
    destruct Hc as [[_ Hc]|[Hc _]]; [exact Hc|].
    now specialize (H m Hm).
  - intros H m Hm. pose proof (market_blockers_cases mw m) as Hc.
    destruct (lookup_profile m) as [[k p]|] eqn:E; [|exact Hc].
    destruct Hc as [[Hc _]|[_ Hc]]; [exact Hc|].
    exfalso. apply (H p); [|exact Hc]. apply resolved_In. eauto.
Qed.

Lemma blockers_nonempty_iff (markets : list string) (mw : Z) :
  blockers (_run markets rtp mw feats) <> []
  <-> exists p, In p (resolved_profiles markets) /\ blocking p.
Proof.
  split.
  - unfold _run. cbn [blockers]. rewrite fold_blockers.
    cbn [l_blockers initial_state app].
    destruct (flat_map _ markets) as [|b bs] eqn:Ef; [congruence|]. intros _.
    assert (Hin : In b (flat_map
              (fun m => l_blockers (check_market rtp mw feats initial_state m))
              markets)) by (rewrite Ef; now left).
    apply in_flat_map in Hin. destruct Hin as (m & Hm & Hb).
    pose proof (market_blockers_cases mw m) as Hc.
    destruct (lookup_profile m) as [[k p]|] eqn:E.
    + destruct Hc as [[Hc _]|[_ Hc]].
      * rewrite Hc in Hb. contradiction.
      * exists p. split; [|exact Hc]. apply resolved_In. eauto.
    + rewrite Hc in Hb. contradiction.
  - intros (p & Hp & Hb) Hnil.
    exact (proj1 (blockers_empty_iff markets mw) Hnil p Hp Hb).
Qed.

Lemma warnings_empty_iff (markets : list string) (mw : Z) :
  warnings (_run markets rtp mw feats) = []
  <-> forall p, In p (resolved_profiles markets) -> ~ restricting p.
Proof.
  unfold _run. cbn [warnings]. rewrite fold_warnings.
  cbn [l_warnings initial_state app]. rewrite flat_map_empty_iff. split.
  - intros H p Hp. apply resolved_In in Hp. destruct Hp as (m & k & Hm & E).
    pose proof (market_warnings_cases mw m) as Hc. rewrite E in Hc.
    destruct Hc as [[_ Hc]|[Hc _]]; [exact Hc|].
    now specialize (H m Hm).
  - intros H m Hm. pose proof (market_warnings_cases mw m) as Hc.
    destruct (lookup_profile m) as [[k p]|] eqn:E; [|exact Hc].
    destruct Hc as [[Hc _]|[_ Hc]]; [exact Hc|].
    exfalso. apply (H p); [|exact Hc]. apply resolved_In. eauto.
Qed.

Lemma warnings_nonempty_iff (markets : list string) (mw : Z) :
  warnings (_run markets rtp mw feats) <> []
  <-> exists p, In p (resolved_profiles markets) /\ restricting p.
Proof.
  split.
  - unfold _run. cbn [warnings]. rewrite fold_warnings.
    cbn [l_warnings initial_state app].
    destruct (flat_map _ markets) as [|b bs] eqn:Ef; [congruence|]. intros _.
    assert (Hin : In b (flat_map
              (fun m => l_warnings (check_market rtp mw feats initial_state m))
              markets)) by (rewrite Ef; now left).
    apply in_flat_map in Hin. destruct Hin as (m & Hm & Hb).
    pose proof (market_warnings_cases mw m) as Hc.
    destruct (lookup_profile m) as [[k p]|] eqn:E.
    + destruct Hc as [[Hc _]|[_ Hc]].
      * rewrite Hc in Hb. contradiction.
      * exists p. split; [|exact Hc]. apply resolved_In. eauto.
    + rewrite Hc in Hb. contradiction.
  - intros (p & Hp & Hb) Hnil.
    exact (proj1 (warnings_empty_iff markets mw) Hnil p Hp Hb).
Qed.

Lemma verdict_by_lists (markets : list string) (mw : Z) :
  let r := _run markets rtp mw feats in
  verdict_of r
  = match blockers r, warnings r with
    | _ :: _, _ => BLOCKED
    | [], _ :: _ => CONDITIONAL_PASS
    | [], [] => CLEAR
    end.
Proof. reflexivity. Qed.

(** X7. The verdict depends on the resolved profiles alone: BLOCKED exactly
    when the proposed RTP lies outside the range of one of them or a
    proposed feature is banned in one of them; CONDITIONAL_PASS exactly
    when none blocks and a proposed feature is restricted in one of
    them; CLEAR exactly when none blocks and none restricts (so also
    when no name resolves). *)
Theorem verdict_follows_the_resolved_profiles
    (markets : list string) (mw : Z) :
  let r := _run markets rtp mw feats in
  let profiles := resolved_profiles markets in
  (verdict_of r = BLOCKED <-> exists p, In p profiles /\ blocking p)
  /\ (verdict_of r = CONDITIONAL_PASS
      <-> (forall p, In p profiles -> ~ blocking p)
          /\ exists p, In p profiles /\ restricting p)
  /\ (verdict_of r = CLEAR
      <-> forall p, In p profiles -> ~ blocking p /\ ~ restricting p).
Proof.
  cbn zeta. rewrite verdict_by_lists. cbn zeta.
  pose proof (blockers_empty_iff markets mw) as Hb0.
  pose proof (blockers_nonempty_iff markets mw) as Hb1.
  pose proof (warnings_empty_iff markets mw) as Hw0.
  pose proof (warnings_nonempty_iff markets mw) as Hw1.
  destruct (blockers (_run markets rtp mw feats)) as [|b bs];
    destruct (warnings (_run markets rtp mw feats)) as [|x xs].
  - pose proof (proj1 Hb0 eq_refl) as Hb. pose proof (proj1 Hw0 eq_refl) as Hw.
    split; [|split].
    + split; [discriminate|]. intros (p & Hp & H). exfalso. now apply (Hb p).
    + split; [discriminate|]. intros (_ & p & Hp & H). exfalso. now apply (Hw p).
    + split; [|reflexivity]. intros _ p Hp. split; auto.
  - pose proof (proj1 Hb0 eq_refl) as Hb.
    assert (Hw : exists p, In p (resolved_profiles markets) /\ restricting p)
      by (apply Hw1; discriminate).
    split; [|split].
    + split; [discriminate|]. intros (p & Hp & H). exfalso. now apply (Hb p).
    + split; [auto|reflexivity].
    + split; [discriminate|]. intros H. destruct Hw as (p & Hp & Hr).
      exfalso. now apply (H p Hp).
  - assert (Hb : exists p, In p (resolved_profiles markets) /\ blocking p)
      by (apply Hb1; discriminate).
    split; [|split].
    + split; [auto|reflexivity].
    + split; [discriminate|]. intros (H & _). destruct Hb as (p & Hp & Hr).
      exfalso. now apply (H p Hp).
    + split; [discriminate|]. intros H. destruct Hb as (p & Hp & Hr).
      exfalso. destruct (H p Hp) as [H1 _]. exact (H1 Hr).
  - assert (Hb : exists p, In p (resolved_profiles markets) /\ blocking p)
      by (apply Hb1; discriminate).
    split; [|split].
    + split; [auto|reflexivity].
    + split; [discriminate|]. intros (H & _). destruct Hb as (p & Hp & Hr).
      exfalso. now apply (H p Hp).
    + split; [discriminate|]. intros H. destruct Hb as (p & Hp & Hr).
      exfalso. destruct (H p Hp) as [H1 _]. exact (H1 Hr).
Qed.

Local Abbreviation same_but_unknown st st' :=
  (l_checked st = l_checked st'
   /\ l_blockers st = l_blockers st'
   /\ l_warnings st = l_warnings st'
   /\ l_per_market st = l_per_market st'
   /\ all_required_rg st = all_required_rg st'
   /\ all_banned st = all_banned st'
   /\ all_submission_docs st = all_submission_docs st'
   /\ tightest_min_rtp st = tightest_min_rtp st'
   /\ slowest_cycle_ms st = slowest_cycle_ms st').

Lemma check_market_same (mw : Z) (st st' : loop_state) (m : string) :
  same_but_unknown st st' ->
  same_but_unknown (check_market rtp mw feats st m)
                   (check_market rtp mw feats st' m).
Proof.
  intros (H1 & H2 & H3 & H4 & H5 & H6 & H7 & H8 & H9).
  unfold check_market.
  destruct (lookup_profile m) as [[k p]|];
    cbn [l_checked l_blockers l_warnings l_per_market all_required_rg
         all_banned all_submission_docs tightest_min_rtp slowest_cycle_ms];
    rewrite H1, H2, H3, H4, H5, H6, H7, H8, H9; repeat split; reflexivity.
Qed.

Lemma check_market_unknown (mw : Z) (st : loop_state) (m : string) :
  lookup_profile m = None ->
  same_but_unknown (check_market rtp mw feats st m) st.
Proof.
  intros E. unfold check_market. rewrite E. cbn. repeat split; reflexivity.
Qed.

Lemma fold_known (mw : Z) (markets : list string) :
  forall st st',
    same_but_unknown st st' ->
    same_but_unknown
      (fold_left (check_market rtp mw feats) markets st)
      (fold_left (check_market rtp mw feats)
         (filter (fun m => known m) markets) st').
Proof.
  induction markets as [|m ms IH]; intros st st' H; cbn [fold_left filter];
    [exact H|].
  destruct (lookup_profile m) as [[k p]|] eqn:E.
  - cbn [fold_left]. apply IH. now apply check_market_same.
  - apply IH.
    destruct (check_market_unknown mw st m E)
      as (H1 & H2 & H3 & H4 & H5 & H6 & H7 & H8 & H9).
    destruct H as (G1 & G2 & G3 & G4 & G5 & G6 & G7 & G8 & G9).
    rewrite H1, H2, H3, H4, H5, H6, H7, H8, H9.
    repeat split; assumption.
Qed.

(** X8. Names that do not resolve are set aside and influence nothing else:
    dropping them from the request leaves the checked markets, the
    blockers, the warnings, the per-market checks, the intersection, the
    submission checklist and the verdict unchanged. *)
Theorem unknown_markets_influence_nothing_else
    (markets : list string) (mw : Z) :
  let r := _run markets rtp mw feats in
  let r' := _run (filter (fun m => known m) markets) rtp mw feats in
  markets_checked r = markets_checked r'
  /\ blockers r = blockers r'
  /\ warnings r = warnings r'
  /\ per_market r = per_market r'
  /\ intersection r = intersection r'
  /\ submission_checklist r = submission_checklist r'
  /\ verdict_of r = verdict_of r'
  /\ unknown_markets r' = [].
Proof.
  cbn zeta. unfold _run, build_intersection.
  cbn [markets_checked blockers warnings per_market intersection
       submission_checklist verdict_of unknown_markets].
  destruct (fold_known mw markets initial_state initial_state)
    as (H1 & H2 & H3 & H4 & H5 & H6 & H7 & H8 & H9);
    [repeat split; reflexivity|].
  rewrite H1, H2, H3, H4, H5, H6, H7, H8, H9.
  repeat (split; [reflexivity|]).
  rewrite fold_unknown. cbn [l_unknown initial_state app].
  apply filter_empty_iff. intros m Hm. apply filter_In in Hm.
  destruct Hm as [_ Hm]. now rewrite Hm.
Qed.

Lemma set_add_In (x y : string) (s : list string) :
  In y (Py.set_add x s) <-> In y s \/ y = x.
Proof.
  unfold Py.set_add. destruct (Py.mem x s) eqn:E.
  - apply mem_In in E. split; [auto|]. intros [H| ->]; assumption.
  - rewrite in_app_iff. cbn. intuition congruence.
Qed.

Lemma set_add_NoDup (x : string) (s : list string) :
  NoDup s -> NoDup (Py.set_add x s).
Proof.
  intros H. unfold Py.set_add. destruct (Py.mem x s) eqn:E; [exact H|].
  assert (Hx : ~ In x s).
  { intros Hin. apply mem_In in Hin. congruence. }
  clear E. induction s as [|a s IH]; cbn.
  - constructor; [intros []|constructor].
  - inversion H as [|? ? Ha Hs]; subst. constructor.
    + rewrite in_app_iff. cbn. intros [Hin|[->|[]]]; [auto|].
      apply Hx. now left.
    + apply IH; [exact Hs|]. intros Hin. apply Hx. now right.
Qed.

Lemma set_update_In (y : string) (xs s : list string) :
  In y (Py.set_update s xs) <-> In y s \/ In y xs.
Proof.
  unfold Py.set_update. revert s.
  induction xs as [|x xs IH]; intros s; cbn [fold_left].
  - cbn. tauto.
  - rewrite IH, set_add_In. cbn. intuition congruence.
Qed.

Lemma set_update_NoDup (xs s : list string) :
  NoDup s -> NoDup (Py.set_update s xs).
Proof.
  unfold Py.set_update. revert s.
  induction xs as [|x xs IH]; intros s H; cbn [fold_left]; [exact H|].
  apply IH. now apply set_add_NoDup.
Qed.

Lemma insert_sorted_In (x y : string) (l : list string) :
  In y (Py.insert_sorted x l) <-> y = x \/ In y l.
Proof.
  induction l as [|a l IH]; cbn.
  - intuition congruence.
  - destruct (String.leb x a); cbn; [intuition congruence|].
    rewrite IH. intuition congruence.
Qed.

Lemma sorted_In (y : string) (l : list string) :
  In y (Py.sorted l) <-> In y l.
Proof.
  induction l as [|a l IH]; cbn; [tauto|].
  rewrite insert_sorted_In, IH. intuition congruence.
Qed.

Lemma insert_sorted_NoDup (x : string) (l : list string) :
  ~ In x l -> NoDup l -> NoDup (Py.insert_sorted x l).
Proof.
  induction l as [|a l IH]; intros Hx H; cbn.
  - constructor; [intros []|constructor].
  - inversion H as [|? ? Ha Hl]; subst.
    destruct (String.leb x a).
    + constructor; assumption.
    + constructor.
      * rewrite insert_sorted_In. intros [->|Hin]; [|auto].
        apply Hx. now left.
      * apply IH; [|exact Hl]. intros Hin. apply Hx. now right.
Qed.

Lemma sorted_NoDup (l : list string) : NoDup l -> NoDup (Py.sorted l).
Proof.
  induction l as [|a l IH]; intros H; cbn; [constructor|].
  inversion H as [|? ? Ha Hl]; subst.
  apply insert_sorted_NoDup; [|auto]. now rewrite sorted_In.
Qed.

Local Abbreviation ordered :=
  (Sorted (fun a b : string => String.leb a b = true)).

Lemma insert_sorted_ordered (x : string) (l : list string) :
  ordered l -> ordered (Py.insert_sorted x l).
Proof.
  induction l as [|a l IH]; intros H; cbn.
  - repeat constructor.
  - destruct (String.leb x a) eqn:E.
    + constructor; [exact H|]. now constructor.
    + inversion H as [|? ? Hl Hhd]; subst.
      constructor; [now apply IH|].
      assert (Hax : String.leb a x = true).
      { destruct (String.leb_total a x) as [Ht|Ht]; [exact Ht|congruence]. }
      destruct l as [|b l]; cbn.
      * now constructor.
      * destruct (String.leb x b); constructor; [exact Hax|].
        now inversion Hhd.
Qed.

Lemma sorted_ordered (l : list string) : ordered (Py.sorted l).
Proof.
  induction l as [|a l IH]; cbn; [constructor|].
  now apply insert_sorted_ordered.
Qed.

Lemma fold_union (F : loop_state -> list string) (G : string -> list string)
    (step : loop_state -> string -> loop_state) :
  (forall st m, F (step st m) = Py.set_update (F st) (G m)) ->
  forall markets st,
    (forall x,
       In x (F (fold_left step markets st))
       <-> In x (F st) \/ exists m, In m markets /\ In x (G m))
    /\ (NoDup (F st) -> NoDup (F (fold_left step markets st))).
Proof.
  intros Hstep. induction markets as [|m ms IH]; intros st; cbn [fold_left].
  - split; [|auto]. intros x. split; [auto|].
    intros [H|(m & [] & _)]. exact H.
  - destruct (IH (step st m)) as [Hin Hnd]. split.
    + intros x. rewrite Hin, Hstep, set_update_In. split.
      * intros [[H|H]|(m' & Hm' & H)]; [auto| |].
        -- right. exists m. split; [now left|exact H].
        -- right. exists m'. split; [now right|exact H].
      * intros [H|(m' & [<-|Hm'] & H)]; [auto|auto|].
        right. exists m'. auto.
    + intros H. apply Hnd. rewrite Hstep. now apply set_update_NoDup.
Qed.

Lemma check_market_banned (mw : Z) (st : loop_state) (m : string) :
  all_banned (check_market rtp mw feats st m)
  = Py.set_update (all_banned st)
      (match lookup_profile m with
       | Some (_, p) => filter (fun f => Py.mem f (banned p)) feats
       | None => []
       end).
Proof.
  unfold check_market.
  destruct (lookup_profile m) as [[k p]|]; cbn [all_banned]; [|reflexivity].
  destruct (filter _ feats); reflexivity.
Qed.

Lemma check_market_rg (mw : Z) (st : loop_state) (m : string) :
  all_required_rg (check_market rtp mw feats st m)
  = Py.set_update (all_required_rg st)
      (match lookup_profile m with
       | Some (_, p) => required_rg p
       | None => []
       end).
Proof.
  unfold check_market.
  destruct (lookup_profile m) as [[k p]|]; reflexivity.
Qed.

Lemma check_market_docs (mw : Z) (st : loop_state) (m : string) :
  all_submission_docs (check_market rtp mw feats st m)
  = Py.set_update (all_submission_docs st)
      (match lookup_profile m with
       | Some (_, p) => submission_documents p
       | None => []
       end).
Proof.
  unfold check_market.
  destruct (lookup_profile m) as [[k p]|]; reflexivity.
Qed.

(** X9. [features_banned_in_any_market] lists, sorted and without
    repetition, exactly the proposed features that some resolved
    profile bans. *)
Theorem banned_features_of_the_intersection
    (markets : list string) (mw : Z) :
  let r := _run markets rtp mw feats in
  exists l,
    Py.dict_get (intersection r) "features_banned_in_any_market"
    = Some (VStrings l)
    /\ (forall f,
          In f l
          <-> In f feats
              /\ exists p, In p (resolved_profiles markets)
                           /\ In f (banned p))
    /\ NoDup l
    /\ ordered l.
Proof.
  cbn zeta. eexists. split; [reflexivity|].
  destruct (fold_union all_banned _ _ (check_market_banned mw)
              markets initial_state) as [Hin Hnd].
  split; [|split].
  - intros f. rewrite sorted_In, Hin. cbn [all_banned initial_state In].
    split.
    + intros [[]|(m & Hm & H)].
      destruct (lookup_profile m) as [[k p]|] eqn:E; [|contradiction].
      apply filter_In in H. destruct H as [Hf Hb]. apply mem_In in Hb.
      split; [exact Hf|]. exists p. split; [|exact Hb].
      apply resolved_In. eauto.
    + intros (Hf & p & Hp & Hb). right.
      apply resolved_In in Hp. destruct Hp as (m & k & Hm & E).
      exists m. split; [exact Hm|]. rewrite E.
      apply filter_In. split; [exact Hf|]. now apply mem_In.
  - apply sorted_NoDup, Hnd. constructor.
  - apply sorted_ordered.
Qed.

(** X10. The responsible-gambling features of the intersection and the
    submission checklist are unions over the resolved profiles: a
    feature is listed exactly when some resolved profile requires it, a
    document exactly when some resolved profile asks for it; both lists
    are sorted and free of repetitions. *)
Theorem requirements_are_unions_over_the_markets
    (markets : list string) (mw : Z) :
  let r := _run markets rtp mw feats in
  (exists l,
     Py.dict_get (intersection r) "all_required_rg_features"
     = Some (VStrings l)
     /\ (forall f,
           In f l
           <-> exists p, In p (resolved_profiles markets)
                         /\ In (f, true) (responsible_gambling p))
     /\ NoDup l /\ ordered l)
  /\ (forall d,
        In d (submission_checklist r)
        <-> exists p, In p (resolved_profiles markets)
                      /\ In d (submission_documents p))
  /\ NoDup (submission_checklist r)
  /\ ordered (submission_checklist r).
Proof.
  cbn zeta. split; [eexists; split; [reflexivity|]|].
  - destruct (fold_union all_required_rg _ _ (check_market_rg mw)
                markets initial_state) as [Hin Hnd].
    split; [|split].
    + intros f. rewrite sorted_In, Hin. cbn [all_required_rg initial_state In].
      split.
      * intros [[]|(m & Hm & H)].
        destruct (lookup_profile m) as [[k p]|] eqn:E; [|contradiction].
        exists p. split; [apply resolved_In; eauto|].
        unfold required_rg in H. apply in_map_iff in H.
        destruct H as ([f' b] & <- & H). apply filter_In in H.
        destruct H as [H Hb]. cbn in Hb. now subst b.
      * intros (p & Hp & H). right.
        apply resolved_In in Hp. destruct Hp as (m & k & Hm & E).
        exists m. split; [exact Hm|]. rewrite E.
        unfold required_rg. apply in_map_iff. exists (f, true).
        split; [reflexivity|]. apply filter_In. auto.
    + apply sorted_NoDup, Hnd. constructor.
    + apply sorted_ordered.
  - destruct (fold_union all_submission_docs _ _ (check_market_docs mw)
                markets initial_state) as [Hin Hnd].
    unfold _run. cbn [submission_checklist].
    split; [|split].
    + intros d. rewrite sorted_In, Hin.
      cbn [all_submission_docs initial_state In]. split.
      * intros [[]|(m & Hm & H)].
        destruct (lookup_profile m) as [[k p]|] eqn:E; [|contradiction].
        exists p. split; [apply resolved_In; eauto|exact H].
      * intros (p & Hp & H). right.
        apply resolved_In in Hp. destruct Hp as (m & k & Hm & E).
        exists m. split; [exact Hm|]. now rewrite E.
    + apply sorted_NoDup, Hnd. constructor.
    + apply sorted_ordered.
Qed.

End ComplianceCoverage.

(** ** Name resolution shared by the jurisdiction tools *)

Section ResolutionFacts.
Import Jurisdiction.

Ltac table_entry H :=
  cbn [JURISDICTION_PROFILES In] in H;
  repeat (destruct H as [H|H]; [injection H as <- <-|]);
  [..|contradiction].

Lemma lookup_sound (m k : string) (p : profile) :
  lookup_profile m = Some (k, p) ->
  In (k, p) JURISDICTION_PROFILES
  /\ Py.lower k = Py.strip (Py.lower m)
  /\ lookup_profile k = Some (k, p).
Proof.
  intros H. pose proof (lookup_profile_In _ _ _ H) as Hin.
  split; [exact Hin|]. split.
  - unfold lookup_profile in H.
    destruct (Py.dict_get JURISDICTION_PROFILES m) as [q|] eqn:E.
    + injection H as <- <-. clear E. table_entry Hin; reflexivity.
    + apply find_some in H. destruct H as [_ H]. now apply String.eqb_eq in H.
  - clear H. table_entry Hin; reflexivity.
Qed.

Lemma lookup_unknown (m : string) :
  lookup_profile m = None ->
  forall k p, In (k, p) JURISDICTION_PROFILES ->
    k <> m /\ Py.lower k <> Py.strip (Py.lower m).
Proof.
  unfold lookup_profile. intros H k p Hin.
  destruct (Py.dict_get JURISDICTION_PROFILES m) as [q|] eqn:E;
    [discriminate|].
  split.
  - intros ->. clear H. table_entry Hin; discriminate E.
  - pose proof (find_none _ _ H (k, p) Hin) as Hk. cbn in Hk.
    now apply String.eqb_neq in Hk.
Qed.

(** X11. Resolution of a jurisdiction name looks only at the name lower-cased
    and stripped of surrounding whitespace: two names that agree after
    that resolve to the same table entry, or both to none. *)
Theorem names_resolve_up_to_case_and_padding (m m' : string) :
  Py.strip (Py.lower m) = Py.strip (Py.lower m') ->
  lookup_profile m = lookup_profile m'.
Proof.
  intros H. unfold lookup_profile.
  destruct (Py.dict_get JURISDICTION_PROFILES m) as [p|] eqn:Em;
    destruct (Py.dict_get JURISDICTION_PROFILES m') as [p'|] eqn:Em'.
  - apply dict_get_In in Em. apply dict_get_In in Em'.
    table_entry Em; table_entry Em';
      first [reflexivity | vm_compute in H; discriminate H].
  - rewrite <- H. clear H Em'. apply dict_get_In in Em.
    table_entry Em; reflexivity.
  - rewrite H. clear H Em. apply dict_get_In in Em'.
    table_entry Em'; reflexivity.
  - now rewrite H.
Qed.

(** X12. The profile getter answers with a table entry whose key equals the
    requested name up to case and padding, and asking again under the
    key it reports gives the same answer; otherwise it reports the name
    as unknown together with the nine table keys in sorted order, and
    then no key matches the name. *)
Theorem getter_reports_a_table_entry_or_all_keys (market : string) :
  match GetJurisdictionProfileTool._run market with
  | GetJurisdictionProfileTool.Profile k p =>
      In (k, p) JURISDICTION_PROFILES
      /\ Py.lower k = Py.strip (Py.lower market)
      /\ GetJurisdictionProfileTool._run k
         = GetJurisdictionProfileTool.Profile k p
  | GetJurisdictionProfileTool.UnknownJurisdiction m available =>
      m = market
      /\ available = ["Curacao"; "Georgia"; "Malta"; "New Jersey"; "Ontario";
                      "Spain"; "Sweden"; "Texas"; "UK"]
      /\ forall k p, In (k, p) JURISDICTION_PROFILES ->
           k <> market /\ Py.lower k <> Py.strip (Py.lower market)
  end.
Proof.
  unfold GetJurisdictionProfileTool._run.
  destruct (lookup_profile market) as [[k p]|] eqn:E.
  - destruct (lookup_sound _ _ _ E) as (H1 & H2 & H3).
    rewrite H3. auto.
  - split; [reflexivity|]. split; [reflexivity|].
    now apply lookup_unknown.
Qed.

End ResolutionFacts.

(** ** The convergence validator: verdict, warnings, raising *)

Section ValidatorCoverage.
Import ConvergenceValidatorTool.

Variable fs : artifacts.
Variable target_rtp : Q.
Variable max_win_target : Z.
Variable target_markets : list string.

Local Abbreviation the_report :=
  (report fs target_rtp max_win_target target_markets).
Local Abbreviation run :=
  (_run fs target_rtp max_win_target target_markets).

Lemma decide_without_conflicts (r : appended) :
  conflicts r = [] ->
  decide r = if 3 <? List.length (warnings r) then MARGINAL else CONVERGED.
Proof. intros H. unfold decide. rewrite H. reflexivity. Qed.

(** X13. Whenever the tool returns, any conflict at all, whatever its type,
    makes the verdict NOT_CONVERGED; without conflicts the verdict is
    MARGINAL when more than three warnings were collected and CONVERGED
    otherwise. *)
Theorem verdict_weighs_conflicts_then_warnings (v : verdict) (r : appended) :
  run = Some (v, r) ->
  (v = NOT_CONVERGED <-> conflicts r <> [])
  /\ (v = MARGINAL <-> conflicts r = [] /\ 3 < List.length (warnings r))
  /\ (v = CONVERGED <-> conflicts r = [] /\ List.length (warnings r) <= 3).
Proof.
  intros H. unfold _run in H.
  destruct (raises fs max_win_target); [discriminate|].
  injection H as <- <-.
  destruct (conflicts the_report) as [|c cs] eqn:Ec.
  - rewrite (decide_without_conflicts _ Ec).
    destruct (3 <? List.length (warnings the_report)) eqn:E.
    + apply Nat.ltb_lt in E.
      split; [split; [discriminate|congruence]|].
      split; [split; auto|]. split; [discriminate|]. intros [_ H]. lia.
    + apply Nat.ltb_ge in E.
      split; [split; [discriminate|congruence]|].
      split; [|split; auto]. split; [discriminate|]. intros [_ H]. lia.
  - rewrite (decide_not_converged the_report c) by (rewrite Ec; now left).
    split; [split; [discriminate|reflexivity]|].
    split; (split; [discriminate|intros [H _]; discriminate]).
Qed.

Lemma market_cap_check_warnings (achieved : Q) (market : string) :
  warnings (market_cap_check achieved market) = [].
Proof.
  unfold market_cap_check.
  destruct (Py.dict_get MAX_WIN_CAPS _) as [[cap|]|]; try reflexivity.
  destruct (negb (cap =? 0)%Z); [|reflexivity].
  destruct (Py.Qlt_bool _ _); reflexivity.
Qed.

Lemma max_win_check_warnings :
  warnings (max_win_check (sim fs) max_win_target target_markets) = [].
Proof.
  unfold max_win_check.
  destruct (max_win_achieved (sim fs)) as [a|]; [|reflexivity].
  cbn [seq_app warnings]. rewrite warnings_all_app.
  replace (warnings (if Py.Qlt_bool _ a then _ else nothing)) with
    (@nil warning) by (destruct (Py.Qlt_bool _ a); reflexivity).
  cbn [app]. induction target_markets as [|m ms IH]; cbn; [reflexivity|].
  now rewrite market_cap_check_warnings.
Qed.

Lemma breakdown_check_warnings : warnings (breakdown_check (sim fs)) = [].
Proof.
  unfold breakdown_check.
  destruct (rtp_breakdown (sim fs)); [reflexivity|]. cbn zeta.
  destruct (measured_rtp (sim fs)) as [m|]; [|reflexivity].
  destruct (Qeq_bool m 0); [reflexivity|].
  destruct (Py.Qlt_bool _ _); reflexivity.
Qed.

Lemma simulation_warnings :
  List.length (warnings (read_simulation fs))
  + List.length (warnings (rtp_check (sim fs) target_rtp)) <= 1.
Proof.
  unfold read_simulation, rtp_check, sim.
  destruct (simulation_results_json fs) as [|s|]; cbn; try lia.
  destruct (measured_rtp s) as [m|]; cbn; [|lia].
  destruct (Py.Qlt_bool 1 _); cbn; [lia|].
  destruct (Py.Qlt_bool _ _); cbn; lia.
Qed.

Lemma feature_alignment_warning (w : warning) :
  In w (warnings (feature_alignment fs)) ->
  exists gdd_term math_key,
    In (gdd_term, math_key) feature_keywords
    /\ w = FEATURE_UNCOSTED gdd_term
    /\ Py.contains gdd_term (Py.lower (gdd_text fs)) = true
    /\ has_math (sim fs) gdd_term math_key = false
    /\ rtp_breakdown (sim fs) <> [].
Proof.
  unfold feature_alignment.
  destruct (Py.nonempty (gdd_text fs) && sim_truthy (sim fs));
    [|intros []].
  cbn zeta. rewrite warnings_all_app, flat_map_concat_map, map_map.
  rewrite <- flat_map_concat_map. intros H. apply in_flat_map in H.
  destruct H as ([t k] & Hkw & H).
  destruct (Py.contains t (Py.lower (gdd_text fs))) eqn:Ec; [|contradiction].
  destruct (has_math (sim fs) t k) eqn:Em; [contradiction|].
  destruct (rtp_breakdown (sim fs)) eqn:Eb; [contradiction|].
  cbn in H. destruct H as [<-|[]].
  exists t, k. repeat split; auto. discriminate.
Qed.

Lemma report_warnings_length :
  List.length (warnings the_report)
  <= 3 + List.length (warnings (feature_alignment fs)).
Proof.
  unfold report. rewrite warnings_all_app. cbn [flat_map].
  rewrite !length_app. cbn [List.length].
  rewrite max_win_check_warnings, breakdown_check_warnings.
  pose proof simulation_warnings as Hs.
  assert (Hg : List.length (warnings (read_gdd fs)) = 0)
    by (unfold read_gdd; destruct (gdd_md fs); reflexivity).
  assert (Hp : List.length (warnings (read_paytable fs)) <= 1)
    by (unfold read_paytable; destruct (paytable_csv fs); cbn; lia).
  assert (Hc : List.length (warnings (symbol_count_check fs)) <= 1).
  { unfold symbol_count_check. destruct (paytable fs); [cbn; lia|].
    destruct (_ && _); cbn; lia. }
  assert (Hr : List.length (warnings (reels_check fs)) = 0).
  { unfold reels_check. destruct (BaseReels_csv fs); [reflexivity|].
    destruct (paytable fs); reflexivity. }
  cbn [List.length]. lia.
Qed.

(** X14. A MARGINAL verdict is always owed to the feature alignment check:
    the other checks give at most three warnings between them, so more
    than three warnings include one for a feature keyword that the GDD
    mentions and that no key of the (non-empty) RTP breakdown accounts
    for. *)
Theorem marginal_verdict_names_an_uncosted_feature (r : appended) :
  run = Some (MARGINAL, r) ->
  exists gdd_term math_key,
    In (gdd_term, math_key) feature_keywords
    /\ In (FEATURE_UNCOSTED gdd_term) (warnings r)
    /\ Py.contains gdd_term (Py.lower (gdd_text fs)) = true
    /\ has_math (sim fs) gdd_term math_key = false
    /\ rtp_breakdown (sim fs) <> [].
Proof.
  intros H.
  unfold _run in H. destruct (raises fs max_win_target); [discriminate|].
  injection H as Hv <-.
  assert (Hlen : 3 < List.length (warnings the_report)).
  { destruct (conflicts the_report) as [|c cs] eqn:Ec.
    - rewrite (decide_without_conflicts _ Ec) in Hv.
      destruct (3 <? List.length (warnings the_report)) eqn:E;
        [now apply Nat.ltb_lt in E|discriminate].
    - rewrite (decide_not_converged the_report c) in Hv
        by (rewrite Ec; now left).
      discriminate. }
  pose proof report_warnings_length as Hle.
  destruct (warnings (feature_alignment fs)) as [|w ws] eqn:Ew;
    [cbn [List.length] in Hle; lia|].
  assert (Hin : In w (warnings (feature_alignment fs)))
    by (rewrite Ew; now left).
  destruct (feature_alignment_warning w Hin)
    as (t & k & Hkw & -> & Hc & Hm' & Hb).
  exists t, k. repeat split; auto.
  unfold report. rewrite warnings_all_app. cbn [flat_map].
  rewrite !in_app_iff. do 6 right. left. exact Hin.
Qed.

End ValidatorCoverage.

Section ValidatorRaising.
Import PrimFloat.
Import Json PyNumber ConvergenceValidatorOnJson.

#[local] Set Warnings "-inexact-float".

Variable sum : list PrimFloat.float -> PrimFloat.float.
Variable fs : artifacts.
Variable target_rtp : PrimFloat.float.
Variable target_markets : list string.

(** X15. A max win target of 0 makes the tool raise as soon as the
    parsed simulation file, a dictionary, holds a [max_win_achieved]
    that is a number greater than 0.0: the comparison with
    [max_win_target * 1.2] succeeds and the text of the
    MAX_WIN_EXCEEDED conflict divides by the target, so that no verdict
    is returned, whatever the other artifacts are. *)
Theorem zero_max_win_target_makes_the_validator_raise
    (d : list (string * json)) (achieved : number) :
  sim fs = JObj d ->
  number_of (get d "max_win_achieved") = Some achieved ->
  gt_float achieved 0%float = true ->
  _run sum fs target_rtp 0 target_markets = None.
Proof.
  intros Hsim Hnum Hpos.
  assert (Hcheck : max_win_check d 0 target_markets = None).
  { unfold max_win_check.
    change (float_of_int 0) with (Some 0%float).
    assert (Hdiv : div_raises achieved 0 = true).
    { destruct achieved; reflexivity. }
    destruct (get d "max_win_achieved"); try discriminate Hnum;
      rewrite Hnum; cbv beta iota zeta;
      change (PrimFloat.mul 0 1.2) with 0%float;
      rewrite Hpos, Hdiv; reflexivity. }
  unfold _run, report. rewrite Hsim. cbn [all_or_raise].
  rewrite Hcheck. destruct (rtp_check d target_rtp); reflexivity.
Qed.

End ValidatorRaising.

(** ** The targeted patch applier: repeated patches and lengths *)

Section PatchCoverage.
Import GDDPatchTool.

Lemma drop_length (n : nat) (s : string) :
  String.length (Py.drop n s) = String.length s - n.
Proof.
  revert s. induction n as [|n IH]; intros [|c s]; cbn; try lia. apply IH.
Qed.

Lemma str_app_nil (s : string) : (s ++ EmptyString)%string = s.
Proof. induction s as [|c s IH]; cbn; congruence. Qed.

(** The shape of a successful run: the document splits at the end of
    the header line found, and the span replaced is the lazy body that
    follows it. *)
Lemma run_on_section
    (e : env) (content section_header new_content reason : string) :
  gdd_file e = Some content ->
  has_section (Py.strip section_header) content ->
  exists before ws rest : string,
    let head :=
      (before ++ Py.strip section_header ++ ws
       ++ String Py.nl EmptyString)%string in
    let old_section := Py.take (body_length rest) rest in
    let content' :=
      (head ++ (String Py.nl (Py.strip new_content)
                ++ String Py.nl (String Py.nl EmptyString))
       ++ Py.drop (body_length rest) rest)%string in
    content = (head ++ rest)%string
    /\ Py.all_space ws = true
    /\ _run e section_header new_content reason
       = (Success section_header reason (String.length old_section)
            (String.length new_content) (String.length content'),
          {| gdd_file := Some content';
             revision_log :=
               revision_log e
               ++ [{| rev_section := section_header;
                      rev_reason := reason;
                      old_length := String.length old_section;
                      new_length := String.length new_content;
                      delta := (Z.of_nat (String.length new_content)
                                - Z.of_nat (String.length old_section))%Z |}];
             now := now e |}).
Proof.
  intros Hfile Hsec. unfold _run. rewrite Hfile.
  destruct (search (Py.strip section_header) content 0) as [[a b]|] eqn:E.
  2:{ apply search_None_iff in E. contradiction. }
  apply search_sound in E.
  destruct E as (before & rest0 & g & -> & Hm & -> & ->).
  apply match_header_sound in Hm.
  destruct Hm as (ws & rest & -> & Hws & ->).
  set (h := Py.strip section_header) in *.
  exists before, ws, rest. cbn zeta.
  set (head := (before ++ h ++ ws ++ String Py.nl EmptyString)%string).
  assert (Hdoc : (before ++ h ++ ws ++ String Py.nl rest)%string
                 = (head ++ rest)%string).
  { unfold head. rewrite !str_app_assoc. reflexivity. }
  assert (Hlen : 0 + String.length before
                 + (String.length h + S (String.length ws))
                 = String.length head + 0).
  { unfold head. rewrite !str_length_app. cbn. lia. }
  assert (Hg : Py.drop (String.length h + S (String.length ws))
                 (h ++ ws ++ String Py.nl rest) = rest).
  { replace (String.length h + S (String.length ws))
      with (String.length (h ++ ws ++ String Py.nl EmptyString) + 0)
      by (rewrite !str_length_app; cbn; lia).
    replace (h ++ ws ++ String Py.nl rest)%string
      with ((h ++ ws ++ String Py.nl EmptyString) ++ rest)%string
      by (rewrite !str_app_assoc; reflexivity).
    apply drop_app. }
  rewrite Hg, Hdoc, Hlen.
  split; [reflexivity|]. split; [exact Hws|].
  replace (String.length head + 0 + body_length rest
           - (String.length head + 0)) with (body_length rest) by lia.
  rewrite drop_app, take_app. cbn [Py.drop Py.take].
  rewrite <- Nat.add_assoc, drop_app, str_app_nil.
  reflexivity.
Qed.

(** X17. A patch never loses the section it patches: after a successful
    call the header is still followed by its line end, so the same
    header can be patched again, and the log has grown by one entry.
    When the section is absent nothing is written at all. *)
Theorem patched_section_stays_patchable
    (e : env) (content section_header new_content reason : string) :
  gdd_file e = Some content ->
  let e' := snd (_run e section_header new_content reason) in
  (has_section (Py.strip section_header) content ->
   exists content',
     gdd_file e' = Some content'
     /\ has_section (Py.strip section_header) content'
     /\ List.length (revision_log e') = S (List.length (revision_log e))
     /\ forall new_content' reason',
          exists old_chars new_chars total e'',
            _run e' section_header new_content' reason'
            = (Success section_header reason' old_chars new_chars total, e''))
  /\ (~ has_section (Py.strip section_header) content -> e' = e).
Proof.
  intros Hfile. cbn zeta. split.
  - intros Hsec.
    destruct (run_on_section e content section_header new_content reason
                Hfile Hsec) as (before & ws & rest & _ & Hws & Hrun).
    cbn zeta in Hrun. rewrite Hrun. cbn [snd gdd_file revision_log].
    eexists. split; [reflexivity|].
    assert (Hsec' : has_section (Py.strip section_header)
              ((before ++ Py.strip section_header ++ ws
                ++ String Py.nl EmptyString)
               ++ (String Py.nl (Py.strip new_content)
                   ++ String Py.nl (String Py.nl EmptyString))
               ++ Py.drop (body_length rest) rest)%string).
    { exists before, ws,
        ((String Py.nl (Py.strip new_content)
            ++ String Py.nl (String Py.nl EmptyString))
         ++ Py.drop (body_length rest) rest)%string.
      split; [|exact Hws]. rewrite !str_app_assoc. reflexivity. }
    split; [exact Hsec'|].
    split; [rewrite length_app; cbn; lia|].
    intros new_content' reason'.
    match goal with
    | |- context [_run ?env' _ _ _] =>
        destruct (run_on_section env' _ section_header new_content' reason'
                    eq_refl Hsec') as (b' & w' & r' & _ & _ & Hrun')
    end.
    cbn zeta in Hrun'. rewrite Hrun'. eauto.
  - intros Hno. apply search_None_iff in Hno.
    unfold _run. rewrite Hfile, Hno. reflexivity.
Qed.

(** X18. The size reported after a patch: the document grows by the stripped
    new content plus three newlines, less the span replaced.  The delta
    written to the revision log is computed from the unstripped content
    and leaves the three newlines out. *)
Theorem patch_length_accounting
    (e : env) (content section_header new_content reason : string)
    (r_header r_reason : string) (old_chars new_chars total : nat) (e' : env) :
  gdd_file e = Some content ->
  _run e section_header new_content reason
  = (Success r_header r_reason old_chars new_chars total, e') ->
  total + old_chars
  = String.length content + String.length (Py.strip new_content) + 3
  /\ old_chars <= String.length content
  /\ new_chars = String.length new_content
  /\ (exists content',
        gdd_file e' = Some content' /\ String.length content' = total)
  /\ exists entry,
       revision_log e' = revision_log e ++ [entry]
       /\ delta entry = (Z.of_nat new_chars - Z.of_nat old_chars)%Z
       /\ (Z.of_nat total - Z.of_nat (String.length content)
           = delta entry + 3
             - (Z.of_nat (String.length new_content)
                - Z.of_nat (String.length (Py.strip new_content))))%Z.
Proof.
  intros Hfile Hrun.
  assert (Hsec : has_section (Py.strip section_header) content).
  { destruct (search (Py.strip section_header) content 0) as [[a b]|] eqn:E.
    - assert (Hn : search (Py.strip section_header) content 0 <> None)
        by congruence.
      rewrite search_None_iff in Hn.
      unfold has_section in *.
      apply search_sound in E.
      destruct E as (before & rest0 & g & -> & Hm & _ & _).
      apply match_header_sound in Hm.
      destruct Hm as (ws & rest & -> & Hws & _).
      exists before, ws, rest. auto.
    - unfold _run in Hrun. rewrite Hfile, E in Hrun. discriminate. }
  destruct (run_on_section e content section_header new_content reason
              Hfile Hsec) as (before & ws & rest & Hdoc & Hws & Hrun').
  cbn zeta in Hdoc, Hrun'. rewrite Hrun' in Hrun.
  injection Hrun as _ _ <- <- <- <-.
  set (head := (before ++ Py.strip section_header ++ ws
                ++ String Py.nl EmptyString)%string) in *.
  pose proof (body_length_le rest) as Hle.
  assert (Hold : String.length (Py.take (body_length rest) rest)
                 = body_length rest) by now apply take_length.
  assert (Htotal :
    String.length
      (head ++ (String Py.nl (Py.strip new_content)
                ++ String Py.nl (String Py.nl EmptyString))
       ++ Py.drop (body_length rest) rest)
    + body_length rest
    = String.length content + String.length (Py.strip new_content) + 3).
  { rewrite Hdoc. rewrite !str_length_app. cbn [String.length].
    rewrite ?str_length_app, drop_length. cbn [String.length]. lia. }
  assert (Hfinal : forall t : nat,
            t + body_length rest
            = String.length content + String.length (Py.strip new_content) + 3
            -> (Z.of_nat t - Z.of_nat (String.length content)
                = Z.of_nat (String.length new_content)
                  - Z.of_nat (body_length rest) + 3
                  - (Z.of_nat (String.length new_content)
                     - Z.of_nat (String.length (Py.strip new_content))))%Z)
    by (intros; lia).
  rewrite Hold. cbn [gdd_file revision_log].
  split; [exact Htotal|].
  split; [rewrite Hdoc, str_length_app; lia|].
  split; [reflexivity|].
  split; [eexists; split; reflexivity|].
  eexists. split; [reflexivity|]. cbn [delta]. rewrite ?Hold.
  split; [reflexivity|]. apply Hfinal. exact Htotal.
Qed.

End PatchCoverage.

(** ** The paytable sanity checker: verdict, pay order, cross-reference *)

Section SanityCoverage.
Import PaytableSanityCheckerTool.

Variable float : string -> option Q.

Local Abbreviation run := (_run float).

Lemma monotonic_row_kind (fieldnames : list string) (sym_name : string)
    (r : row) (pks : list string) :
  forall prev_val i,
    In i (monotonic_row float fieldnames sym_name r pks prev_val) ->
    exists pk val prev, i = NON_MONOTONIC sym_name pk val prev.
Proof.
  induction pks as [|pk pks IH]; intros prev i H; cbn in H; [contradiction|].
  apply in_app_iff in H. destruct H as [H|H]; [|eauto].
  destruct (_ && _); [|contradiction].
  destruct H as [<-|[]]. eauto.
Qed.

Lemma monotonic_check_kind (fieldnames : list string) (data : list row)
    (i : issue) :
  In i (monotonic_check float fieldnames data) ->
  exists sym_name pk val prev,
    i = NON_MONOTONIC sym_name pk val prev
    /\ Py.nonempty sym_name = true /\ is_special sym_name = false.
Proof.
  unfold monotonic_check. intros H. apply in_flat_map in H.
  destruct H as (r & _ & H). cbn zeta in H.
  destruct (Py.nonempty (symbol_of fieldnames "???" r)) eqn:En;
    [|contradiction].
  destruct (is_special (symbol_of fieldnames "???" r)) eqn:Es;
    [contradiction|].
  cbn [negb orb] in H. apply monotonic_row_kind in H.
  destruct H as (pk & val & prev & ->). eauto 8.
Qed.

Lemma short_reels_kind (reel_rows : list (list string))
    (reel_header : list string) (i : issue) :
  forall col_idx,
    In i (short_reels reel_rows col_idx reel_header) -> is_blocker i = true.
Proof.
  induction reel_header as [|n l IH]; intros col H; cbn [short_reels] in H;
    [contradiction|].
  apply in_app_iff in H. destruct H as [H|H]; [|eauto].
  destruct (_ <? 10); [|contradiction]. destruct H as [<-|[]]. reflexivity.
Qed.

Lemma reels_check_kind (fieldnames : list string) (data : list row)
    (reels : reels_file) (i : issue) :
  In i (fst (fst (reels_check fieldnames data reels))) -> is_blocker i = true.
Proof.
  destruct reels as [| |h rows]; cbn [reels_check fst].
  - intros [<-|[]]. reflexivity.
  - intros [].
  - cbn zeta. cbn [fst]. intros H. apply in_app_iff in H.
    destruct H as [H|H]; [|now apply short_reels_kind in H].
    destruct (truly_missing _ _); [contradiction|].
    destruct H as [<-|[]]. reflexivity.
Qed.

Lemma decide_fail (l : list issue) (w : list warning) :
  decide l w = FAIL <-> exists i, In i l /\ is_blocker i = true.
Proof.
  unfold decide. destruct (filter is_blocker l) as [|b bs] eqn:E;
    cbn [List.length]; [change (0 <? 0) with false
                       |change (0 <? S (List.length bs)) with true];
    cbv iota.
  - split.
    + destruct l; [|discriminate].
      destruct (Nat.ltb 3 (List.length w)); discriminate.
    + intros (i & Hi & Hb).
      assert (Hin : In i (filter is_blocker l)) by now apply filter_In.
      rewrite E in Hin. contradiction.
  - split; [|reflexivity]. intros _. exists b.
    apply filter_In. rewrite E. now left.
Qed.

(** X19. The issues decide the verdict by their kind.  Pay-order findings
    alone ask for fixes; an issue of any other kind (a missing or
    unreadable paytable, an empty one, missing reels, a short reel, a
    reel symbol absent from the paytable) fails the check; with no issue
    the verdict is PASS or, above three warnings, MARGINAL. *)
Theorem sanity_verdict_follows_issue_kinds
    (pt : paytable_file) (reels : reels_file) :
  let out := run pt reels in
  (verdict_of out = FAIL
   <-> exists i, In i (issues out) /\ is_non_monotonic i = false)
  /\ (verdict_of out = NEEDS_FIXES
      <-> issues out <> []
          /\ forall i, In i (issues out) -> is_non_monotonic i = true)
  /\ (verdict_of out = MARGINAL
      <-> issues out = [] /\ 3 < List.length (warnings out))
  /\ (verdict_of out = PASS
      <-> issues out = [] /\ List.length (warnings out) <= 3).
Proof.
  cbn zeta. destruct pt as [| |fieldnames data]; cbn [_run].
  - cbn. split; [split; [intros _; exists MISSING_FILE; auto|reflexivity]|].
    split; [split; [discriminate|]|].
    { intros [_ H]. specialize (H _ (or_introl eq_refl)). discriminate. }
    split; (split; [discriminate|intros [H _]; discriminate]).
  - cbn. split; [split; [intros _; exists PARSE_ERROR; auto|reflexivity]|].
    split; [split; [discriminate|]|].
    { intros [_ H]. specialize (H _ (or_introl eq_refl)). discriminate. }
    split; (split; [discriminate|intros [H _]; discriminate]).
  - pose proof (reels_check_kind fieldnames data reels) as H5.
    destruct (reels_check fieldnames data reels) as [[i5 w5] p5].
    cbn [fst] in H5. cbn [verdict_of issues warnings].
    set (i1 := match data with [] => [EMPTY_PAYTABLE] | _ :: _ => [] end).
    set (all_issues := i1 ++ monotonic_check float fieldnames data ++ i5).
    set (all_warnings := zero_pay_check float fieldnames data ++ _ ++ w5).
    assert (Hkind : forall i, In i all_issues ->
              (is_blocker i = true /\ is_non_monotonic i = false)
              \/ (is_blocker i = false /\ is_non_monotonic i = true)).
    { intros i Hi. unfold all_issues in Hi. rewrite !in_app_iff in Hi.
      destruct Hi as [Hi|[Hi|Hi]].
      - unfold i1 in Hi. destruct data; [|contradiction].
        destruct Hi as [<-|[]]. now left.
      - apply monotonic_check_kind in Hi.
        destruct Hi as (? & ? & ? & ? & -> & _). now right.
      - left. split; [now apply H5|].
        specialize (H5 i Hi). destruct i; try reflexivity; discriminate. }
    pose proof (decide_fail all_issues all_warnings) as Hfail.
    assert (Hf : decide all_issues all_warnings = FAIL
                 <-> exists i, In i all_issues /\ is_non_monotonic i = false).
    { rewrite Hfail. split; intros (i & Hi & Hb); exists i; split; auto;
        destruct (Hkind i Hi) as [[? ?]|[? ?]]; congruence. }
    split; [exact Hf|].
    unfold decide in *.
    destruct (0 <? List.length (filter is_blocker all_issues)) eqn:Eb.
    + destruct (proj1 Hf eq_refl) as (i & Hi & Hn).
      split; [split; [discriminate|]|].
      { intros [_ H]. specialize (H i Hi). congruence. }
      split; (split; [discriminate|intros [H _]; rewrite H in Hi; contradiction]).
    + assert (Hnone : forall i, In i all_issues -> is_non_monotonic i = true).
      { intros i Hi. destruct (is_non_monotonic i) eqn:E; [reflexivity|].
        assert (Hx : FAIL = FAIL) by reflexivity.
        destruct all_issues as [|a l] eqn:Ea; [contradiction|].
        assert (Hex : exists i, In i (a :: l) /\ is_non_monotonic i = false)
          by eauto.
        apply Hf in Hex. discriminate. }
      destruct all_issues as [|a l] eqn:Ea.
      * destruct (3 <? List.length all_warnings) eqn:E3;
          [apply Nat.ltb_lt in E3|apply Nat.ltb_ge in E3];
          (split; [split; [discriminate|intros [H _]; congruence]|]).
        -- split; [split; auto|]. split; [discriminate|]. intros [_ H]. lia.
        -- split; [|split; auto]. split; [discriminate|]. intros [_ H]. lia.
      * split; [split; [intros _; split; [discriminate|exact Hnone]|reflexivity]|].
        split; (split; [discriminate|intros [H _]; discriminate]).
Qed.

Local Abbreviation positive_pays fieldnames r pks :=
  (filter (fun v => Py.Qlt_bool 0 v)
          (map (fun pk => pay_value float r (column_of fieldnames pk))
               pks)).

Lemma monotonic_row_sorted (fieldnames : list string) (sym_name : string)
    (r : row) (pks : list string) :
  forall prev_val,
    monotonic_row float fieldnames sym_name r pks prev_val = []
    <-> Sorted Qle (prev_val :: positive_pays fieldnames r pks).
Proof.
  induction pks as [|pk pks IH]; intros prev; cbn [monotonic_row map filter].
  - split; [repeat constructor|reflexivity].
  - cbn zeta.
    set (val := pay_value float r (column_of fieldnames pk)).
    destruct (Py.Qlt_bool 0 val) eqn:Epos; cbn [andb].
    + destruct (Py.Qlt_bool val prev) eqn:Elt.
      * apply Qlt_bool_true in Elt. split; [discriminate|].
        intros H. apply Sorted_inv in H. destruct H as [_ H].
        apply HdRel_inv in H. exfalso. exact (Qlt_not_le _ _ Elt H).
      * apply Qlt_bool_false in Elt. apply Qnot_lt_le in Elt.
        cbn [app]. rewrite IH. split.
        -- intros H. constructor; [exact H|now constructor].
        -- intros H. now apply Sorted_inv in H.
    + cbn [app]. apply IH.
Qed.

Lemma positive_pays_positive (fieldnames : list string) (r : row)
    (pks : list string) (v : Q) :
  In v (positive_pays fieldnames r pks) -> (0 < v)%Q.
Proof.
  intros H. apply filter_In in H. destruct H as [_ H].
  now apply Qlt_bool_true in H.
Qed.

Lemma monotonic_row_from_start (fieldnames : list string) (sym_name : string)
    (r : row) (pks : list string) :
  monotonic_row float fieldnames sym_name r pks (-1)%Q = []
  <-> Sorted Qle (positive_pays fieldnames r pks).
Proof.
  rewrite monotonic_row_sorted. split.
  - intros H. now apply Sorted_inv in H.
  - intros H. constructor; [exact H|].
    destruct (positive_pays fieldnames r pks) as [|v vs] eqn:E;
      constructor.
    assert (Hv : (0 < v)%Q).
    { apply (positive_pays_positive fieldnames r pks). rewrite E. now left. }
    apply Qlt_le_weak. eapply Qlt_trans; [|exact Hv]. reflexivity.
Qed.

Lemma reels_check_passed_kind (fieldnames : list string) (data : list row)
    (reels : reels_file) :
  ~ In PaysMonotonic (snd (reels_check fieldnames data reels)).
Proof.
  destruct reels as [| |h rows]; cbn [reels_check snd]; try tauto.
  cbn zeta. cbn [snd]. destruct (truly_missing _ _); cbn; intuition discriminate.
Qed.

(** X20. The pay-order check passes exactly when, for every row whose symbol
    is named and is not WILD, SCATTER or BONUS, the pays that are above
    zero never decrease from one tier to the next; pays of zero and
    cells that are no number are skipped. *)
Theorem pays_pass_iff_positive_pays_never_decrease
    (fieldnames : list string) (data : list row) (reels : reels_file) :
  In PaysMonotonic (checks_passed (run (PaytableRows fieldnames data) reels))
  <-> forall r, In r data ->
        Py.nonempty (symbol_of fieldnames "???" r) = true ->
        is_special (symbol_of fieldnames "???" r) = false ->
        Sorted Qle (positive_pays fieldnames r (sorted_keys fieldnames)).
Proof.
  assert (Hcheck : monotonic_check float fieldnames data = []
            <-> forall r, In r data ->
                  Py.nonempty (symbol_of fieldnames "???" r) = true ->
                  is_special (symbol_of fieldnames "???" r) = false ->
                  Sorted Qle
                    (positive_pays fieldnames r (sorted_keys fieldnames))).
  { unfold monotonic_check. rewrite flat_map_empty_iff. split.
    - intros H r Hr Hn Hs. specialize (H r Hr). cbn zeta in H.
      rewrite Hn, Hs in H. cbn [negb orb] in H.
      now apply monotonic_row_from_start in H.
    - intros H r Hr. cbn zeta.
      destruct (Py.nonempty (symbol_of fieldnames "???" r)) eqn:En;
        [|reflexivity].
      destruct (is_special (symbol_of fieldnames "???" r)) eqn:Es;
        [reflexivity|].
      cbn [negb orb]. apply monotonic_row_from_start. now apply H. }
  rewrite <- Hcheck. cbn [_run].
  pose proof (reels_check_passed_kind fieldnames data reels) as H5.
  destruct (reels_check fieldnames data reels) as [[i5 w5] p5].
  cbn [snd] in H5. cbn [checks_passed].
  rewrite !in_app_iff. split.
  - intros [H|[H|[H|[H|H]]]].
    + destruct data; [contradiction|]. destruct H as [H|[]]. discriminate.
    + destruct (monotonic_check float fieldnames data); [reflexivity|].
      contradiction.
    + destruct (has_wild fieldnames data);
        destruct (has_scatter fieldnames data); cbn in H;
        intuition discriminate.
    + contradiction.
    + destruct (pay_cols fieldnames); [contradiction|].
      destruct data; [contradiction|].
      destruct (Py.Qlt_bool _ _); [|contradiction].
      destruct H as [H|[]]. discriminate.
  - intros ->. right. left. now left.
Qed.

Lemma truly_missing_In (x : string) (a b : list string) :
  In x (truly_missing a b)
  <-> In x a /\ forall y, In y b -> Py.lower y <> Py.lower x.
Proof.
  unfold truly_missing. rewrite !filter_In, !negb_true_iff. split.
  - intros [[Ha _] Hl]. split; [exact Ha|]. intros y Hy E.
    assert (Hin : In (Py.lower x) (map Py.lower b))
      by (rewrite <- E; now apply in_map).
    apply mem_In in Hin. congruence.
  - intros [Ha H]. split; [split; [exact Ha|]|].
    + destruct (Py.mem x b) eqn:E; [|reflexivity].
      apply mem_In in E. now specialize (H x E).
    + destruct (Py.mem (Py.lower x) (map Py.lower b)) eqn:E; [|reflexivity].
      apply mem_In, in_map_iff in E. destruct E as (y & E & Hy).
      now specialize (H y Hy).
Qed.

Lemma reel_symbols_In (reel_rows : list (list string)) (x : string) :
  In x (reel_symbols reel_rows)
  <-> (exists r cell, In r reel_rows /\ In cell r /\ x = Py.strip cell)
      /\ x <> EmptyString
      /\ ~ In (Py.lower x) ["position"; "pos"; "stop"].
Proof.
  unfold reel_symbols. rewrite set_update_In, filter_In, in_map_iff. cbn [In].
  rewrite andb_true_iff, negb_true_iff. split.
  - intros [[]|((cell & <- & Hc) & Hne & Hm)].
    apply in_concat in Hc. destruct Hc as (r & Hr & Hc).
    split; [eauto|]. split.
    + intros E. rewrite E in Hne. discriminate.
    + intros Hin.
      assert (Hin' : In (Py.lower (Py.strip cell))
                        [""; "position"; "pos"; "stop"]) by now right.
      apply mem_In in Hin'. congruence.
  - intros ((r & cell & Hr & Hc & ->) & Hne & Hpos). right.
    split; [exists cell; split; [reflexivity|apply in_concat; eauto]|].
    split.
    + destruct (Py.strip cell); [congruence|reflexivity].
    + destruct (Py.mem _ _) eqn:E; [|reflexivity]. apply mem_In in E.
      destruct E as [E|E]; [|contradiction].
      destruct (Py.strip cell) as [|c0 s0]; [congruence|discriminate E].
Qed.

Lemma paytable_symbols_In (fieldnames : list string) (data : list row)
    (y : string) :
  In y (paytable_symbols fieldnames data)
  <-> y <> EmptyString
      /\ exists r, In r data /\ y = symbol_of fieldnames "" r.
Proof.
  unfold paytable_symbols. rewrite set_update_In, filter_In, in_map_iff.
  cbn [In]. split.
  - intros [[]|((r & <- & Hr) & Hne)]. split; [|eauto].
    intros E. rewrite E in Hne. discriminate.
  - intros (Hne & r & Hr & ->). right. split; [eauto|].
    destruct (symbol_of fieldnames "" r); [congruence|reflexivity].
Qed.

(** X21. The reel strips are cross-referenced with the paytable without
    regard to case: the issue for reel symbols missing from the
    paytable is raised exactly when some cell of the reel rows, stripped,
    is non-empty, is none of the position labels and equals no paytable
    symbol once both are lower-cased; the issue lists those cells. *)
Theorem reel_symbols_are_matched_ignoring_case
    (fieldnames : list string) (data : list row)
    (reel_header : list string) (reel_rows : list (list string)) :
  let out := run (PaytableRows fieldnames data)
                 (ReelsRows reel_header reel_rows) in
  let unmatched x :=
    (exists r cell, In r reel_rows /\ In cell r /\ x = Py.strip cell)
    /\ x <> EmptyString
    /\ ~ In (Py.lower x) ["position"; "pos"; "stop"]
    /\ forall r, In r data ->
         symbol_of fieldnames "" r <> EmptyString ->
         Py.lower (symbol_of fieldnames "" r) <> Py.lower x in
  ((exists l, In (REEL_SYMBOL_MISSING_FROM_PAYTABLE l) (issues out))
   <-> exists x, unmatched x)
  /\ forall l, In (REEL_SYMBOL_MISSING_FROM_PAYTABLE l) (issues out) ->
       forall x, In x l <-> unmatched x.
Proof.
  cbn zeta. cbn [_run reels_check]. cbn zeta. cbn [issues].
  set (rs := reel_symbols reel_rows).
  set (ps := paytable_symbols fieldnames data).
  assert (Hx : forall x, In x (truly_missing rs ps) <->
            (exists r cell, In r reel_rows /\ In cell r /\ x = Py.strip cell)
            /\ x <> EmptyString
            /\ ~ In (Py.lower x) ["position"; "pos"; "stop"]
            /\ forall r, In r data ->
                 symbol_of fieldnames "" r <> EmptyString ->
                 Py.lower (symbol_of fieldnames "" r) <> Py.lower x).
  { intros x. rewrite truly_missing_In. unfold rs, ps.
    rewrite reel_symbols_In. split.
    - intros ((H1 & H2 & H3) & H4). repeat split; auto.
      intros r Hr Hne. apply H4. apply paytable_symbols_In. eauto.
    - intros (H1 & H2 & H3 & H4). repeat split; auto.
      intros y Hy. apply paytable_symbols_In in Hy.
      destruct Hy as (Hne & r & Hr & ->). now apply H4. }
  assert (Hin : forall l,
            In (REEL_SYMBOL_MISSING_FROM_PAYTABLE l)
               ((match data with [] => [EMPTY_PAYTABLE] | _ :: _ => [] end)
                ++ monotonic_check float fieldnames data
                ++ (match truly_missing rs ps with
                    | [] => []
                    | _ :: _ =>
                        [REEL_SYMBOL_MISSING_FROM_PAYTABLE
                           (Py.sorted (truly_missing rs ps))]
                    end)
                ++ short_reels reel_rows 0 reel_header)
            <-> truly_missing rs ps <> []
                /\ l = Py.sorted (truly_missing rs ps)).
  { intros l. rewrite !in_app_iff. split.
    - intros [H|[H|[H|H]]].
      + destruct data; [|contradiction]. destruct H as [H|[]]. discriminate.
      + apply monotonic_check_kind in H.
        destruct H as (? & ? & ? & ? & H & _). discriminate.
      + destruct (truly_missing rs ps); [contradiction|].
        destruct H as [H|[]]. injection H as <-. split; [discriminate|auto].
      + exfalso. revert H. generalize 0.
        induction reel_header as [|n hs IH]; intros col H;
          cbn [short_reels] in H; [contradiction|].
        apply in_app_iff in H. destruct H as [H|H]; [|eauto].
        destruct (_ <? 10); [|contradiction].
        destruct H as [H|[]]. discriminate.
    - intros [Hne ->]. right; right; left.
      destruct (truly_missing rs ps); [congruence|now left]. }
  split.
  - split.
    + intros (l & Hl). apply Hin in Hl. destruct Hl as [Hne _].
      destruct (truly_missing rs ps) as [|x xs] eqn:E; [congruence|].
      exists x. apply Hx. now left.
    + intros (x & Hu). apply Hx in Hu.
      exists (Py.sorted (truly_missing rs ps)). apply Hin.
      split; [|reflexivity]. intros E. rewrite E in Hu. contradiction.
  - intros l Hl x. apply Hin in Hl. destruct Hl as [_ ->].
    rewrite sorted_In. apply Hx.
Qed.

Lemma monotonic_check_not_blocker (fieldnames : list string)
    (data : list row) (i : issue) :
  In i (monotonic_check float fieldnames data) -> is_blocker i = false.
Proof.
  intros H. apply monotonic_check_kind in H.
  destruct H as (? & ? & ? & ? & -> & _). reflexivity.
Qed.

(** X22. Missing reel strips always fail the check, whereas reel strips that
    cannot be parsed only leave a warning: with them the check fails
    exactly when the paytable has no row. *)
Theorem missing_reels_fail_but_unreadable_reels_warn
    (fieldnames : list string) (data : list row) :
  verdict_of (run (PaytableRows fieldnames data) ReelsMissing) = FAIL
  /\ In REEL_PARSE_ERROR
        (warnings (run (PaytableRows fieldnames data) ReelsUnreadable))
  /\ (verdict_of (run (PaytableRows fieldnames data) ReelsUnreadable) = FAIL
      <-> data = []).
Proof.
  split; [|split].
  - cbn [_run reels_check verdict_of]. apply decide_fail.
    exists MISSING_REELS. split; [|reflexivity].
    rewrite !in_app_iff. right; right. now left.
  - cbn [_run reels_check warnings]. rewrite !in_app_iff.
    right; right. now left.
  - cbn [_run reels_check verdict_of]. rewrite decide_fail. split.
    + intros (i & Hi & Hb). rewrite !in_app_iff in Hi.
      destruct Hi as [Hi|[Hi|[]]].
      * destruct data; [reflexivity|contradiction].
      * apply monotonic_check_not_blocker in Hi. congruence.
    + intros ->. exists EMPTY_PAYTABLE. split; [now left|reflexivity].
Qed.

Lemma zero_pay_check_In (fieldnames : list string) (data : list row)
    (w : warning) :
  In w (zero_pay_check float fieldnames data)
  <-> exists r,
        In r data
        /\ w = ZERO_PAY (symbol_of fieldnames "???" r)
        /\ Py.nonempty (symbol_of fieldnames "???" r) = true
        /\ is_special (symbol_of fieldnames "???" r) = false
        /\ forall pk, In pk (sorted_keys fieldnames) ->
             ~ (0 < pay_value float r (column_of fieldnames pk))%Q.
Proof.
  unfold zero_pay_check. rewrite in_flat_map. cbn zeta.
  split; intros (r & Hr & H); exists r; (split; [exact Hr|]).
  - destruct (existsb _ (sorted_keys fieldnames)) eqn:Ee; [contradiction|].
    destruct (is_special (symbol_of fieldnames "???" r)); [contradiction|].
    destruct (Py.nonempty (symbol_of fieldnames "???" r)); [|contradiction].
    destruct H as [<-|[]]. repeat split; auto.
    intros pk Hpk Hpos. apply Qlt_bool_true in Hpos.
    assert (Hex : existsb
              (fun pk => Py.Qlt_bool 0
                           (pay_value float r (column_of fieldnames pk)))
              (sorted_keys fieldnames) = true)
      by (apply existsb_exists; eauto).
    congruence.
  - destruct H as (-> & Hn & Hs & Hz). rewrite Hn, Hs.
    destruct (existsb _ (sorted_keys fieldnames)) eqn:Ee; [|now left].
    apply existsb_exists in Ee. destruct Ee as (pk & Hpk & Hpos).
    apply Qlt_bool_true in Hpos. now specialize (Hz pk Hpk).
Qed.

(** X23. A MARGINAL verdict always involves a symbol that pays nothing: the
    other checks give at most three warnings (no wild, no scatter, one
    about the reels), so more than three warnings include a zero-pay
    warning for a named, non-special symbol of the paytable none of
    whose tiers pays above zero. *)
Theorem marginal_paytable_has_a_symbol_without_pay
    (pt : paytable_file) (reels : reels_file) :
  verdict_of (run pt reels) = MARGINAL ->
  exists fieldnames data r,
    pt = PaytableRows fieldnames data
    /\ In r data
    /\ In (ZERO_PAY (symbol_of fieldnames "???" r)) (warnings (run pt reels))
    /\ Py.nonempty (symbol_of fieldnames "???" r) = true
    /\ is_special (symbol_of fieldnames "???" r) = false
    /\ forall pk, In pk (sorted_keys fieldnames) ->
         ~ (0 < pay_value float r (column_of fieldnames pk))%Q.
Proof.
  destruct pt as [| |fieldnames data]; cbn [_run verdict_of];
    try discriminate.
  assert (H5 : List.length (snd (fst (reels_check fieldnames data reels))) <= 1).
  { destruct reels as [| |h rows]; cbn [reels_check fst snd]; cbn; try lia.
    destruct (truly_missing _ _); cbn; lia. }
  destruct (reels_check fieldnames data reels) as [[i5 w5] p5].
  cbn [fst snd] in H5. cbn [verdict_of warnings].
  intros Hv. unfold decide in Hv.
  destruct (0 <? _); [discriminate|].
  destruct (_ ++ _ ++ i5); [|discriminate].
  destruct (3 <? _) eqn:E3; [|discriminate]. apply Nat.ltb_lt in E3.
  rewrite !length_app in E3.
  assert (H4 : List.length
                 ((if has_wild fieldnames data then [] else [NO_WILD])
                  ++ (if has_scatter fieldnames data then []
                      else [NO_SCATTER])) <= 2).
  { destruct (has_wild fieldnames data);
      destruct (has_scatter fieldnames data); cbn; lia. }
  rewrite length_app in H4.
  destruct (zero_pay_check float fieldnames data) as [|w ws] eqn:Ez;
    [cbn [List.length] in E3; lia|].
  assert (Hin : In w (zero_pay_check float fieldnames data))
    by (rewrite Ez; now left).
  pose proof Hin as Hw. apply zero_pay_check_In in Hw.
  destruct Hw as (r & Hr & -> & Hn & Hs & Hz).
  exists fieldnames, data, r. repeat split; auto.
  rewrite in_app_iff. left. now left.
Qed.

End SanityCoverage.

(** ** The file reader *)

Section ReaderFacts.
Import FileReaderTool.

Lemma take_all (n : nat) (s : string) :
  String.length s <= n -> Py.take n s = s.
Proof.
  revert s. induction n as [|n IH]; intros [|c s] H; cbn in *;
    try reflexivity; try lia.
  f_equal. apply IH. lia.
Qed.

Lemma take_length_min (n : nat) (s : string) :
  String.length (Py.take n s) = Nat.min n (String.length s).
Proof.
  revert s. induction n as [|n IH]; intros [|c s]; cbn; try reflexivity.
  now rewrite IH.
Qed.

(** X24. What the reader returns is always a prefix of the file, and the
    whole file whenever [truncated] is false.  With a limit of at least
    0 the prefix holds the first [max_chars] characters, or all of them
    when there are fewer, and [truncated] tells exactly whether
    something was left out. *)
Theorem reader_returns_a_prefix_of_the_file
    (fs : string -> option string) (file_path content : string)
    (max_chars : Z) :
  fs file_path = Some content ->
  exists truncated shown rest,
    _run fs file_path max_chars = FileRead truncated shown
    /\ content = (shown ++ rest)%string
    /\ (truncated = false -> rest = EmptyString)
    /\ ((0 <= max_chars)%Z ->
        (truncated = true <-> rest <> EmptyString)
        /\ Z.of_nat (String.length shown)
           = Z.min max_chars (Z.of_nat (String.length content))).
Proof.
  intros Hfile. unfold _run. rewrite Hfile.
  unfold PyText.slice_to.
  destruct (0 <=? max_chars)%Z eqn:Epos.
  - apply Z.leb_le in Epos.
    exists (max_chars <? Z.of_nat (String.length content))%Z,
      (Py.take (Z.to_nat max_chars) content),
      (Py.drop (Z.to_nat max_chars) content).
    split; [reflexivity|]. split; [now rewrite take_drop|].
    assert (Hrest : Py.drop (Z.to_nat max_chars) content = EmptyString
                    <-> (Z.of_nat (String.length content) <= max_chars)%Z).
    { pose proof (drop_length (Z.to_nat max_chars) content) as Hl.
      split.
      - intros E. rewrite E in Hl. cbn in Hl. lia.
      - intros H. destruct (Py.drop (Z.to_nat max_chars) content);
          [reflexivity|cbn in Hl; lia]. }
    split.
    + intros E. apply Z.ltb_ge in E. now apply Hrest.
    + intros _. split.
      * rewrite Z.ltb_lt, Hrest. lia.
      * rewrite take_length_min. lia.
  - exists (max_chars <? Z.of_nat (String.length content))%Z,
      (Py.take (String.length content - Z.to_nat (- max_chars)) content),
      (Py.drop (String.length content - Z.to_nat (- max_chars)) content).
    split; [reflexivity|]. split; [now rewrite take_drop|].
    apply Z.leb_gt in Epos. split.
    + intros E. apply Z.ltb_ge in E. lia.
    + intros H. lia.
Qed.

End ReaderFacts.

(** ** The GDD quality auditor: scores, counts and grades *)

Section AuditorFacts.
Import GDDQualityAuditorTool.

Variable findall : string -> string -> nat.

Local Abbreviation run := (_run findall).
Local Abbreviation located found :=
  (fun d : section_def =>
     match find_section d found with Some _ => true | None => false end).

Lemma word_count_check_bounds (d : section_def) (wc : nat) :
  (5 <= fst (fst (word_count_check d wc)) <= 25)%Z
  /\ List.length (snd (fst (word_count_check d wc))) <= 1.
Proof.
  unfold word_count_check. destruct (min_words d <=? wc); [cbn; lia|].
  destruct (Qle_bool _ _); cbn; lia.
Qed.

Lemma elements_check_bounds (d : section_def) (text : string) :
  (0 <= fst (fst (elements_check d text)) <= 25)%Z
  /\ List.length (snd (fst (elements_check d text))) <= 1.
Proof.
  unfold elements_check. cbn zeta.
  set (missing := missing_elements d text).
  assert (Hp : (0 <= match List.length (required_elements d) with
                     | O => 25
                     | S _ =>
                         25 * Z.of_nat (List.length (required_elements d)
                                        - List.length missing)
                         / Z.of_nat (List.length (required_elements d))
                     end <= 25)%Z).
  { destruct (List.length (required_elements d)) as [|n] eqn:En; [lia|].
    split.
    - apply Z.div_pos; lia.
    - apply Z.div_le_upper_bound; lia. }
  destruct missing; cbn [fst snd List.length]; split; auto; lia.
Qed.

Lemma specificity_check_bounds (text : string) :
  (0 <= fst (fst (specificity_check findall text)) <= 25)%Z
  /\ List.length (snd (fst (specificity_check findall text))) <= 1.
Proof.
  unfold specificity_check. cbn zeta.
  destruct (_ && _); [cbn; lia|].
  destruct (_ =? 0); cbn [fst snd List.length]; lia.
Qed.

Lemma found_report_bounds (d : section_def) (text : string) :
  (30 <= score (found_report findall d text) <= 100)%Z
  /\ List.length (issues (found_report findall d text)) <= 3.
Proof.
  unfold found_report. cbn zeta.
  pose proof (word_count_check_bounds d (List.length (PyText.split text)))
    as [H2 I2].
  pose proof (elements_check_bounds d text) as [H3 I3].
  pose proof (specificity_check_bounds text) as [H4 I4].
  destruct (word_count_check d _) as [[p2 i2] f2].
  destruct (elements_check d text) as [[p3 i3] f3].
  destruct (specificity_check findall text) as [[p4 i4] f4].
  cbn [fst snd] in *. cbn [score issues]. rewrite !length_app. lia.
Qed.

Lemma section_audit_cases (found : list (string * string)) (d : section_def) :
  (located found d = false
   /\ score (section_audit findall found d) = 0%Z
   /\ issues (section_audit findall found d) = [MISSING (header d)])
  \/ (located found d = true
      /\ (30 <= score (section_audit findall found d) <= 100)%Z
      /\ List.length (issues (section_audit findall found d)) <= 3).
Proof.
  unfold section_audit.
  destruct (find_section d found) as [[k text]|].
  - right. split; [reflexivity|]. apply found_report_bounds.
  - left. cbn. auto.
Qed.

Lemma audit_totals (found : list (string * string)) (defs : list section_def) :
  forall (acc : Z) (n : nat),
    let results := map (section_audit findall found) defs in
    List.length (filter (fun r => (0 <? score r)%Z) results)
    = List.length (filter (located found) defs)
    /\ (acc + 30 * Z.of_nat (List.length (filter (located found) defs))
        <= fold_left (fun a r => (a + score r)%Z) results acc
        <= acc + 100 * Z.of_nat (List.length (filter (located found) defs)))%Z
    /\ n + (List.length defs
            - List.length (filter (located found) defs))
       <= fold_left (fun a r => a + List.length (issues r)) results n
       <= n + List.length defs
          + 2 * List.length (filter (located found) defs).
Proof.
  induction defs as [|d defs IH]; intros acc n; cbn zeta.
  - cbn. repeat split; lia.
  - cbn [map filter fold_left].
    specialize (IH (acc + score (section_audit findall found d))%Z
                   (n + List.length (issues (section_audit findall found d)))).
    cbn zeta in IH. destruct IH as (IH1 & IH2 & IH3).
    pose proof (filter_length_le (located found) defs) as Hle.
    destruct (section_audit_cases found d) as [(Hl & Hs & Hi)|(Hl & Hs & Hi)];
      rewrite Hl.
    + rewrite Hs in *. rewrite Hi in *. cbn [List.length] in *.
      change (0 <? 0)%Z with false. cbv iota.
      repeat split; lia.
    + replace (0 <? score (section_audit findall found d))%Z with true
        by (symmetry; apply Z.ltb_lt; lia).
      cbn [List.length]. repeat split; lia.
Qed.

(** X25. The audit counts as found exactly the standard sections it
    located by their header: a located section scores between 30 and 100
    and raises at most three issues, a missing one scores 0 and raises
    one.  Hence the section scores add up to between 30 and 100 points
    per located section, and the number of issues lies between the
    number of missing sections and that number plus three per located
    one. *)
Theorem audit_counts_the_located_sections (content : string) :
  let out := _run findall content in
  let found := List.length (filter (located (found_sections content))
                                   GDD_SECTIONS) in
  sections_found out = found
  /\ sections_expected out = 15
  /\ List.length (sections out) = 15
  /\ found <= 15
  /\ (30 * Z.of_nat found
      <= fold_left (fun a r => (a + score r)%Z) (sections out) 0%Z
      <= 100 * Z.of_nat found)%Z
  /\ 15 - found <= total_issues out <= 15 + 2 * found
  /\ forall r, In r (sections out) ->
       (score r = 0%Z /\ exists h, issues r = [MISSING h])
       \/ ((30 <= score r <= 100)%Z /\ List.length (issues r) <= 3).
Proof.
  cbn zeta. unfold _run. cbn zeta.
  cbn [sections_found sections_expected average_score total_issues sections].
  destruct (audit_totals (found_sections content) GDD_SECTIONS 0%Z 0)
    as (H1 & H2 & H3).
  cbn zeta in H1, H2, H3.
  pose proof (filter_length_le (located (found_sections content))
                GDD_SECTIONS) as Hle.
  change (List.length GDD_SECTIONS) with 15 in *.
  split; [exact H1|]. split; [reflexivity|].
  split; [now rewrite length_map|]. split; [exact Hle|].
  split; [lia|]. split; [lia|].
  intros r Hr. apply in_map_iff in Hr. destruct Hr as (d & <- & _).
  destruct (section_audit_cases (found_sections content) d)
    as [(_ & Hs & Hi)|(_ & Hs & Hi)]; [left|right]; eauto.
Qed.

Lemma grade_for_cases (avg : Q) :
  (fst (grade_for avg) = A /\ snd (grade_for avg) = PRODUCTION_READY
   /\ (85 <= avg)%Q)
  \/ (fst (grade_for avg) = B /\ snd (grade_for avg) = GOOD_WITH_FIXES
      /\ (70 <= avg)%Q /\ ~ (85 <= avg)%Q)
  \/ (fst (grade_for avg) = C /\ snd (grade_for avg) = NEEDS_REVISION
      /\ (50 <= avg)%Q /\ ~ (70 <= avg)%Q)
  \/ (fst (grade_for avg) = D /\ snd (grade_for avg) = MAJOR_REWRITE_NEEDED
      /\ ~ (50 <= avg)%Q).
Proof.
  unfold grade_for.
  destruct (Qle_bool 85 avg) eqn:E1.
  { left. apply Qle_bool_iff in E1. auto. }
  assert (~ (85 <= avg)%Q) by (intros H; apply Qle_bool_iff in H; congruence).
  destruct (Qle_bool 70 avg) eqn:E2.
  { right; left. apply Qle_bool_iff in E2. auto. }
  assert (~ (70 <= avg)%Q) by (intros H'; apply Qle_bool_iff in H'; congruence).
  destruct (Qle_bool 50 avg) eqn:E3.
  { right; right; left. apply Qle_bool_iff in E3. auto. }
  right; right; right.
  repeat split; auto. intros H'. apply Qle_bool_iff in H'. congruence.
Qed.

Lemma average_at_least (k total : Z) :
  (inject_Z k <= inject_Z total / inject_Z 15)%Q <-> (k * 15 <= total)%Z.
Proof.
  unfold Qle, Qdiv, Qmult, Qinv, inject_Z. cbn [Qnum Qden].
  change (Z.pos (1 * 15)) with 15%Z. lia.
Qed.

(** X26. Grades bound the number of missing sections: an A needs at least 13
    of the 15 standard sections located, a B at least 11, a C at least
    8; and a GDD with fewer than 8 located sections is always graded D,
    MAJOR_REWRITE_NEEDED.  Grade and verdict go together. *)
Theorem grade_bounds_the_missing_sections (content : string) :
  let out := _run findall content in
  (grade_of out = A -> 13 <= sections_found out)
  /\ (grade_of out = B -> 11 <= sections_found out)
  /\ (grade_of out = C -> 8 <= sections_found out)
  /\ (sections_found out < 8 ->
      grade_of out = D /\ verdict_of out = MAJOR_REWRITE_NEEDED)
  /\ (grade_of out = A <-> verdict_of out = PRODUCTION_READY)
  /\ (grade_of out = D <-> verdict_of out = MAJOR_REWRITE_NEEDED).
Proof.
  cbn zeta. unfold _run. cbn zeta.
  cbn [sections_found grade_of verdict_of].
  destruct (audit_totals (found_sections content) GDD_SECTIONS 0%Z 0)
    as (H1 & H2 & _).
  cbn zeta in H1, H2. rewrite H1.
  change (List.length GDD_SECTIONS) with 15 in *.
  change (Z.of_nat 15) with 15%Z.
  revert H2. clear H1.
  generalize (List.length (filter (located (found_sections content))
                                  GDD_SECTIONS)).
  generalize (fold_left (fun a r => (a + score r)%Z)
                (map (section_audit findall (found_sections content))
                     GDD_SECTIONS) 0%Z).
  intros total n H2.
  destruct (grade_for_cases (inject_Z total / inject_Z 15))
    as [(-> & -> & Ha)|[(-> & -> & Ha & Hb)|[(-> & -> & Ha & Hb)
       |(-> & -> & Ha)]]];
    change 85%Q with (inject_Z 85) in *;
    change 70%Q with (inject_Z 70) in *;
    change 50%Q with (inject_Z 50) in *;
    rewrite ?average_at_least in *;
    repeat split; try discriminate; try reflexivity; try lia.
Qed.

End AuditorFacts.

Section AuditorHeaders.
Import GDDQualityAuditorTool.

Variable findall : string -> string -> nat.

Lemma contains_intro (p a b : string) :
  Py.contains p (a ++ p ++ b) = true.
Proof.
  induction a as [|c a IH].
  - cbn [append]. destruct (p ++ b)%string eqn:E; cbn [Py.contains];
      apply orb_true_iff; left; rewrite <- E;
      apply startswith_app; eauto.
  - cbn [append Py.contains]. apply orb_true_iff. right. exact IH.
Qed.

Lemma split_sections_head (s : string) :
  exists l ls b, split_sections s = l :: ls /\ s = (l ++ b)%string.
Proof.
  induction s as [|c s (l & ls & b & E & Hs)]; cbn [split_sections].
  - exists EmptyString, [], EmptyString. auto.
  - destruct (Ascii.eqb c Py.nl && Py.startswith "## " s).
    + exists EmptyString, (split_sections s), (String c s). auto.
    + rewrite E. exists (String c l), ls, b. cbn. now rewrite <- Hs.
Qed.

Lemma split_sections_part (s raw : string) :
  In raw (split_sections s) -> exists a b, s = (a ++ raw ++ b)%string.
Proof.
  induction s as [|c s IH]; cbn [split_sections].
  - intros [<-|[]]. exists EmptyString, EmptyString. reflexivity.
  - destruct (Ascii.eqb c Py.nl && Py.startswith "## " s).
    + intros [<-|H].
      * exists EmptyString, (String c s). reflexivity.
      * destruct (IH H) as (a & b & ->). exists (String c a), b. reflexivity.
    + destruct (split_sections_head s) as (l & ls & b & E & Hs).
      rewrite E in *. intros [<-|H].
      * exists EmptyString, b. cbn. now rewrite <- Hs.
      * destruct (IH (or_intror H)) as (a & b' & ->).
        exists (String c a), b'. reflexivity.
Qed.

Lemma lstrip_suffix (s : string) :
  exists ws, s = (ws ++ Py.lstrip s)%string.
Proof.
  induction s as [|c s (ws & IH)]; cbn [Py.lstrip].
  - exists EmptyString. reflexivity.
  - destruct (Py.isspace c).
    + exists (String c ws). cbn. now rewrite <- IH.
    + exists EmptyString. reflexivity.
Qed.

Lemma rstrip_prefix (s : string) :
  exists ws, s = (Py.rstrip s ++ ws)%string.
Proof.
  induction s as [|c s (ws & IH)]; cbn [Py.rstrip].
  - exists EmptyString. reflexivity.
  - destruct (Py.rstrip s) as [|r rs] eqn:E.
    + destruct (Py.isspace c).
      * exists (String c s). reflexivity.
      * exists s. reflexivity.
    + exists ws. cbn [append]. f_equal. exact IH.
Qed.

Lemma header_needs_the_mark (content raw : string) :
  Py.contains "## " content = false ->
  In raw (split_sections content) ->
  match_header (Py.strip raw) = None.
Proof.
  intros Hno Hraw. unfold match_header.
  destruct (Py.startswith "## " (Py.strip raw)) eqn:E; [|reflexivity].
  exfalso. apply startswith_app in E. destruct E as (r & E).
  destruct (split_sections_part _ _ Hraw) as (a & b & ->).
  destruct (lstrip_suffix raw) as (ws & Hl).
  destruct (rstrip_prefix (Py.lstrip raw)) as (ws' & Hr).
  unfold Py.strip in E. rewrite E in Hr. rewrite Hr in Hl.
  rewrite Hl in Hno.
  replace (a ++ (ws ++ ("## " ++ r) ++ ws') ++ b)%string
    with ((a ++ ws) ++ "## " ++ (r ++ ws' ++ b))%string in Hno
    by (rewrite !str_app_assoc; reflexivity).
  rewrite contains_intro in Hno. discriminate.
Qed.

Lemma found_sections_empty (content : string) :
  Py.contains "## " content = false -> found_sections content = [].
Proof.
  intros Hno. unfold found_sections.
  assert (H : forall raw, In raw (split_sections content) ->
                match_header (Py.strip raw) = None)
    by (intros raw; now apply header_needs_the_mark).
  revert H. generalize (split_sections content). intros l.
  generalize (@nil (string * string)).
  induction l as [|raw l IH]; intros d H; cbn [fold_left]; [reflexivity|].
  rewrite (H raw (or_introl eq_refl)). apply IH.
  intros raw' Hin. apply H. now right.
Qed.

(** X27. A document in which no level-two header mark occurs is audited as
    having none of the standard sections, however long it is: every
    section is reported missing with score 0, and the audit ends with
    grade D, MAJOR_REWRITE_NEEDED, an average of 0 and 15 issues. *)
Theorem gdd_without_headers_is_all_missing (content : string) :
  Py.contains "## " content = false ->
  let out := _run findall content in
  sections out = map (missing_report) GDD_SECTIONS
  /\ sections_found out = 0
  /\ total_issues out = 15
  /\ (average_score out == 0)%Q
  /\ grade_of out = D
  /\ verdict_of out = MAJOR_REWRITE_NEEDED
  /\ total_words out = List.length (PyText.split content).
Proof.
  intros Hno. cbn zeta. unfold _run. cbn zeta.
  rewrite (found_sections_empty content Hno).
  repeat split.
Qed.

End AuditorHeaders.

(** ** Stage selection of the flow *)

Section FlowFacts.
Import SlotStudioFlow.

(** X28. The slug that names the output directory holds at most 40
    code points, the first 40 of the lower-cased theme when it has that
    many, and each of them is alphanumeric or the underscore that
    replaced a code point that is not: whatever the theme, a code point
    that is neither (a path separator, a dot, a space, a line break)
    does not occur in it. *)
Theorem slug_is_a_plain_directory_name
    (char : Type) (lower : list char -> list char) (isalnum : char -> bool)
    (underscore : char) (theme : list char) :
  List.length (slug char lower isalnum underscore theme) <= 40
  /\ List.length (slug char lower isalnum underscore theme)
     = Nat.min 40 (List.length (lower theme))
  /\ Forall (fun c => isalnum c = true \/ c = underscore)
            (slug char lower isalnum underscore theme)
  /\ forall c, isalnum c = false -> c <> underscore ->
       ~ In c (slug char lower isalnum underscore theme).
Proof.
  assert (Hall : Forall (fun c => isalnum c = true \/ c = underscore)
                        (slug char lower isalnum underscore theme)).
  { unfold slug. apply Forall_forall. intros c Hc.
    assert (Hc' : In c (map (fun c => if isalnum c then c else underscore)
                            (lower theme))).
    { rewrite <- (firstn_skipn 40). apply in_or_app. now left. }
    apply in_map_iff in Hc'. destruct Hc' as (x & <- & _).
    destruct (isalnum x) eqn:E; auto. }
  assert (Hlen : List.length (slug char lower isalnum underscore theme)
                 = Nat.min 40 (List.length (lower theme))).
  { unfold slug. now rewrite length_firstn, length_map. }
  split; [rewrite Hlen; apply Nat.le_min_l|].
  split; [exact Hlen|]. split; [exact Hall|].
  intros c Hn Hu Hin.
  rewrite Forall_forall in Hall. destruct (Hall c Hin); congruence.
Qed.

Lemma stage_dirs_skip (stage d : string) (dirs : list string) :
  In (stage, dirs) stage_dir_map -> In d dirs ->
  forall rerun_stages,
    existsb (fun sd => Py.startswith sd d) (skip_dirs rerun_stages)
    = Py.mem stage rerun_stages.
Proof.
  intros Hs Hd rerun. unfold skip_dirs, Py.mem.
  induction rerun as [|s rerun IH]; cbn [flat_map existsb]; [reflexivity|].
  rewrite existsb_app, IH. f_equal. clear IH.
  cbn [stage_dir_map In] in Hs.
  repeat (destruct Hs as [Hs|Hs];
          [injection Hs as <- <-; cbn [In] in Hd;
           repeat (destruct Hd as [<-|Hd]; [|]); try contradiction|]);
    try contradiction;
    unfold stage_dir_map; cbn [Py.dict_get];
    repeat match goal with
    | |- context [String.eqb ?a s] =>
        lazymatch a with
        | s => fail
        | _ => destruct (String.eqb a s) eqn:?E
        end
    end;
    repeat match goal with
    | H : String.eqb _ s = true |- _ => apply String.eqb_eq in H; subst s
    end;
    try discriminate; reflexivity.
Qed.

(** X29. In iterate mode the directories a stage owns are carried over from
    the source job exactly when that stage is not selected for re-run;
    the PDF and prototype directories are never carried over and the
    preflight and research directories always are. *)
Theorem stage_outputs_are_copied_iff_stage_is_skipped
    (rerun_stages : list string) :
  (forall stage dirs d,
     In (stage, dirs) stage_dir_map -> In d dirs ->
     copied rerun_stages d = _should_skip_stage true rerun_stages stage)
  /\ copied rerun_stages "06_pdf" = false
  /\ copied rerun_stages "07_prototype" = false
  /\ copied rerun_stages "00_preflight" = true
  /\ copied rerun_stages "01_research" = true.
Proof.
  assert (Hnone : forall d,
            (forall stage dirs sd, In (stage, dirs) stage_dir_map ->
               In sd dirs -> Py.startswith sd d = false) ->
            existsb (fun sd => Py.startswith sd d) (skip_dirs rerun_stages)
            = false).
  { intros d H. destruct (existsb _ _) eqn:E; [|reflexivity].
    apply existsb_exists in E. destruct E as (sd & Hin & Hsd).
    unfold skip_dirs in Hin. apply in_flat_map in Hin.
    destruct Hin as (stage & _ & Hin).
    destruct (Py.dict_get stage_dir_map stage) as [dirs|] eqn:Eg;
      [|contradiction].
    apply dict_get_In in Eg. rewrite (H _ _ _ Eg Hin) in Hsd. discriminate. }
  assert (Hfixed : forall d,
            In d ["06_pdf"; "07_prototype"; "00_preflight"; "01_research"] ->
            forall stage dirs sd, In (stage, dirs) stage_dir_map ->
              In sd dirs -> Py.startswith sd d = false).
  { intros d Hd stage dirs sd Hs Hsd. cbn [stage_dir_map In] in Hs, Hd.
    repeat (destruct Hs as [Hs|Hs];
            [injection Hs as <- <-; cbn [In] in Hsd;
             repeat (destruct Hsd as [<-|Hsd]; [|]); try contradiction|]);
      try contradiction;
      repeat (destruct Hd as [<-|Hd]; [reflexivity|]); contradiction. }
  split; [|repeat split].
  - intros stage dirs d Hs Hd. unfold copied, _should_skip_stage. cbn zeta.
    rewrite (stage_dirs_skip stage d dirs Hs Hd). cbn [negb].
    replace (Py.mem d ["06_pdf"; "07_prototype"]) with false;
      [now rewrite andb_true_r|].
    cbn [stage_dir_map In] in Hs.
    repeat (destruct Hs as [Hs|Hs];
            [injection Hs as <- <-; cbn [In] in Hd;
             repeat (destruct Hd as [<-|Hd]; [reflexivity|]);
             contradiction|]).
    contradiction.
  - unfold copied. cbn zeta. rewrite Hnone; [reflexivity|].
    apply Hfixed. cbn. auto.
  - unfold copied. cbn zeta. rewrite Hnone; [reflexivity|].
    apply Hfixed. cbn. auto.
  - unfold copied. cbn zeta. rewrite Hnone; [reflexivity|].
    apply Hfixed. cbn. auto.
  - unfold copied. cbn zeta. rewrite Hnone; [reflexivity|].
    apply Hfixed. cbn. auto.
Qed.

(** X30. When the design and math stage is skipped in iterate mode, the
    design and math directories it would have written were both carried
    over from the source job; and a re-run of the convergence stage
    alone runs the stage on carried-over directories. *)
Theorem skipped_design_stage_finds_its_inputs (rerun_stages : list string) :
  (runs_design_and_math true true rerun_stages = false ->
   copied rerun_stages "02_design" = true
   /\ copied rerun_stages "03_math" = true)
  /\ (runs_design_and_math true true rerun_stages = true
      <-> Py.mem "math" rerun_stages = true
          \/ Py.mem "gdd" rerun_stages = true
          \/ Py.mem "convergence" rerun_stages = true)
  /\ forall research_approved iterate_mode,
       research_approved = false ->
       runs_design_and_math research_approved iterate_mode rerun_stages
       = false.
Proof.
  assert (Hrun : runs_design_and_math true true rerun_stages = true
                 <-> Py.mem "math" rerun_stages = true
                     \/ Py.mem "gdd" rerun_stages = true
                     \/ Py.mem "convergence" rerun_stages = true).
  { unfold runs_design_and_math. cbn [negb].
    rewrite existsb_exists. split.
    - intros (s & Hs & Hm). apply mem_In in Hm. cbn [In] in Hm.
      destruct Hm as [<-|[<-|[<-|[]]]];
        [left|right; left|right; right]; now apply mem_In.
    - intros [H|[H|H]]; apply mem_In in H; eexists; (split; [exact H|]);
        reflexivity. }
  split; [|split; [exact Hrun|]].
  - intros Hskip.
    assert (Hm : Py.mem "math" rerun_stages = false).
    { destruct (Py.mem "math" rerun_stages) eqn:E; [|reflexivity].
      assert (H : runs_design_and_math true true rerun_stages = true)
        by (apply Hrun; auto).
      congruence. }
    assert (Hg : Py.mem "gdd" rerun_stages = false).
    { destruct (Py.mem "gdd" rerun_stages) eqn:E; [|reflexivity].
      assert (H : runs_design_and_math true true rerun_stages = true)
        by (apply Hrun; auto).
      congruence. }
    unfold copied. cbn zeta.
    rewrite (stage_dirs_skip "gdd" "02_design" ["02_design"]), Hg
      by (cbn; auto).
    rewrite (stage_dirs_skip "math" "03_math" ["03_math"]), Hm
      by (cbn; auto).
    split; reflexivity.
  - intros ra im ->. reflexivity.
Qed.

End FlowFacts.

(** ** The properties above on concrete inputs *)


Lemma names_resolve_up_to_case_and_padding_witness :
  Jurisdiction.lookup_profile " new JERSEY "
  = Jurisdiction.lookup_profile "New Jersey".
Proof.
  apply (names_resolve_up_to_case_and_padding " new JERSEY " "New Jersey").
  reflexivity.
Defined.

Lemma verdict_weighs_conflicts_then_warnings_witness :
  (ConvergenceValidatorTool.MARGINAL = ConvergenceValidatorTool.NOT_CONVERGED
   <-> ConvergenceValidatorTool.conflicts
         (ConvergenceValidatorTool.report Samples.warned_job 96 5000 ["UK"])
       <> [])
  /\ (ConvergenceValidatorTool.MARGINAL = ConvergenceValidatorTool.MARGINAL
      <-> ConvergenceValidatorTool.conflicts
            (ConvergenceValidatorTool.report Samples.warned_job 96 5000 ["UK"])
          = []
          /\ 3 < List.length
                   (ConvergenceValidatorTool.warnings
                      (ConvergenceValidatorTool.report Samples.warned_job
                         96 5000 ["UK"])))
  /\ (ConvergenceValidatorTool.MARGINAL = ConvergenceValidatorTool.CONVERGED
      <-> ConvergenceValidatorTool.conflicts
            (ConvergenceValidatorTool.report Samples.warned_job 96 5000 ["UK"])
          = []
          /\ List.length
               (ConvergenceValidatorTool.warnings
                  (ConvergenceValidatorTool.report Samples.warned_job
                     96 5000 ["UK"])) <= 3).
Proof.
  apply (verdict_weighs_conflicts_then_warnings Samples.warned_job 96 5000
           ["UK"]).
  vm_compute. reflexivity.
Defined.

Lemma marginal_verdict_names_an_uncosted_feature_witness :
  exists gdd_term math_key,
    In (gdd_term, math_key) ConvergenceValidatorTool.feature_keywords
    /\ In (ConvergenceValidatorTool.FEATURE_UNCOSTED gdd_term)
          (ConvergenceValidatorTool.warnings
             (ConvergenceValidatorTool.report Samples.warned_job 96 5000
                ["UK"]))
    /\ Py.contains gdd_term
         (Py.lower (ConvergenceValidatorTool.gdd_text Samples.warned_job))
       = true
    /\ ConvergenceValidatorTool.has_math
         (ConvergenceValidatorTool.sim Samples.warned_job) gdd_term math_key
       = false
    /\ ConvergenceValidatorTool.rtp_breakdown
         (ConvergenceValidatorTool.sim Samples.warned_job) <> [].
Proof.
  apply (marginal_verdict_names_an_uncosted_feature Samples.warned_job 96 5000
           ["UK"]).
  vm_compute. reflexivity.
Defined.

Lemma patched_section_stays_patchable_witness :
  (GDDPatchTool.has_section (Py.strip "## 2. Market") Documents.two_sections ->
   exists content',
     GDDPatchTool.gdd_file
       (snd (GDDPatchTool._run (Documents.at_time 0 Documents.two_sections)
               "## 2. Market" "Sweden only." "compliance"))
     = Some content'
     /\ GDDPatchTool.has_section (Py.strip "## 2. Market") content'
     /\ List.length
          (GDDPatchTool.revision_log
             (snd (GDDPatchTool._run
                     (Documents.at_time 0 Documents.two_sections)
                     "## 2. Market" "Sweden only." "compliance")))
        = S (List.length
               (GDDPatchTool.revision_log
                  (Documents.at_time 0 Documents.two_sections)))
     /\ forall new_content' reason',
          exists old_chars new_chars total e'',
            GDDPatchTool._run
              (snd (GDDPatchTool._run
                      (Documents.at_time 0 Documents.two_sections)
                      "## 2. Market" "Sweden only." "compliance"))
              "## 2. Market" new_content' reason'
            = (GDDPatchTool.Success "## 2. Market" reason' old_chars new_chars
                 total, e''))
  /\ (~ GDDPatchTool.has_section (Py.strip "## 2. Market")
          Documents.two_sections ->
      snd (GDDPatchTool._run (Documents.at_time 0 Documents.two_sections)
             "## 2. Market" "Sweden only." "compliance")
      = Documents.at_time 0 Documents.two_sections).
Proof.
  apply (patched_section_stays_patchable
           (Documents.at_time 0 Documents.two_sections)
           Documents.two_sections "## 2. Market" "Sweden only." "compliance").
  reflexivity.
Defined.

Lemma patch_length_accounting_witness :
  63 + 14
  = String.length Documents.two_sections
    + String.length (Py.strip "Sweden only.") + 3
  /\ 14 <= String.length Documents.two_sections
  /\ 12 = String.length "Sweden only."
  /\ (exists content',
        GDDPatchTool.gdd_file
          (snd (GDDPatchTool._run (Documents.at_time 0 Documents.two_sections)
                  "## 2. Market" "Sweden only." "compliance"))
        = Some content'
        /\ String.length content' = 63)
  /\ exists entry,
       GDDPatchTool.revision_log
         (snd (GDDPatchTool._run (Documents.at_time 0 Documents.two_sections)
                 "## 2. Market" "Sweden only." "compliance"))
       = GDDPatchTool.revision_log (Documents.at_time 0 Documents.two_sections)
         ++ [entry]
       /\ GDDPatchTool.delta entry = (Z.of_nat 12 - Z.of_nat 14)%Z
       /\ (Z.of_nat 63 - Z.of_nat (String.length Documents.two_sections)
           = GDDPatchTool.delta entry + 3
             - (Z.of_nat (String.length "Sweden only.")
                - Z.of_nat (String.length (Py.strip "Sweden only."))))%Z.
Proof.
  apply (patch_length_accounting
           (Documents.at_time 0 Documents.two_sections)
           Documents.two_sections "## 2. Market" "Sweden only." "compliance"
           "## 2. Market" "compliance" 14 12 63
           (snd (GDDPatchTool._run (Documents.at_time 0 Documents.two_sections)
                   "## 2. Market" "Sweden only." "compliance"))).
  - reflexivity.
  - vm_compute. reflexivity.
Defined.

Lemma marginal_paytable_has_a_symbol_without_pay_witness :
  exists fieldnames data r,
    Samples.dull_paytable
    = PaytableSanityCheckerTool.PaytableRows fieldnames data
    /\ In r data
    /\ In (PaytableSanityCheckerTool.ZERO_PAY
             (PaytableSanityCheckerTool.symbol_of fieldnames "???" r))
          (PaytableSanityCheckerTool.warnings
             (PaytableSanityCheckerTool._run Tables.decimal
                Samples.dull_paytable Samples.one_reel))
    /\ Py.nonempty (PaytableSanityCheckerTool.symbol_of fieldnames "???" r)
       = true
    /\ PaytableSanityCheckerTool.is_special
         (PaytableSanityCheckerTool.symbol_of fieldnames "???" r) = false
    /\ forall pk,
         In pk (PaytableSanityCheckerTool.sorted_keys fieldnames) ->
         ~ (0 < PaytableSanityCheckerTool.pay_value Tables.decimal r
                  (PaytableSanityCheckerTool.column_of fieldnames pk))%Q.
Proof.
  apply (marginal_paytable_has_a_symbol_without_pay Tables.decimal
           Samples.dull_paytable Samples.one_reel).
  vm_compute. reflexivity.
Defined.

Lemma reader_returns_a_prefix_of_the_file_witness :
  exists truncated shown rest,
    FileReaderTool._run Samples.one_file "gdd.md" 5
    = FileReaderTool.FileRead truncated shown
    /\ "## 1. Game Overview" = (shown ++ rest)%string
    /\ (truncated = false -> rest = EmptyString)
    /\ ((0 <= 5)%Z ->
        (truncated = true <-> rest <> EmptyString)
        /\ Z.of_nat (String.length shown)
           = Z.min 5 (Z.of_nat (String.length "## 1. Game Overview"))).
Proof.
  apply (reader_returns_a_prefix_of_the_file Samples.one_file "gdd.md"
           "## 1. Game Overview" 5%Z).
  reflexivity.
Defined.

Lemma gdd_without_headers_is_all_missing_witness :
  GDDQualityAuditorTool.sections
    (GDDQualityAuditorTool._run Samples.no_match "A slot about tides.")
  = map GDDQualityAuditorTool.missing_report GDDQualityAuditorTool.GDD_SECTIONS
  /\ GDDQualityAuditorTool.sections_found
       (GDDQualityAuditorTool._run Samples.no_match "A slot about tides.") = 0
  /\ GDDQualityAuditorTool.total_issues
       (GDDQualityAuditorTool._run Samples.no_match "A slot about tides.") = 15
  /\ (GDDQualityAuditorTool.average_score
        (GDDQualityAuditorTool._run Samples.no_match "A slot about tides.")
      == 0)%Q
  /\ GDDQualityAuditorTool.grade_of
       (GDDQualityAuditorTool._run Samples.no_match "A slot about tides.")
     = GDDQualityAuditorTool.D
  /\ GDDQualityAuditorTool.verdict_of
       (GDDQualityAuditorTool._run Samples.no_match "A slot about tides.")
     = GDDQualityAuditorTool.MAJOR_REWRITE_NEEDED
  /\ GDDQualityAuditorTool.total_words
       (GDDQualityAuditorTool._run Samples.no_match "A slot about tides.")
     = List.length (PyText.split "A slot about tides.").
Proof.
  apply (gdd_without_headers_is_all_missing Samples.no_match
           "A slot about tides.").
  reflexivity.
Defined.

Lemma zero_max_win_target_makes_the_validator_raise_witness :
  ConvergenceValidatorOnJson._run PyNumber.sum_left
    (Simulations.with_simulation Simulations.big_win)
    Simulations.ninety_six 0 ["UK"]
  = None.
Proof.
  apply (zero_max_win_target_makes_the_validator_raise PyNumber.sum_left
           (Simulations.with_simulation Simulations.big_win)
           Simulations.ninety_six ["UK"]
           [("measured_rtp", Json.JInt 96);
            ("max_win_achieved", Json.JInt 4800)]
           (PyNumber.Int 4800)).
  - reflexivity.
  - reflexivity.
  - reflexivity.
Defined.
